(** * Proactive-message scheduling and policy engine

    A shallow embedding of the scheduling core of the bot
    (bot/utils.py, bot/policy.py, bot/db.py, bot/main.py, bot/scheduler.py)
    and the properties of its plan store, policy functions, plan
    application and due-plan execution loop.

    Conventions of the embedding.
    - A [datetime] is a count of microseconds on the wall clock of the
      configured zone (Python compares, shifts and [replace]s aware
      datetimes that share a tzinfo on their wall-clock fields); the bounds
      of the datetime type (years 1..9999) are not modelled.
    - A [time] is the record of its four fields; Python orders times by the
      tuple (hour, minute, second, microsecond), which for times within
      their field ranges is the order of [time_us] (lemma [time_us_lex]).
    - A table of the SQLite store is the list of its rows in rowid order;
      UPDATE .. WHERE is a [map], SELECT .. WHERE a [filter].
    - Floats (confidence, probabilities) are rationals. *)

From Stdlib Require Import ZArith List String Bool Lia QArith.
From Stdlib Require Import Sorting.Sorted Sorting.Permutation.
Import ListNotations.
Local Open Scope Z_scope.

(* ------------------------------------------------------------------ *)
(** ** datetime, time, timedelta *)

Module Datetime.

Record time := mkTime {
  hour : Z;
  minute : Z;
  second : Z;
  microsecond : Z
}.

Definition time_valid (t : time) : Prop :=
  0 <= hour t < 24 /\ 0 <= minute t < 60 /\
  0 <= second t < 60 /\ 0 <= microsecond t < 1000000.

Definition US_PER_SECOND : Z := 1000000.
Definition US_PER_MINUTE : Z := 60 * US_PER_SECOND.
Definition US_PER_HOUR : Z := 60 * US_PER_MINUTE.
Definition US_PER_DAY : Z := 24 * US_PER_HOUR.

(** Microseconds since midnight. *)
Definition time_us (t : time) : Z :=
  hour t * US_PER_HOUR + minute t * US_PER_MINUTE
  + second t * US_PER_SECOND + microsecond t.

Definition time_leb (a b : time) : bool := time_us a <=? time_us b.
Definition time_ltb (a b : time) : bool := time_us a <? time_us b.

(** The tuple order of Python's [time.__lt__]. *)
Definition time_lex_ltb (a b : time) : bool :=
  match hour a ?= hour b with
  | Lt => true
  | Gt => false
  | Eq =>
    match minute a ?= minute b with
    | Lt => true
    | Gt => false
    | Eq =>
      match second a ?= second b with
      | Lt => true
      | Gt => false
      | Eq => microsecond a <? microsecond b
      end
    end
  end.

Definition datetime := Z.
Definition timedelta := Z.

Definition seconds (n : Z) : timedelta := n * US_PER_SECOND.
Definition hours (n : Z) : timedelta := n * US_PER_HOUR.
Definition days (n : Z) : timedelta := n * US_PER_DAY.

Definition time_of_us (u : Z) : time :=
  mkTime (u / US_PER_HOUR) ((u / US_PER_MINUTE) mod 60)
         ((u / US_PER_SECOND) mod 60) (u mod US_PER_SECOND).

(** [dt.timetz().replace(tzinfo=None)]: the wall-clock time of day. *)
Definition timetz (dt : datetime) : time := time_of_us (dt mod US_PER_DAY).

(** [dt.date()], as the ordinal of the day. *)
Definition date (dt : datetime) : Z := dt / US_PER_DAY.

(** [dt.replace(hour=h, minute=m, second=0, microsecond=0)]. *)
Definition replace_hm (dt : datetime) (h m : Z) : datetime :=
  dt - dt mod US_PER_DAY + time_us (mkTime h m 0 0).

End Datetime.
Import Datetime.

(* ------------------------------------------------------------------ *)
(** ** bot/utils.py *)

Module Utils.

Definition ensure_min_delay (dt base : datetime) (min_delay : timedelta)
  : datetime :=
  if dt <? base + min_delay then base + min_delay else dt.

(** [from_ts_utc]: a POSIX timestamp in seconds as a UTC datetime. *)
Definition from_ts_utc (ts : Z) : datetime := ts * US_PER_SECOND.

(** [utc_ts]: [int(dt.timestamp())] of a UTC datetime. *)
Definition utc_ts (dt : datetime) : Z := Z.quot dt US_PER_SECOND.

End Utils.
Import Utils.

(* ------------------------------------------------------------------ *)
(** ** bot/policy.py: quiet hours *)

Module Policy.

Definition MIN_SCHEDULE_DELAY : timedelta := seconds 60.

Record QuietBlock := mkQuietBlock {
  start : time;
  end_ : time
}.

(** The body of the loop over the blocks in [is_within_quiet_hours]. *)
Fixpoint time_in_blocks (local_time : time) (blocks : list QuietBlock)
  : bool :=
  match blocks with
  | [] => false
  | block :: rest =>
    if time_leb (start block) (end_ block) then
      if time_leb (start block) local_time
         && time_ltb local_time (end_ block)
      then true
      else time_in_blocks local_time rest
    else
      if time_leb (start block) local_time
         || time_ltb local_time (end_ block)
      then true
      else time_in_blocks local_time rest
  end.

Definition is_within_quiet_hours (local_dt : datetime)
           (blocks : list QuietBlock) : bool :=
  let local_time := timetz local_dt in
  time_in_blocks local_time blocks.

(** The inner [for block in blocks] of [next_allowed_time]: [Some c] when
    a block matched and the candidate moved to [c] ([moved = True] and
    [break]), [None] when the loop ran to its end. *)
Fixpoint scan_blocks (candidate : datetime) (local_time : time)
         (blocks : list QuietBlock) : option datetime :=
  match blocks with
  | [] => None
  | block :: rest =>
    if time_leb (start block) (end_ block) then
      if time_leb (start block) local_time
         && time_ltb local_time (end_ block)
      then Some (replace_hm candidate
                   (hour (end_ block)) (minute (end_ block)))
      else scan_blocks candidate local_time rest
    else
      if time_leb (start block) local_time
      then Some (replace_hm (candidate + days 1)
                   (hour (end_ block)) (minute (end_ block)))
      else if time_ltb local_time (end_ block)
      then Some (replace_hm candidate
                   (hour (end_ block)) (minute (end_ block)))
      else scan_blocks candidate local_time rest
  end.

(** The outer [for _ in range(n)], stopped by [if not moved: break]. *)
Fixpoint next_allowed_rounds (n : nat) (candidate : datetime)
         (blocks : list QuietBlock) : datetime :=
  match n with
  | O => candidate
  | S n' =>
    match scan_blocks candidate (timetz candidate) blocks with
    | Some moved => next_allowed_rounds n' moved blocks
    | None => candidate
    end
  end.

Definition next_allowed_time (local_dt : datetime)
           (blocks : list QuietBlock) : datetime :=
  next_allowed_rounds 5 local_dt blocks.

Definition sanitize_schedule_time (send_at local_now : datetime)
           (blocks : list QuietBlock) : datetime :=
  let send_at := ensure_min_delay send_at local_now MIN_SCHEDULE_DELAY in
  if is_within_quiet_hours send_at blocks
  then next_allowed_time send_at blocks
  else send_at.

End Policy.
Import Policy.

(* ------------------------------------------------------------------ *)
(** ** bot/models.py and bot/config.py *)

Module Models.

(** [Literal["direct", "group"]]. *)
Inductive ChatType := direct | group.

(** [Literal["none", "cancel_all", "replace_all", "append"]]. *)
Inductive Action := none | cancel_all | replace_all | append.

(** The three values the store writes to [plans.status]. *)
Inductive Status := pending | sent | canceled.

Definition ChatType_eqb (a b : ChatType) : bool :=
  match a, b with
  | direct, direct | group, group => true
  | _, _ => false
  end.

Definition Status_eqb (a b : Status) : bool :=
  match a, b with
  | pending, pending | sent, sent | canceled, canceled => true
  | _, _ => false
  end.

Module LLMPlanItem.
Record t := mk {
  send_at : string;
  text : string;
  gif_tag : option string;
  reason : string;
  confidence : Q
}.
End LLMPlanItem.

Module MessageRecord.
Record t := mk {
  chat_id : string;
  sender_id : string;
  role : string;
  ts_utc : Z;
  content : string;
  msg_type : string
}.
End MessageRecord.

(** A row of [conversations]; [daily_date] is the ISO date string, kept
    as the ordinal of the day it denotes. *)
Module ConversationState.
Record t := mk {
  chat_id : string;
  chat_type : ChatType;
  summary : string;
  last_user_ts_utc : option Z;
  last_bot_ts_utc : option Z;
  daily_count : Z;
  daily_date : option Z
}.
End ConversationState.

(** A row of [plans]. *)
Module PlanRow.
Record t := mk {
  id : Z;
  chat_id : string;
  send_at_utc : Z;
  text : string;
  gif_tag : option string;
  status : Status;
  reason : string;
  confidence : Q;
  created_at_utc : Z;
  updated_at_utc : Z
}.
End PlanRow.

Module PlanRecord.
Record t := mk {
  id : Z;
  chat_id : string;
  send_at_utc : Z;
  text : string;
  gif_tag : option string;
  status : Status;
  reason : string;
  confidence : Q
}.
End PlanRecord.

End Models.
Import Models.

Module Config.

Inductive GifRate := off | low | medium | high.

Module ProactiveConfig.
Record t := mk {
  enabled : bool;
  max_per_day : Z;
  cooldown_hours : Z;
  min_confidence : Q;
  max_pending_per_chat : Z
}.
Definition default : t := mk false 1 6 (6 # 10) 2.
End ProactiveConfig.

Module GroupConfig.
Record t := mk {
  allow_proactive : bool;
  reply_only_when_mentioned : bool
}.
Definition default : t := mk false true.
End GroupConfig.

(** [quiet_hours] holds, for each configured block, the two times its
    strings parse to ([parse_hhmm] is [time.fromisoformat], which reads
    "HH:MM" and also "HH:MM:SS" and "HH:MM:SS.ffffff"). *)
Module Settings.
Record t := mk {
  timezone : string;
  gif_rate : GifRate;
  proactive : ProactiveConfig.t;
  quiet_hours : list (time * time);
  groups : GroupConfig.t
}.
End Settings.

End Config.
Import Config.

Module PolicyGates.

Definition build_quiet_blocks (settings : Settings.t) : list QuietBlock :=
  map (fun block => mkQuietBlock (fst block) (snd block))
      (Settings.quiet_hours settings).

Definition should_reply_in_group (is_mention : bool) (settings : Settings.t)
  : bool :=
  if negb (GroupConfig.reply_only_when_mentioned (Settings.groups settings))
  then true
  else is_mention.

Definition should_schedule_proactive (settings : Settings.t)
           (chat_type : ChatType) : bool :=
  if negb (ProactiveConfig.enabled (Settings.proactive settings))
  then false
  else if ChatType_eqb chat_type group
          && negb (GroupConfig.allow_proactive (Settings.groups settings))
  then false
  else true.

Definition can_use_plan (item : LLMPlanItem.t) (settings : Settings.t)
  : bool :=
  Qle_bool (ProactiveConfig.min_confidence (Settings.proactive settings))
           (LLMPlanItem.confidence item).

Definition GIF_RATE_PROB (gif_rate : GifRate) : Q :=
  match gif_rate with
  | off => 0
  | low => 2 # 10
  | medium => 5 # 10
  | high => 8 # 10
  end.

(** [allow_gif], given the value [random.random()] returns. *)
Definition allow_gif (gif_rate : GifRate) (draw : Q) : bool :=
  let prob := GIF_RATE_PROB gif_rate in
  if Qle_bool prob 0 then false
  else negb (Qle_bool prob draw).

End PolicyGates.
Import PolicyGates.

(* ------------------------------------------------------------------ *)
(** ** bot/db.py: the store *)

Module DB.

(** A plan as the callers pass it:
    (send_at_utc, text, gif_tag, reason, confidence). *)
Definition PlanTuple : Type := (Z * string * option string * string * Q)%type.

(** [plans_seq] is the [sqlite_sequence] entry the AUTOINCREMENT key of
    [plans] keeps: the largest rowid handed out so far. *)
Record BotDB := mkDB {
  messages : list MessageRecord.t;
  conversations : list ConversationState.t;
  plans : list PlanRow.t;
  plans_seq : Z
}.

Definition with_messages (db : BotDB) (ms : list MessageRecord.t) : BotDB :=
  mkDB ms (conversations db) (plans db) (plans_seq db).

Definition with_conversations (db : BotDB) (cs : list ConversationState.t)
  : BotDB :=
  mkDB (messages db) cs (plans db) (plans_seq db).

Definition with_plans (db : BotDB) (ps : list PlanRow.t) : BotDB :=
  mkDB (messages db) (conversations db) ps (plans_seq db).

Definition add_message (db : BotDB) (chat_id sender_id role : string)
           (ts_utc : Z) (content msg_type : string) : BotDB :=
  with_messages db
    (messages db
     ++ [MessageRecord.mk chat_id sender_id role ts_utc content msg_type]).

(** [get_conversation]: [None] stands for the RuntimeError raised when no
    row has the chat id. *)
Definition get_conversation (db : BotDB) (chat_id : string)
  : option ConversationState.t :=
  find (fun row => String.eqb (ConversationState.chat_id row) chat_id)
       (conversations db).

(** UPDATE conversations SET .. WHERE chat_id = ? *)
Definition update_conversation (db : BotDB) (chat_id : string)
           (set : ConversationState.t -> ConversationState.t) : BotDB :=
  with_conversations db
    (map (fun row =>
            if String.eqb (ConversationState.chat_id row) chat_id
            then set row else row)
         (conversations db)).

Definition update_last_bot_ts (db : BotDB) (chat_id : string) (ts_utc : Z)
  : BotDB :=
  update_conversation db chat_id (fun row =>
    ConversationState.mk
      (ConversationState.chat_id row) (ConversationState.chat_type row)
      (ConversationState.summary row)
      (ConversationState.last_user_ts_utc row) (Some ts_utc)
      (ConversationState.daily_count row)
      (ConversationState.daily_date row)).

Definition update_daily_counter (db : BotDB) (chat_id : string)
           (daily_count : Z) (daily_date : Z) : BotDB :=
  update_conversation db chat_id (fun row =>
    ConversationState.mk
      (ConversationState.chat_id row) (ConversationState.chat_type row)
      (ConversationState.summary row)
      (ConversationState.last_user_ts_utc row)
      (ConversationState.last_bot_ts_utc row)
      daily_count (Some daily_date)).

Definition set_status (row : PlanRow.t) (st : Status) (now_utc : Z)
  : PlanRow.t :=
  PlanRow.mk (PlanRow.id row) (PlanRow.chat_id row) (PlanRow.send_at_utc row)
             (PlanRow.text row) (PlanRow.gif_tag row) st
             (PlanRow.reason row) (PlanRow.confidence row)
             (PlanRow.created_at_utc row) now_utc.

Definition set_send_at (row : PlanRow.t) (send_at_utc now_utc : Z)
  : PlanRow.t :=
  PlanRow.mk (PlanRow.id row) (PlanRow.chat_id row) send_at_utc
             (PlanRow.text row) (PlanRow.gif_tag row) (PlanRow.status row)
             (PlanRow.reason row) (PlanRow.confidence row)
             (PlanRow.created_at_utc row) now_utc.

Definition _plan_from_row (row : PlanRow.t) : PlanRecord.t :=
  PlanRecord.mk (PlanRow.id row) (PlanRow.chat_id row)
                (PlanRow.send_at_utc row) (PlanRow.text row)
                (PlanRow.gif_tag row) (PlanRow.status row)
                (PlanRow.reason row) (PlanRow.confidence row).

(** WHERE chat_id = ? AND status = 'pending' *)
Definition pending_of (chat_id : string) (row : PlanRow.t) : bool :=
  String.eqb (PlanRow.chat_id row) chat_id
  && Status_eqb (PlanRow.status row) pending.

(** WHERE status = 'pending' AND send_at_utc <= ? *)
Definition due_at (now_utc : Z) (row : PlanRow.t) : bool :=
  Status_eqb (PlanRow.status row) pending
  && (PlanRow.send_at_utc row <=? now_utc).

(** ORDER BY send_at_utc ASC: rows of equal send time stay in rowid
    order. *)
Fixpoint insert_by_send_at (row : PlanRow.t) (sorted : list PlanRow.t)
  : list PlanRow.t :=
  match sorted with
  | [] => [row]
  | r :: rest =>
    if PlanRow.send_at_utc row <=? PlanRow.send_at_utc r
    then row :: r :: rest
    else r :: insert_by_send_at row rest
  end.

Fixpoint order_by_send_at (rows : list PlanRow.t) : list PlanRow.t :=
  match rows with
  | [] => []
  | r :: rest => insert_by_send_at r (order_by_send_at rest)
  end.

(** LIMIT ?: SQLite puts no bound on the rows when the limit is negative. *)
Definition sql_limit {A : Type} (limit : Z) (rows : list A) : list A :=
  if limit <? 0 then rows else firstn (Z.to_nat limit) rows.

Definition get_pending_plans (db : BotDB) (chat_id : string)
  : list PlanRecord.t :=
  map _plan_from_row
      (order_by_send_at (filter (pending_of chat_id) (plans db))).

Definition count_pending_plans (db : BotDB) (chat_id : string) : Z :=
  Z.of_nat (List.length (filter (pending_of chat_id) (plans db))).

(** The rowid an AUTOINCREMENT insert takes: one more than the largest
    rowid the table has ever held. *)
Definition next_plan_id (db : BotDB) : Z :=
  fold_right (fun row acc => Z.max (PlanRow.id row) acc)
             (plans_seq db) (plans db) + 1.

(** INSERT INTO plans (..) VALUES (?, ?, ?, ?, 'pending', ?, ?, ?, ?) *)
Definition insert_plan (db : BotDB) (chat_id : string) (plan : PlanTuple)
           (now_utc : Z) : BotDB :=
  let '(send_at_utc, text, gif_tag, reason, confidence) := plan in
  let rowid := next_plan_id db in
  mkDB (messages db) (conversations db)
       (plans db
        ++ [PlanRow.mk rowid chat_id send_at_utc text gif_tag pending
                       reason confidence now_utc now_utc])
       rowid.

Definition add_plan (db : BotDB) (chat_id : string) (send_at_utc : Z)
           (text : string) (gif_tag : option string) (reason : string)
           (confidence : Q) (now_utc : Z) : BotDB :=
  insert_plan db chat_id (send_at_utc, text, gif_tag, reason, confidence)
              now_utc.

(** UPDATE plans SET status = 'canceled', updated_at_utc = ?
    WHERE chat_id = ? AND status = 'pending' *)
Definition cancel_pending (db : BotDB) (chat_id : string) (now_utc : Z)
  : BotDB :=
  with_plans db
    (map (fun row =>
            if pending_of chat_id row then set_status row canceled now_utc
            else row)
         (plans db)).

(** Returns the store and [cursor.rowcount]. *)
Definition cancel_all_plans (db : BotDB) (chat_id : string) (now_utc : Z)
  : BotDB * Z :=
  (cancel_pending db chat_id now_utc,
   Z.of_nat (List.length (filter (pending_of chat_id) (plans db)))).

(** UPDATE plans SET status = 'sent', updated_at_utc = ? WHERE id = ? *)
Definition mark_plan_sent (db : BotDB) (plan_id : Z) (now_utc : Z) : BotDB :=
  with_plans db
    (map (fun row =>
            if PlanRow.id row =? plan_id then set_status row sent now_utc
            else row)
         (plans db)).

(** UPDATE plans SET status = 'canceled', updated_at_utc = ? WHERE id = ? *)
Definition mark_plan_canceled (db : BotDB) (plan_id : Z) (now_utc : Z)
  : BotDB :=
  with_plans db
    (map (fun row =>
            if PlanRow.id row =? plan_id then set_status row canceled now_utc
            else row)
         (plans db)).

(** UPDATE plans SET send_at_utc = ?, updated_at_utc = ? WHERE id = ? *)
Definition reschedule_plan (db : BotDB) (plan_id : Z)
           (send_at_utc now_utc : Z) : BotDB :=
  with_plans db
    (map (fun row =>
            if PlanRow.id row =? plan_id
            then set_send_at row send_at_utc now_utc
            else row)
         (plans db)).

Definition get_due_plans (db : BotDB) (now_utc : Z) (limit : Z)
  : list PlanRecord.t :=
  map _plan_from_row
      (sql_limit limit
         (order_by_send_at (filter (due_at now_utc) (plans db)))).

(** The default of the [limit] argument. *)
Definition get_due_plans_default_limit : Z := 50.

Definition append_plans (db : BotDB) (chat_id : string)
           (new_plans : list PlanTuple) (now_utc : Z) : BotDB :=
  fold_left (fun acc plan => insert_plan acc chat_id plan now_utc)
            new_plans db.

Definition replace_plans (db : BotDB) (chat_id : string)
           (new_plans : list PlanTuple) (now_utc : Z) : BotDB :=
  fold_left (fun acc plan => insert_plan acc chat_id plan now_utc)
            new_plans (cancel_pending db chat_id now_utc).

(** The status and the send time of the row with a given id. *)
Definition plan_row (db : BotDB) (plan_id : Z) : option PlanRow.t :=
  find (fun row => PlanRow.id row =? plan_id) (plans db).

Definition plan_status (db : BotDB) (plan_id : Z) : option Status :=
  option_map PlanRow.status (plan_row db plan_id).

Definition plan_send_at (db : BotDB) (plan_id : Z) : option Z :=
  option_map PlanRow.send_at_utc (plan_row db plan_id).

End DB.
Import DB.

(* ------------------------------------------------------------------ *)
(** ** Zones and Python helpers *)

Module Zone.

(** The configured zone, as the offset of its wall clock from UTC
    ([utcoffset tz_name], in microseconds), taken constant over the instants
    of one call. *)
Definition astimezone (utcoffset : string -> timedelta) (tz_name : string)
           (utc_dt : datetime) : datetime :=
  utc_dt + utcoffset tz_name.

(** [int(local_dt.astimezone(timezone.utc).timestamp())]. *)
Definition utc_timestamp (utcoffset : string -> timedelta) (tz_name : string)
           (local_dt : datetime) : Z :=
  utc_ts (local_dt - utcoffset tz_name).

End Zone.
Import Zone.

Module Py.

(** Truth value of an [int | None]: [None] and [0] are false. *)
Definition truthy_int (v : option Z) : option Z :=
  match v with
  | Some n => if n =? 0 then None else Some n
  | None => None
  end.

(** Truth value of a [str | None]: [None] and the empty string are
    false. *)
Definition truthy_str (v : option string) : option string :=
  match v with
  | Some EmptyString => None
  | Some s => Some s
  | None => None
  end.

(** ASCII white space, as [str.strip] removes it. *)
Definition is_space (c : Ascii.ascii) : bool :=
  let n := Ascii.nat_of_ascii c in
  ((9 <=? n) && (n <=? 13) || (28 <=? n) && (n <=? 32))%nat.

Fixpoint lstrip (s : string) : string :=
  match s with
  | EmptyString => EmptyString
  | String c rest => if is_space c then lstrip rest else s
  end.

Fixpoint rstrip (s : string) : string :=
  match s with
  | EmptyString => EmptyString
  | String c rest =>
    match rstrip rest with
    | EmptyString => if is_space c then EmptyString else String c EmptyString
    | kept => String c kept
    end
  end.

Definition strip (s : string) : string := rstrip (lstrip s).

(** [s or default] on strings. *)
Definition str_or (s default : string) : string :=
  match s with
  | EmptyString => default
  | _ => s
  end.

End Py.
Import Py.

(* ------------------------------------------------------------------ *)
(** ** bot/main.py: plan application *)

Module Main.

Module InboundEvent.
Record t := mk {
  chat_id : string;
  chat_type : ChatType;
  sender_id : string;
  timestamp : Z;
  text : string;
  is_mention : bool
}.
End InboundEvent.

Section PlanApplication.

(** [parse_send_at raw tz_name] of bot/policy.py: the wall-clock instant, in
    the configured zone, that [datetime.fromisoformat] reads from the
    item's string, [None] when the string does not parse. *)
Variable parse_send_at : string -> string -> option datetime.
Variable utcoffset : string -> timedelta.

(** Lines 100-106: the desired time, moved up to the end of the cooldown
    that follows the last message of the bot. *)
Definition cooldown_clamp (settings : Settings.t)
           (conversation : ConversationState.t) (send_at_local : datetime)
  : datetime :=
  match truthy_int (ConversationState.last_bot_ts_utc conversation) with
  | Some last_bot_ts_utc =>
    let cooldown_until :=
      from_ts_utc last_bot_ts_utc
      + hours (ProactiveConfig.cooldown_hours (Settings.proactive settings)) in
    let cooldown_until_local :=
      astimezone utcoffset (Settings.timezone settings) cooldown_until in
    if send_at_local <? cooldown_until_local
    then cooldown_until_local
    else send_at_local
  | None => send_at_local
  end.

(** Lines 85-116: the gates a candidate passes and the tuple built from
    it; [None] where the function returns without touching the store. *)
Definition plan_tuple_of (settings : Settings.t) (event : InboundEvent.t)
           (plan_item : LLMPlanItem.t) (conversation : ConversationState.t)
           (local_now_dt : datetime) : option PlanTuple :=
  if negb (should_schedule_proactive settings (InboundEvent.chat_type event))
  then None
  else if negb (can_use_plan plan_item settings) then None
  else if ProactiveConfig.max_per_day (Settings.proactive settings)
          <=? ConversationState.daily_count conversation
  then None
  else
    match parse_send_at (LLMPlanItem.send_at plan_item)
                        (Settings.timezone settings) with
    | None => None
    | Some send_at_local =>
      let blocks := build_quiet_blocks settings in
      let send_at_local := cooldown_clamp settings conversation send_at_local in
      let send_at_local :=
        sanitize_schedule_time send_at_local local_now_dt blocks in
      let send_at_utc :=
        utc_timestamp utcoffset (Settings.timezone settings) send_at_local in
      Some (send_at_utc,
            str_or (strip (LLMPlanItem.text plan_item)) "(empty)",
            LLMPlanItem.gif_tag plan_item,
            LLMPlanItem.reason plan_item,
            LLMPlanItem.confidence plan_item)
    end.

(** [_apply_planning]; [now_utc_ts] is [utc_ts(utc_now())] and
    [local_now_dt] is [local_now(settings.timezone)] as read by the call. *)
Definition _apply_planning (db : BotDB) (settings : Settings.t)
           (event : InboundEvent.t) (action : Action)
           (plan_item : option LLMPlanItem.t) (pending_count : Z)
           (conversation : ConversationState.t)
           (now_utc_ts : Z) (local_now_dt : datetime) : BotDB :=
  match action with
  | cancel_all =>
    fst (cancel_all_plans db (InboundEvent.chat_id event) now_utc_ts)
  | _ =>
    match plan_item with
    | None =>
      match action with
      | replace_all =>
        fst (cancel_all_plans db (InboundEvent.chat_id event) now_utc_ts)
      | _ => db
      end
    | Some item =>
      match plan_tuple_of settings event item conversation local_now_dt with
      | None => db
      | Some plan_tuple =>
        match action with
        | replace_all =>
          replace_plans db (InboundEvent.chat_id event) [plan_tuple]
                        now_utc_ts
        | append =>
          if ProactiveConfig.max_pending_per_chat (Settings.proactive settings)
             <=? pending_count
          then db
          else append_plans db (InboundEvent.chat_id event) [plan_tuple]
                            now_utc_ts
        | _ => db
        end
      end
    end
  end.

End PlanApplication.

End Main.
Import Main.

(* ------------------------------------------------------------------ *)
(** ** bot/scheduler.py: the due-plan execution loop *)

Module Scheduler.

(** The two calls of the connector that can raise. *)
Inductive ConnectorCall := SendText | SendGif.

Inductive Exception :=
| RuntimeError (msg : string)
| ConnectorError (call : ConnectorCall).

Section ExecutionLoop.

(** The collaborators: the connector, with a state of its own ([None] when
    a call raises), the local clock (the value the n-th call of
    [local_now] returns), the random source (the n-th value of
    [random.random()]) and the gif library (choosing with the n-th random
    value). *)
Variable Connector : Type.
Variable send_text : Connector -> string -> string -> option Connector.
Variable send_gif : Connector -> string -> string -> option Connector.
Variable local_clock : nat -> datetime.
Variable random_source : nat -> Q.
Variable pick_gif : nat -> string -> option string.
Variable utcoffset : string -> timedelta.

Record World := mkWorld {
  db : BotDB;
  connector : Connector;
  clock_reads : nat;
  random_reads : nat
}.

(** Computations that change the world and may raise; what was written
    before an exception stays written (every store call commits). *)
Definition M (A : Type) : Type := World -> World * (Exception + A).

Definition ret {A : Type} (a : A) : M A := fun w => (w, inr a).

Definition raise {A : Type} (e : Exception) : M A := fun w => (w, inl e).

Definition bind {A B : Type} (c : M A) (k : A -> M B) : M B :=
  fun w =>
    match c w with
    | (w', inr a) => k a w'
    | (w', inl e) => (w', inl e)
    end.

Notation "x <- c ;; k" := (bind c (fun x => k))
  (at level 61, c at next level, right associativity).
Notation "c ;;; k" := (bind c (fun _ => k))
  (at level 61, right associativity).

Definition db_exec (f : BotDB -> BotDB) : M unit :=
  fun w => (mkWorld (f (db w)) (connector w) (clock_reads w) (random_reads w),
            inr tt).

Definition db_get_conversation (chat_id : string) : M ConversationState.t :=
  fun w =>
    match get_conversation (db w) chat_id with
    | Some row => (w, inr row)
    | None =>
      (w, inl (RuntimeError ("Conversation not found: " ++ chat_id)%string))
    end.

Definition local_now (tz_name : string) : M datetime :=
  fun w => (mkWorld (db w) (connector w) (S (clock_reads w)) (random_reads w),
            inr (local_clock (clock_reads w))).

Definition random : M (nat * Q) :=
  fun w => (mkWorld (db w) (connector w) (clock_reads w) (S (random_reads w)),
            inr (random_reads w, random_source (random_reads w))).

Definition connector_call (call : ConnectorCall)
           (f : Connector -> option Connector) : M unit :=
  fun w =>
    match f (connector w) with
    | Some c => (mkWorld (db w) c (clock_reads w) (random_reads w), inr tt)
    | None => (w, inl (ConnectorError call))
    end.

Definition _refresh_daily_counter (chat_id : string) (current_date : Z)
           (daily_date : option Z) (daily_count : Z) : M Z :=
  if match daily_date with
     | Some d => negb (d =? current_date)
     | None => true
     end
  then db_exec (fun s => update_daily_counter s chat_id 0 current_date) ;;;
       ret 0
  else ret daily_count.

Definition _next_after_cooldown (last_bot_ts_utc : option Z)
           (cooldown_hours : Z) : option datetime :=
  match truthy_int last_bot_ts_utc with
  | None => None
  | Some ts =>
    let last_dt := from_ts_utc ts in
    Some (last_dt + hours cooldown_hours)
  end.

(** [if plan.gif_tag and allow_gif(settings.gif_rate): ..] *)
Definition send_plan_gif (plan : PlanRecord.t) (settings : Settings.t)
           (now_utc : datetime) : M unit :=
  match truthy_str (PlanRecord.gif_tag plan) with
  | None => ret tt
  | Some gif_tag =>
    draw <- random ;;
    if allow_gif (Settings.gif_rate settings) (snd draw) then
      match pick_gif (fst draw) gif_tag with
      | Some gif_path =>
        connector_call SendGif
          (fun c => send_gif c (PlanRecord.chat_id plan) gif_path) ;;;
        db_exec (fun s => add_message s (PlanRecord.chat_id plan) "bot" "bot"
                            (utc_ts now_utc) gif_path "gif")
      | None => ret tt
      end
    else ret tt
  end.

(** Lines 89-100 of [_handle_plan]: the dispatch through the connector and
    the bookkeeping that follows it. *)
Definition deliver (plan : PlanRecord.t) (settings : Settings.t)
           (now_utc : datetime) (daily_count : Z) (current_date : Z)
  : M unit :=
  connector_call SendText
    (fun c => send_text c (PlanRecord.chat_id plan)
                (PlanRecord.text plan)) ;;;
  db_exec (fun s => add_message s (PlanRecord.chat_id plan) "bot" "bot"
                      (utc_ts now_utc) (PlanRecord.text plan) "text") ;;;
  send_plan_gif plan settings now_utc ;;;
  db_exec (fun s => mark_plan_sent s (PlanRecord.id plan)
                      (utc_ts now_utc)) ;;;
  db_exec (fun s => update_last_bot_ts s (PlanRecord.chat_id plan)
                      (utc_ts now_utc)) ;;;
  db_exec (fun s => update_daily_counter s (PlanRecord.chat_id plan)
                      (daily_count + 1) current_date).

Definition _handle_plan (plan : PlanRecord.t) (settings : Settings.t)
           (blocks : list QuietBlock) (now_utc : datetime) : M unit :=
  conversation <- db_get_conversation (PlanRecord.chat_id plan) ;;
  if negb (should_schedule_proactive settings
             (ConversationState.chat_type conversation))
  then
    db_exec (fun s => mark_plan_canceled s (PlanRecord.id plan)
                        (utc_ts now_utc))
  else
    local_now_dt <- local_now (Settings.timezone settings) ;;
    let current_date := date local_now_dt in
    daily_count <- _refresh_daily_counter (PlanRecord.chat_id plan)
                     current_date
                     (ConversationState.daily_date conversation)
                     (ConversationState.daily_count conversation) ;;
    if ProactiveConfig.max_per_day (Settings.proactive settings)
       <=? daily_count
    then
      db_exec (fun s => mark_plan_canceled s (PlanRecord.id plan)
                          (utc_ts now_utc))
    else if is_within_quiet_hours local_now_dt blocks then
      let next_time := next_allowed_time local_now_dt blocks in
      db_exec (fun s => reschedule_plan s (PlanRecord.id plan)
                          (utc_timestamp utcoffset
                             (Settings.timezone settings) next_time)
                          (utc_ts now_utc))
    else
      let cooldown_until :=
        _next_after_cooldown
          (ConversationState.last_bot_ts_utc conversation)
          (ProactiveConfig.cooldown_hours (Settings.proactive settings)) in
      match cooldown_until with
      | Some until =>
        if now_utc <? until then
          db_exec (fun s => reschedule_plan s (PlanRecord.id plan)
                              (utc_ts until) (utc_ts now_utc))
        else deliver plan settings now_utc daily_count current_date
      | None => deliver plan settings now_utc daily_count current_date
      end.

(** The loop of [process_due_plans]: an exception of [_handle_plan] is
    caught and logged, and the loop goes on. *)
Fixpoint handle_all (due_plans : list PlanRecord.t) (settings : Settings.t)
         (blocks : list QuietBlock) (now_utc : datetime) (w : World)
  : World :=
  match due_plans with
  | [] => w
  | plan :: rest =>
    match _handle_plan plan settings blocks now_utc w with
    | (w', inr _) => handle_all rest settings blocks now_utc w'
    | (w', inl exc) => handle_all rest settings blocks now_utc w'
    end
  end.

(** [process_due_plans]; [now_utc] is the value of [utc_now()]. *)
Definition process_due_plans (settings : Settings.t) (now_utc : datetime)
           (w : World) : World :=
  let now_utc_ts := utc_ts now_utc in
  let blocks := build_quiet_blocks settings in
  let due_plans :=
    get_due_plans (db w) now_utc_ts get_due_plans_default_limit in
  match due_plans with
  | [] => w
  | _ => handle_all due_plans settings blocks now_utc w
  end.

End ExecutionLoop.

Arguments mkWorld {Connector} _ _ _ _.
Arguments db {Connector} _.
Arguments connector {Connector} _.
Arguments clock_reads {Connector} _.
Arguments random_reads {Connector} _.

End Scheduler.
Import Scheduler.

(* ------------------------------------------------------------------ *)
(** ** Vocabulary of the statements *)

Module Terms.

(** "HH:MM" as a time. *)
Definition hhmm (h m : Z) : time := mkTime h m 0 0.

(** The wall-clock datetime of a day ordinal and a time of day. *)
Definition at_day (d : Z) (t : time) : datetime := d * US_PER_DAY + time_us t.

(** A block whose end is a time of the clock and a whole minute, as "HH:MM"
    gives it. *)
Definition minute_end (block : QuietBlock) : Prop :=
  time_valid (end_ block)
  /\ second (end_ block) = 0 /\ microsecond (end_ block) = 0.



(** Ascending send time, on the records returned and on the rows kept. *)
Definition send_at_le (a b : PlanRecord.t) : Prop :=
  PlanRecord.send_at_utc a <= PlanRecord.send_at_utc b.

Definition row_send_at_le (a b : PlanRow.t) : Prop :=
  PlanRow.send_at_utc a <= PlanRow.send_at_utc b.

(** A store that holds the given plan rows and nothing else. *)
Definition store_of (rows : list PlanRow.t) : BotDB := mkDB [] [] rows 0.

(** A plan row with the given id, chat, send time and status. *)
Definition plan_row_of (id : Z) (chat_id : string) (send_at_utc : Z)
           (st : Status) : PlanRow.t :=
  PlanRow.mk id chat_id send_at_utc "hello" None st "" (7 # 10) 0 0.

(** The record a pending plan inserted under [id] for [chat_id] reads as. *)
Definition record_of_tuple (id : Z) (chat_id : string) (plan : PlanTuple)
  : PlanRecord.t :=
  PlanRecord.mk id chat_id
    (fst (fst (fst (fst plan)))) (snd (fst (fst (fst plan))))
    (snd (fst (fst plan))) pending (snd (fst plan)) (snd plan).


(** Sample values: proactive messages enabled with the defaults of
    [ProactiveConfig] (one a day, six hours of cooldown, confidence 0.6, two
    pending plans a chat), the quiet block 22:00-07:00, a direct chat "a",
    a zone eight hours ahead of UTC, and an item of confidence 0.9. *)
Definition sample_settings : Settings.t :=
  Settings.mk "Asia/Shanghai" medium
    (ProactiveConfig.mk true 1 6 (6 # 10) 2)
    [(hhmm 22 0, hhmm 7 0)]
    GroupConfig.default.

Definition sample_event : InboundEvent.t :=
  InboundEvent.mk "a" direct "u1" 1000000 "see you" false.

Definition item_at (send_at : string) : LLMPlanItem.t :=
  LLMPlanItem.mk send_at " ping " None "follow up" (9 # 10).

Definition sample_item : LLMPlanItem.t :=
  item_at "2024-10-04T12:00:00+08:00".

Definition sample_conversation (last_bot_ts_utc : option Z)
           (daily_count : Z) (daily_date : option Z) : ConversationState.t :=
  ConversationState.mk "a" direct "" None last_bot_ts_utc daily_count
                       daily_date.

Definition sample_utcoffset (tz_name : string) : timedelta := hours 8.

(** A parser that knows the strings of the samples: day 20000 is
    2024-10-04, day 11 is 1970-01-12 and day 0 is 1970-01-01. *)
Definition sample_parse (raw tz_name : string) : option datetime :=
  option_map snd
    (find (fun known => String.eqb (fst known) raw)
       [("2024-10-04T12:00:00+08:00"%string, at_day 20000 (hhmm 12 0));
        ("1970-01-12T09:00:00+08:00"%string, at_day 11 (hhmm 9 0));
        ("1970-01-01T09:00:00+08:00"%string, at_day 0 (hhmm 9 0))]).



(** The daily count [_refresh_daily_counter] hands back on the local day
    [today]: the stored count when it was written that day, else 0. *)
Definition rolled_count (conversation : ConversationState.t) (today : Z)
  : Z :=
  match ConversationState.daily_date conversation with
  | Some d =>
    if d =? today then ConversationState.daily_count conversation else 0
  | None => 0
  end.

(** A connector that records what it sends and raises for the chats that
    are down. *)
Definition Outbox : Type := list (string * string).

Definition outbox_send (down : string -> bool) (sent_so_far : Outbox)
           (chat_id payload : string) : option Outbox :=
  if down chat_id then None else Some (sent_so_far ++ [(chat_id, payload)]).

(** A local clock that stands at noon of day 20000, eight hours ahead of
    UTC, and the UTC instant it stands for. *)
Definition noon_clock (n : nat) : datetime := at_day 20000 (hhmm 12 0).

Definition noon_utc : datetime := at_day 20000 (hhmm 4 0).

Definition no_random (n : nat) : Q := 0.

Definition no_gif (n : nat) (tag : string) : option string := None.

(** One tick of the loop against the recording connector. *)
Definition sample_tick (down : string -> bool) (settings : Settings.t)
           (w : World Outbox) : World Outbox :=
  process_due_plans Outbox (outbox_send down) (outbox_send down) noon_clock
                    no_random no_gif sample_utcoffset settings noon_utc w.

Definition sample_handle (down : string -> bool) (plan : PlanRecord.t)
           (w : World Outbox) : World Outbox * (Exception + unit) :=
  _handle_plan Outbox (outbox_send down) (outbox_send down) noon_clock
               no_random no_gif sample_utcoffset plan sample_settings
               (build_quiet_blocks sample_settings) noon_utc w.

(** A store with the conversations "a" and "b" and the given plans. *)
Definition sample_world (daily_count : Z) (daily_date : option Z)
           (rows : list PlanRow.t) : World Outbox :=
  mkWorld
    (mkDB []
          [ConversationState.mk "a" direct "" None None daily_count daily_date;
           ConversationState.mk "b" direct "" None None 0 None]
          rows 0)
    [] 0%nat 0%nat.

End Terms.
Import Terms.

(* ------------------------------------------------------------------ *)
(** ** Python strings and lists, continued

    A string is the sequence of its characters; the characters of the
    model are those of [string], and the character classes are the ASCII
    ones. *)

Module PyStr.

Definition newline : Ascii.ascii := Ascii.ascii_of_nat 10.
Definition space : Ascii.ascii := Ascii.ascii_of_nat 32.
Definition hyphen : Ascii.ascii := Ascii.ascii_of_nat 45.
Definition underscore : Ascii.ascii := Ascii.ascii_of_nat 95.
Definition lbrace : Ascii.ascii := Ascii.ascii_of_nat 123.
Definition rbrace : Ascii.ascii := Ascii.ascii_of_nat 125.

(** [s[:n]] for [n >= 0]. *)
Fixpoint take (n : nat) (s : string) : string :=
  match n, s with
  | S n', String c rest => String c (take n' rest)
  | _, _ => EmptyString
  end.

(** [s[n:]] for [n >= 0]. *)
Fixpoint drop (n : nat) (s : string) : string :=
  match n, s with
  | S n', String _ rest => drop n' rest
  | _, _ => s
  end.

(** [s[:k]]: a negative [k] counts from the end of the string. *)
Definition slice_to (s : string) (k : Z) : string :=
  if k <? 0 then take (Z.to_nat (Z.of_nat (String.length s) + k)) s
  else take (Z.to_nat k) s.

(** [s[start:stop]] for indices that are not negative. *)
Definition slice (s : string) (start stop : Z) : string :=
  take (Z.to_nat (stop - start)) (drop (Z.to_nat start) s).

(** [l[-n:]] for [n > 0]. *)
Definition last_n {A : Type} (n : nat) (l : list A) : list A :=
  skipn (List.length l - n) l.

(** [s.replace(a, b)] for single characters. *)
Fixpoint replace_char (a b : Ascii.ascii) (s : string) : string :=
  match s with
  | EmptyString => EmptyString
  | String c rest =>
    String (if Ascii.eqb c a then b else c) (replace_char a b rest)
  end.

(** [sep.join(parts)]. *)
Fixpoint join (sep : string) (parts : list string) : string :=
  match parts with
  | [] => EmptyString
  | part :: rest =>
    match rest with
    | [] => part
    | _ => (part ++ sep ++ join sep rest)%string
    end
  end.

Definition lower_char (c : Ascii.ascii) : Ascii.ascii :=
  let n := Ascii.nat_of_ascii c in
  if ((65 <=? n) && (n <=? 90))%nat then Ascii.ascii_of_nat (n + 32) else c.

(** [s.lower()]. *)
Fixpoint lower (s : string) : string :=
  match s with
  | EmptyString => EmptyString
  | String c rest => String (lower_char c) (lower rest)
  end.

Fixpoint index_first (c : Ascii.ascii) (s : string) : option nat :=
  match s with
  | EmptyString => None
  | String d rest =>
    if Ascii.eqb d c then Some O else option_map S (index_first c rest)
  end.

Fixpoint index_last (c : Ascii.ascii) (s : string) : option nat :=
  match s with
  | EmptyString => None
  | String d rest =>
    match index_last c rest with
    | Some i => Some (S i)
    | None => if Ascii.eqb d c then Some O else None
    end
  end.

(** [s.find(c)] and [s.rfind(c)] for a single character: the index of the
    first and of the last occurrence, -1 when there is none. *)
Definition find (c : Ascii.ascii) (s : string) : Z :=
  match index_first c s with
  | Some i => Z.of_nat i
  | None => -1
  end.

Definition rfind (c : Ascii.ascii) (s : string) : Z :=
  match index_last c s with
  | Some i => Z.of_nat i
  | None => -1
  end.

(** [re.split] with a pattern [[..]+] over a class of characters: the
    pieces between the maximal runs of characters of the class.  [piece] is
    the piece being read and [in_run] tells whether the last character
    belonged to the class. *)
Fixpoint re_split_runs (in_class : Ascii.ascii -> bool) (s : string)
         (piece : string) (in_run : bool) : list string :=
  match s with
  | EmptyString => [piece]
  | String c rest =>
    if in_class c then
      if in_run then re_split_runs in_class rest EmptyString true
      else piece :: re_split_runs in_class rest EmptyString true
    else
      re_split_runs in_class rest (piece ++ String c EmptyString)%string false
  end.

Definition re_split (in_class : Ascii.ascii -> bool) (s : string)
  : list string :=
  re_split_runs in_class s EmptyString false.

(** Truth value of a string. *)
Definition nonempty (s : string) : bool :=
  match s with
  | EmptyString => false
  | _ => true
  end.

End PyStr.

(* ------------------------------------------------------------------ *)
(** ** bot/utils.py, continued *)

Module Clamp.

Definition clamp_text (value : string) (max_chars : Z) : string :=
  if Z.of_nat (String.length value) <=? max_chars then value
  else (PyStr.slice_to value (max_chars - 3) ++ "...")%string.

End Clamp.
Import Clamp.

(* ------------------------------------------------------------------ *)
(** ** bot/models.py, continued *)

Module ModelsMore.

(** The [MessageRecord] dataclass, as [get_recent_messages] returns it
    (above, [MessageRecord.t] is the row of the table). *)
Module RecentMessage.
Record t := mk {
  role : string;
  content : string;
  ts_utc : Z;
  msg_type : string;
  sender_id : string
}.
End RecentMessage.

Module LLMReply.
Record t := mk {
  text : string;
  send_gif : bool;
  gif_tag : option string
}.
End LLMReply.

Module LLMPlanning.
Record t := mk {
  action : Action;
  items : list LLMPlanItem.t
}.
End LLMPlanning.

Module LLMOutput.
Record t := mk {
  reply : LLMReply.t;
  planning : LLMPlanning.t
}.
End LLMOutput.

End ModelsMore.
Import ModelsMore.

(* ------------------------------------------------------------------ *)
(** ** bot/planner.py *)

Module Planner.

(** One line of the summary: [f"{role}: {content}"]. *)
Definition summary_line (msg : RecentMessage.t) : string :=
  let role :=
    (if String.eqb (RecentMessage.role msg) "user" then "U" else "B")%string
  in
  let content :=
    clamp_text (PyStr.replace_char PyStr.newline PyStr.space
                  (RecentMessage.content msg))
               160 in
  (role ++ ": " ++ content)%string.

Definition update_summary (previous_summary : string)
           (recent_messages : list RecentMessage.t) (max_chars : Z)
  : string :=
  let lines := map summary_line (PyStr.last_n 6 recent_messages) in
  let base := strip previous_summary in
  let nl := String PyStr.newline EmptyString in
  let combined :=
    if PyStr.nonempty base then
      let base := clamp_text base (max_chars / 2) in
      (base ++ nl ++ "Recent:" ++ nl ++ PyStr.join nl lines)%string
    else ("Recent:" ++ nl ++ PyStr.join nl lines)%string in
  clamp_text combined max_chars.

End Planner.
Import Planner.

(* ------------------------------------------------------------------ *)
(** ** bot/db.py, continued: conversations and messages *)

Module Store.

Definition set_chat_type (chat_type : ChatType) (row : ConversationState.t)
  : ConversationState.t :=
  ConversationState.mk
    (ConversationState.chat_id row) chat_type
    (ConversationState.summary row)
    (ConversationState.last_user_ts_utc row)
    (ConversationState.last_bot_ts_utc row)
    (ConversationState.daily_count row)
    (ConversationState.daily_date row).

(** [ensure_conversation]: the store and the state returned; [None] stands
    for the RuntimeError of the closing [get_conversation]. *)
Definition ensure_conversation (db : BotDB) (chat_id : string)
           (chat_type : ChatType) : BotDB * option ConversationState.t :=
  match get_conversation db chat_id with
  | None =>
    let fresh := ConversationState.mk chat_id chat_type "" None None 0 None in
    (with_conversations db (conversations db ++ [fresh]), Some fresh)
  | Some row =>
    let db' :=
      if negb (ChatType_eqb (ConversationState.chat_type row) chat_type)
      then update_conversation db chat_id (set_chat_type chat_type)
      else db in
    (db', get_conversation db' chat_id)
  end.

Definition update_conversation_summary (db : BotDB) (chat_id : string)
           (summary : string) : BotDB :=
  update_conversation db chat_id (fun row =>
    ConversationState.mk
      (ConversationState.chat_id row) (ConversationState.chat_type row)
      summary
      (ConversationState.last_user_ts_utc row)
      (ConversationState.last_bot_ts_utc row)
      (ConversationState.daily_count row)
      (ConversationState.daily_date row)).

Definition update_last_user_ts (db : BotDB) (chat_id : string) (ts_utc : Z)
  : BotDB :=
  update_conversation db chat_id (fun row =>
    ConversationState.mk
      (ConversationState.chat_id row) (ConversationState.chat_type row)
      (ConversationState.summary row)
      (Some ts_utc)
      (ConversationState.last_bot_ts_utc row)
      (ConversationState.daily_count row)
      (ConversationState.daily_date row)).

(** ORDER BY ts_utc DESC: rows of equal time stay in rowid order (SQL
    leaves their order open). *)
Fixpoint insert_by_ts_desc (row : MessageRecord.t)
         (sorted : list MessageRecord.t) : list MessageRecord.t :=
  match sorted with
  | [] => [row]
  | r :: rest =>
    if MessageRecord.ts_utc r <=? MessageRecord.ts_utc row
    then row :: r :: rest
    else r :: insert_by_ts_desc row rest
  end.

Fixpoint order_by_ts_desc (rows : list MessageRecord.t)
  : list MessageRecord.t :=
  match rows with
  | [] => []
  | r :: rest => insert_by_ts_desc r (order_by_ts_desc rest)
  end.

Definition message_of_row (row : MessageRecord.t) : RecentMessage.t :=
  RecentMessage.mk (MessageRecord.role row) (MessageRecord.content row)
                   (MessageRecord.ts_utc row) (MessageRecord.msg_type row)
                   (MessageRecord.sender_id row).

Definition get_recent_messages (db : BotDB) (chat_id : string) (limit : Z)
  : list RecentMessage.t :=
  let rows :=
    sql_limit limit
      (order_by_ts_desc
         (filter (fun row => String.eqb (MessageRecord.chat_id row) chat_id)
                 (messages db))) in
  let records := map message_of_row rows in
  rev records.

End Store.
Import Store.

(* ------------------------------------------------------------------ *)
(** ** bot/main.py, continued: the daily counter of a turn *)

Module Turn.

(** [_refresh_daily_counter] of main.py; [local_date] is
    [local_now(settings.timezone).date()].  The store and the pair
    (daily_count, daily_date) returned. *)
Definition _refresh_daily_counter (db : BotDB)
           (conversation : ConversationState.t) (local_date : Z)
  : BotDB * (Z * Z) :=
  if match ConversationState.daily_date conversation with
     | Some d => negb (d =? local_date)
     | None => true
     end
  then (update_daily_counter db (ConversationState.chat_id conversation)
                             0 local_date,
        (0, local_date))
  else (db,
        (ConversationState.daily_count conversation,
         match ConversationState.daily_date conversation with
         | Some d => d
         | None => local_date
         end)).

End Turn.

(* ------------------------------------------------------------------ *)
(** ** bot/giflib.py *)

Module GifLib.

(** The class [[_\-\s]] of the pattern. *)
Definition is_tag_sep (c : Ascii.ascii) : bool :=
  Ascii.eqb c PyStr.underscore || Ascii.eqb c PyStr.hyphen || is_space c.

Definition _tags_from_name (name : string) : list string :=
  let tokens := PyStr.re_split is_tag_sep (PyStr.lower name) in
  filter PyStr.nonempty tokens.

(** [index: dict[str, list[Path]]], the keys in the order of their first
    insertion. *)
Definition Index : Type := list (string * list string).

Fixpoint index_get (index : Index) (key : string) : option (list string) :=
  match index with
  | [] => None
  | (k, paths) :: rest =>
    if String.eqb k key then Some paths else index_get rest key
  end.

(** [index.setdefault(tag, []).append(path)]. *)
Fixpoint index_append (index : Index) (tag path : string) : Index :=
  match index with
  | [] => [(tag, [path])]
  | (k, paths) :: rest =>
    if String.eqb k tag then (k, paths ++ [path]) :: rest
    else (k, paths) :: index_append rest tag path
  end.

(** [_build_index] over the files [folder.glob("*.gif")] lists, each given
    by its stem and its path. *)
Definition _build_index (files : list (string * string)) : Index :=
  fold_left
    (fun index file =>
       fold_left (fun index tag => index_append index tag (snd file))
                 (_tags_from_name (fst file)) index)
    files [].

(** [pick_gif]; [choice] is the number [random.choice] draws, taken modulo
    the number of candidates. *)
Definition pick_gif (index : Index) (tag : string) (choice : nat)
  : option string :=
  if negb (PyStr.nonempty tag) then None
  else
    let key := PyStr.lower tag in
    match index_get index key with
    | None => None
    | Some [] => None
    | Some candidates =>
      nth_error candidates (choice mod List.length candidates)
    end.

End GifLib.
Import GifLib.

(* ------------------------------------------------------------------ *)
(** ** bot/llm.py: reading the answer of the model *)

Module LLM.

Definition _extract_json (content : string) : option string :=
  let start := PyStr.find PyStr.lbrace content in
  let end_ := PyStr.rfind PyStr.rbrace content in
  if (start =? -1) || (end_ =? -1) || (end_ <=? start) then None
  else Some (PyStr.slice content start (end_ + 1)).

(** [_dummy_response], a function of [context.incoming_text]. *)
Definition _dummy_response (incoming_text : string) : LLMOutput.t :=
  let text := strip incoming_text in
  let text := str_or text "Got it." in
  let reply := LLMReply.mk ("(dummy) " ++ text)%string false None in
  LLMOutput.mk reply (LLMPlanning.mk none []).

End LLM.
Import LLM.

(* ------------------------------------------------------------------ *)
(** ** bot/main.py, continued: the handler of an inbound event *)

(** The [LLMContext] dataclass of bot/llm.py.  [local_time] and the send
    times of the pending plans are ISO strings in the source, kept here as
    the instants they denote; [settings] is the dictionary made of the
    gif rate, the proactive and group configuration and the quiet hours;
    a recent message is (role, content, ts_utc, msg_type), a pending plan
    (send_at, text, gif_tag, status, reason, confidence), and the counters
    are (last_bot_ts_utc, daily_count, daily_date). *)
Module LLMContext.
Record t := mk {
  incoming_text : string;
  local_time : datetime;
  timezone : string;
  settings : Settings.t;
  summary : string;
  recent_messages : list (string * string * Z * string);
  pending_plans :
    list (datetime * string * option string * Status * string * Q);
  counters : option Z * Z * option Z
}.
End LLMContext.

(** The [AppState] of main.py: the settings (with
    [settings.security.shared_secret], [settings.memory.recent_messages]
    and [settings.memory.summary_max_chars]), whether the LLM client is
    configured, the index of the gif library, the store and the
    connector. *)
Module AppState.
Record t (Connector : Type) := mk {
  settings : Settings.t;
  shared_secret : string;
  recent_messages : Z;
  summary_max_chars : Z;
  llm_configured : bool;
  gif_index : Index;
  db : BotDB;
  connector : Connector
}.
Arguments mk {Connector} _ _ _ _ _ _ _ _.
Arguments settings {Connector} _.
Arguments shared_secret {Connector} _.
Arguments recent_messages {Connector} _.
Arguments summary_max_chars {Connector} _.
Arguments llm_configured {Connector} _.
Arguments gif_index {Connector} _.
Arguments db {Connector} _.
Arguments connector {Connector} _.
End AppState.

(** What the clock and the random source return to the calls one event
    makes, each named after the call that reads it. *)
Module Readings.
Record t := mk {
  refresh_local_now : datetime;
  context_local_now : datetime;
  reply_utc_now : datetime;
  gif_draw : Q;
  gif_choice : nat;
  planning_utc_now : datetime;
  planning_local_now : datetime
}.
End Readings.

Module Event.

(** What [generate_response] gets from the completion endpoint: the call
    raised (caught, with the dummy answer as fallback), the body had not
    the shape the client reads (an exception outside the [try]), or the
    content of the first choice. *)
Inductive LLMAnswer := CallFailed | BadShape | Content (content : string).

(** HTTP 401, an exception of the store or the connector, and the
    exception of a body of another shape. *)
Inductive Failure :=
| Unauthorized
| Raised (exc : Exception)
| AnswerShape.

(** [{"ok": True}] and [{"ok": True, "skipped": reason}]. *)
Inductive Response := Ok | Skipped (reason : string).

(** [build_llm_context] of bot/planner.py; [local_dt] is what its
    [local_now] reads. *)
Definition build_llm_context (utcoffset : string -> timedelta)
           (settings : Settings.t) (conversation : ConversationState.t)
           (incoming_text : string) (recent_messages : list RecentMessage.t)
           (pending_plans : list PlanRecord.t) (local_dt : datetime)
  : LLMContext.t :=
  LLMContext.mk incoming_text local_dt (Settings.timezone settings) settings
    (ConversationState.summary conversation)
    (map (fun msg => (RecentMessage.role msg, RecentMessage.content msg,
                      RecentMessage.ts_utc msg, RecentMessage.msg_type msg))
         recent_messages)
    (map (fun plan =>
            (astimezone utcoffset (Settings.timezone settings)
               (from_ts_utc (PlanRecord.send_at_utc plan)),
             PlanRecord.text plan, PlanRecord.gif_tag plan,
             PlanRecord.status plan, PlanRecord.reason plan,
             PlanRecord.confidence plan))
         pending_plans)
    (ConversationState.last_bot_ts_utc conversation,
     ConversationState.daily_count conversation,
     ConversationState.daily_date conversation).

(** [x_bot_secret != state.settings.security.shared_secret]. *)
Definition secret_differs (x_bot_secret : option string)
           (shared_secret : string) : bool :=
  match x_bot_secret with
  | Some given => negb (String.eqb given shared_secret)
  | None => true
  end.

(** [replace(conversation, daily_count=.., daily_date=..)] and
    [replace(conversation, last_bot_ts_utc=..)]. *)
Definition replace_daily (conversation : ConversationState.t)
           (daily_count daily_date : Z) : ConversationState.t :=
  ConversationState.mk
    (ConversationState.chat_id conversation)
    (ConversationState.chat_type conversation)
    (ConversationState.summary conversation)
    (ConversationState.last_user_ts_utc conversation)
    (ConversationState.last_bot_ts_utc conversation)
    daily_count (Some daily_date).

Definition replace_last_bot (conversation : ConversationState.t)
           (last_bot_ts_utc : Z) : ConversationState.t :=
  ConversationState.mk
    (ConversationState.chat_id conversation)
    (ConversationState.chat_type conversation)
    (ConversationState.summary conversation)
    (ConversationState.last_user_ts_utc conversation)
    (Some last_bot_ts_utc)
    (ConversationState.daily_count conversation)
    (ConversationState.daily_date conversation).

Section Handler.

(** The collaborators: the connector, with a state of its own ([None]
    when a call raises), the parser of send times and the zone, the
    completion endpoint and the validation of the JSON object against
    [LLMOutput]. *)
Variable Connector : Type.
Variable send_text : Connector -> string -> string -> option Connector.
Variable send_gif : Connector -> string -> string -> option Connector.
Variable parse_send_at : string -> string -> option datetime.
Variable utcoffset : string -> timedelta.
Variable http_answer : LLMContext.t -> LLMAnswer.
Variable model_validate_json : string -> option LLMOutput.t.

(** Computations on the state of the application that may raise; what
    was written before an exception stays written. *)
Definition H (A : Type) : Type :=
  AppState.t Connector -> AppState.t Connector * (Failure + A).

Definition ret {A : Type} (a : A) : H A := fun st => (st, inr a).

Definition raise {A : Type} (e : Failure) : H A := fun st => (st, inl e).

Definition bind {A B : Type} (c : H A) (k : A -> H B) : H B :=
  fun st =>
    match c st with
    | (st', inr a) => k a st'
    | (st', inl e) => (st', inl e)
    end.

Notation "x <- c ;; k" := (bind c (fun x => k))
  (at level 61, c at next level, right associativity).
Notation "c ;;; k" := (bind c (fun _ => k))
  (at level 61, right associativity).

Definition with_db (st : AppState.t Connector) (s : BotDB)
  : AppState.t Connector :=
  AppState.mk (AppState.settings st) (AppState.shared_secret st)
              (AppState.recent_messages st) (AppState.summary_max_chars st)
              (AppState.llm_configured st) (AppState.gif_index st)
              s (AppState.connector st).

Definition with_connector (st : AppState.t Connector) (c : Connector)
  : AppState.t Connector :=
  AppState.mk (AppState.settings st) (AppState.shared_secret st)
              (AppState.recent_messages st) (AppState.summary_max_chars st)
              (AppState.llm_configured st) (AppState.gif_index st)
              (AppState.db st) c.

Definition db_exec (f : BotDB -> BotDB) : H unit :=
  fun st => (with_db st (f (AppState.db st)), inr tt).

Definition db_query {A : Type} (f : BotDB -> A) : H A :=
  fun st => (st, inr (f (AppState.db st))).

Definition db_call {A : Type} (f : BotDB -> BotDB * A) : H A :=
  fun st => (with_db st (fst (f (AppState.db st))),
             inr (snd (f (AppState.db st)))).

Definition connector_call (call : ConnectorCall)
           (f : Connector -> option Connector) : H unit :=
  fun st =>
    match f (AppState.connector st) with
    | Some c => (with_connector st c, inr tt)
    | None => (st, inl (Raised (ConnectorError call)))
    end.

(** [ensure_conversation], with the RuntimeError of its closing
    [get_conversation]. *)
Definition db_ensure_conversation (chat_id : string) (chat_type : ChatType)
  : H ConversationState.t :=
  found <- db_call (fun s => ensure_conversation s chat_id chat_type) ;;
  match found with
  | Some conversation => ret conversation
  | None =>
    raise (Raised (RuntimeError ("Conversation not found: " ++ chat_id)%string))
  end.

(** [LLMClient._parse_output] of bot/llm.py. *)
Definition _parse_output (content : string) : option LLMOutput.t :=
  let raw := strip content in
  if negb (PyStr.nonempty raw) then None
  else
    match _extract_json raw with
    | None => None
    | Some json_str =>
      if negb (PyStr.nonempty json_str) then None
      else model_validate_json json_str
    end.

(** [LLMClient.generate_response] of bot/llm.py. *)
Definition generate_response (context : LLMContext.t) : H LLMOutput.t :=
  fun st =>
    if negb (AppState.llm_configured st)
    then (st, inr (_dummy_response (LLMContext.incoming_text context)))
    else
      match http_answer context with
      | CallFailed =>
        (st, inr (_dummy_response (LLMContext.incoming_text context)))
      | BadShape => (st, inl AnswerShape)
      | Content content =>
        match _parse_output content with
        | None =>
          (st, inr (_dummy_response (LLMContext.incoming_text context)))
        | Some parsed => (st, inr parsed)
        end
      end.

(** Lines 188-201 of [wechat_event]: the conversation and the message of
    the user are recorded and the daily counter is refreshed. *)
Definition receive (readings : Readings.t) (event : InboundEvent.t)
  : H ConversationState.t :=
  conversation <- db_ensure_conversation (InboundEvent.chat_id event)
                    (InboundEvent.chat_type event) ;;
  db_exec (fun s => add_message s (InboundEvent.chat_id event)
                      (InboundEvent.sender_id event) "user"
                      (InboundEvent.timestamp event)
                      (InboundEvent.text event) "text") ;;;
  db_exec (fun s => update_last_user_ts s (InboundEvent.chat_id event)
                      (InboundEvent.timestamp event)) ;;;
  counter <- db_call (fun s =>
               Turn._refresh_daily_counter s conversation
                 (date (Readings.refresh_local_now readings))) ;;
  ret (replace_daily conversation (fst counter) (snd counter)).

(** The closing lines of both branches: the summary is rebuilt from the
    recent messages and stored. *)
Definition store_summary (event : InboundEvent.t)
           (conversation : ConversationState.t) : H unit :=
  fun st =>
    (recent_messages <-
       db_query (fun s => get_recent_messages s (InboundEvent.chat_id event)
                            (AppState.recent_messages st)) ;;
     let summary :=
       update_summary (ConversationState.summary conversation)
                      recent_messages (AppState.summary_max_chars st) in
     db_exec (fun s => update_conversation_summary
                         s (InboundEvent.chat_id event) summary)) st.

(** Lines 221-226: the gif of the reply. *)
Definition send_reply_gif (readings : Readings.t) (event : InboundEvent.t)
           (reply : LLMReply.t) (now_utc_ts : Z) : H unit :=
  fun st =>
    (if LLMReply.send_gif reply
        && allow_gif (Settings.gif_rate (AppState.settings st))
                     (Readings.gif_draw readings)
     then
       let gif_tag :=
         match LLMReply.gif_tag reply with
         | Some tag => str_or tag ""
         | None => EmptyString
         end in
       match pick_gif (AppState.gif_index st) gif_tag
                      (Readings.gif_choice readings) with
       | Some gif_path =>
         connector_call SendGif
           (fun c => send_gif c (InboundEvent.chat_id event) gif_path) ;;;
         db_exec (fun s => add_message s (InboundEvent.chat_id event)
                             "bot" "bot" now_utc_ts gif_path "gif")
       | None => ret tt
       end
     else ret tt) st.

(** Lines 209-236: the answer of the model is sent and recorded, its
    planning directive applied and the summary stored. *)
Definition answer (readings : Readings.t) (event : InboundEvent.t)
           (conversation : ConversationState.t) : H Response :=
  fun st =>
    (recent_messages <-
       db_query (fun s => get_recent_messages s (InboundEvent.chat_id event)
                            (AppState.recent_messages st)) ;;
     pending_plans <-
       db_query (fun s => get_pending_plans s (InboundEvent.chat_id event)) ;;
     let llm_context :=
       build_llm_context utcoffset (AppState.settings st) conversation
                         (InboundEvent.text event) recent_messages
                         pending_plans
                         (Readings.context_local_now readings) in
     llm_output <- generate_response llm_context ;;
     let reply_text :=
       str_or (strip (LLMReply.text (LLMOutput.reply llm_output)))
              "Got it." in
     connector_call SendText
       (fun c => send_text c (InboundEvent.chat_id event) reply_text) ;;;
     let now_utc := Readings.reply_utc_now readings in
     let now_utc_ts := utc_ts now_utc in
     db_exec (fun s => add_message s (InboundEvent.chat_id event)
                         "bot" "bot" now_utc_ts reply_text "text") ;;;
     db_exec (fun s => update_last_bot_ts s (InboundEvent.chat_id event)
                         now_utc_ts) ;;;
     let conversation := replace_last_bot conversation now_utc_ts in
     send_reply_gif readings event (LLMOutput.reply llm_output)
                    now_utc_ts ;;;
     let planning := LLMOutput.planning llm_output in
     let plan_item := hd_error (LLMPlanning.items planning) in
     let pending_count := Z.of_nat (List.length pending_plans) in
     db_exec (fun s =>
                _apply_planning parse_send_at utcoffset s
                  (AppState.settings st) event
                  (LLMPlanning.action planning) plan_item pending_count
                  conversation
                  (utc_ts (Readings.planning_utc_now readings))
                  (Readings.planning_local_now readings)) ;;;
     store_summary event conversation ;;;
     ret Ok) st.

(** [wechat_event]: the handler of POST /wechat/event. *)
Definition wechat_event (readings : Readings.t) (event : InboundEvent.t)
           (x_bot_secret : option string) : H Response :=
  fun st =>
    if secret_differs x_bot_secret (AppState.shared_secret st)
    then (st, inl Unauthorized)
    else
      (conversation <- receive readings event ;;
       if ChatType_eqb (InboundEvent.chat_type event) group
          && negb (should_reply_in_group (InboundEvent.is_mention event)
                                         (AppState.settings st))
       then
         store_summary event conversation ;;;
         ret (Skipped "group_not_mentioned")
       else answer readings event conversation) st.

End Handler.

End Event.

(* ------------------------------------------------------------------ *)
(** ** Vocabulary of the further properties *)

Module TermsMore.


(** Every conversation has a daily count of at most [bound]. *)
Definition daily_counts_within (bound : Z) (db : BotDB) : Prop :=
  Forall (fun row => ConversationState.daily_count row <= bound)
         (conversations db).

(** What the loop leaves of the conversations: the chats, their types,
    summaries and last user timestamps. *)
Definition conversations_kept (before after : BotDB) : Prop :=
  Forall2
    (fun row row' =>
       ConversationState.chat_id row' = ConversationState.chat_id row
       /\ ConversationState.chat_type row' = ConversationState.chat_type row
       /\ ConversationState.summary row' = ConversationState.summary row
       /\ ConversationState.last_user_ts_utc row'
          = ConversationState.last_user_ts_utc row)
    (conversations before) (conversations after).

(** The messages of [after] are those of [before] followed by messages of
    the bot. *)
Definition messages_appended (before after : BotDB) : Prop :=
  exists added,
    messages after = messages before ++ added
    /\ Forall (fun row => MessageRecord.role row = "bot"%string
                          /\ MessageRecord.sender_id row = "bot"%string)
              added.

(** Every character of [s] satisfies [p]. *)
Fixpoint all_chars (p : Ascii.ascii -> bool) (s : string) : bool :=
  match s with
  | EmptyString => true
  | String c rest => p c && all_chars p rest
  end.

(** A character a tag can hold: no separator of file names, and no
    upper-case letter. *)
Definition tag_char (c : Ascii.ascii) : bool :=
  negb (is_tag_sep c) && Ascii.eqb (PyStr.lower_char c) c.

(** The entries the files bring to the index, in the order
    [_build_index] meets them: one (tag, path) for each tag of each
    file. *)
Definition tag_entries (files : list (string * string))
  : list (string * string) :=
  flat_map (fun file => map (fun tag => (tag, snd file))
                            (_tags_from_name (fst file)))
           files.

(** The paths filed under [key], in that order. *)
Definition paths_of (key : string) (files : list (string * string))
  : list string :=
  map snd (filter (fun entry => String.eqb (fst entry) key)
                  (tag_entries files)).

End TermsMore.
Import TermsMore.

Module TermsLoop.

(** The store after [_refresh_daily_counter] on the local day [today]. *)
Definition refreshed (s : BotDB) (conversation : ConversationState.t)
           (today : Z) : BotDB :=
  match ConversationState.daily_date conversation with
  | Some d =>
    if d =? today then s
    else update_daily_counter s (ConversationState.chat_id conversation)
                              0 today
  | None =>
    update_daily_counter s (ConversationState.chat_id conversation) 0 today
  end.

(** The plan passes the checks of the loop up to the dispatch: its
    conversation is there and may get proactive messages, the daily count
    is below the maximum, the local clock is outside the quiet hours, and
    the cooldown after the last message of the bot is over. *)
Definition ready_to_send (s : BotDB) (settings : Settings.t)
           (blocks : list QuietBlock) (now_utc local_now_dt : datetime)
           (plan : PlanRecord.t) (conversation : ConversationState.t)
  : Prop :=
  get_conversation s (PlanRecord.chat_id plan) = Some conversation
  /\ should_schedule_proactive settings
       (ConversationState.chat_type conversation) = true
  /\ rolled_count conversation (date local_now_dt)
     < ProactiveConfig.max_per_day (Settings.proactive settings)
  /\ is_within_quiet_hours local_now_dt blocks = false
  /\ match _next_after_cooldown
             (ConversationState.last_bot_ts_utc conversation)
             (ProactiveConfig.cooldown_hours (Settings.proactive settings))
     with
     | Some until => until <= now_utc
     | None => True
     end.

(** The message the loop records for the text of a plan. *)
Definition text_message (plan : PlanRecord.t) (now_utc : datetime)
  : MessageRecord.t :=
  MessageRecord.mk (PlanRecord.chat_id plan) "bot" "bot" (utc_ts now_utc)
                   (PlanRecord.text plan) "text".

End TermsLoop.
Import TermsLoop.

Module SamplesMore.

(** A local clock that stands at 23:00 of day 20000. *)
Definition night_clock (n : nat) : datetime := at_day 20000 (hhmm 23 0).

(** The sample settings with proactive messages switched off. *)
Definition settings_off : Settings.t :=
  Settings.mk "Asia/Shanghai" medium ProactiveConfig.default
              [(hhmm 22 0, hhmm 7 0)] GroupConfig.default.

(** A pending plan with a gif tag. *)
Definition gif_plan_row (id : Z) (chat_id : string) (send_at_utc : Z)
  : PlanRow.t :=
  PlanRow.mk id chat_id send_at_utc "hello" (Some "cat"%string) pending ""
             (7 # 10) 0 0.

(** A gif library that finds one file for every tag, and a connector call
    that always raises. *)
Definition one_gif (n : nat) (tag : string) : option string :=
  Some "assets/gifs/cat.gif"%string.

Definition always_raises (c : Outbox) (chat_id payload : string)
  : option Outbox := None.

(** The sample world with a last bot message of chat "a" at the given
    timestamp. *)
Definition world_after_bot (last_bot_ts_utc : Z) (rows : list PlanRow.t)
  : World Outbox :=
  mkWorld
    (mkDB []
          [ConversationState.mk "a" direct "" None (Some last_bot_ts_utc) 0
                                None]
          rows 0)
    [] 0%nat 0%nat.

End SamplesMore.
Import SamplesMore.

(* ------------------------------------------------------------------ *)
(** ** Vocabulary of the properties of the event handler *)

Module TermsEvent.

(** The conversation [ensure_conversation] hands to the handler: the one
    the store holds, with the chat type of the event, or an empty one. *)
Definition conversation_base (db : BotDB) (chat_id : string)
           (chat_type : ChatType) : ConversationState.t :=
  match get_conversation db chat_id with
  | Some before => set_chat_type chat_type before
  | None => ConversationState.mk chat_id chat_type "" None None 0 None
  end.

(** The message of the user and a message of the bot, as the handler
    records them. *)
Definition user_message (event : InboundEvent.t) : MessageRecord.t :=
  MessageRecord.mk (InboundEvent.chat_id event) (InboundEvent.sender_id event)
                   "user" (InboundEvent.timestamp event)
                   (InboundEvent.text event) "text".


(** The plan rows of the chats other than [chat_id]. *)
Definition plans_of_others (chat_id : string) (db : BotDB)
  : list PlanRow.t :=
  filter (fun row => negb (String.eqb (PlanRow.chat_id row) chat_id))
         (plans db).

(** Between [before] and [after] only the chat [chat_id] was worked on:
    the conversations and the plan rows of the other chats are the same,
    and the messages of [after] are those of [before] followed by messages
    of the chat. *)
Definition touches_only (chat_id : string) (before after : BotDB) : Prop :=
  (forall other, other <> chat_id ->
     get_conversation after other = get_conversation before other)
  /\ plans_of_others chat_id after = plans_of_others chat_id before
  /\ exists added,
       messages after = messages before ++ added
       /\ Forall (fun row => MessageRecord.chat_id row = chat_id) added.

End TermsEvent.
Import TermsEvent.

Module SamplesEvent.

(** An application with the sample settings, the secret "s3cret", the
    memory defaults, no gif file, the given store and nothing sent yet. *)
Definition sample_app (configured : bool) (s : BotDB) : AppState.t Outbox :=
  AppState.mk sample_settings "s3cret" 30 1200 configured [] s [].

(** Every clock reading at noon of day 20000 (04:00 UTC). *)
Definition sample_readings : Readings.t :=
  Readings.mk (at_day 20000 (hhmm 12 0)) (at_day 20000 (hhmm 12 0)) noon_utc
              0 0%nat noon_utc (at_day 20000 (hhmm 12 0)).

(** An endpoint whose call fails, and a validation that accepts nothing. *)
Definition no_answer (context : LLMContext.t) : Event.LLMAnswer :=
  Event.CallFailed.

Definition no_json (json_str : string) : option LLMOutput.t := None.


Definition sample_wechat_event (down : string -> bool)
           (event : InboundEvent.t) (x_bot_secret : option string)
           (st : AppState.t Outbox)
  : AppState.t Outbox * (Event.Failure + Event.Response) :=
  Event.wechat_event Outbox (outbox_send down) (outbox_send down)
                     sample_parse sample_utcoffset no_answer no_json
                     sample_readings event x_bot_secret st.

End SamplesEvent.
Import SamplesEvent.

(* ------------------------------------------------------------------ *)
(** * Facts about times *)

Lemma US_PER_DAY_pos : 0 < US_PER_DAY.
Proof. reflexivity. Qed.

Lemma time_us_range (t : time) :
  time_valid t -> 0 <= time_us t < US_PER_DAY.
Proof.
  unfold time_valid, time_us, US_PER_DAY, US_PER_HOUR, US_PER_MINUTE,
    US_PER_SECOND.
  lia.
Qed.

(** The order of [time_us] is Python's tuple order on times. *)
Lemma time_us_lex (a b : time) :
  time_valid a -> time_valid b -> time_lex_ltb a b = time_ltb a b.
Proof.
  unfold time_valid, time_lex_ltb, time_ltb, time_us, US_PER_HOUR,
    US_PER_MINUTE, US_PER_SECOND.
  intros Ha Hb.
  destruct (hour a ?= hour b) eqn:Eh;
    [apply Z.compare_eq in Eh | rewrite Z.compare_lt_iff in Eh
     | rewrite Z.compare_gt_iff in Eh].
  - destruct (minute a ?= minute b) eqn:Em;
      [apply Z.compare_eq in Em | rewrite Z.compare_lt_iff in Em
       | rewrite Z.compare_gt_iff in Em].
    + destruct (second a ?= second b) eqn:Es;
        [apply Z.compare_eq in Es | rewrite Z.compare_lt_iff in Es
         | rewrite Z.compare_gt_iff in Es].
      * destruct (microsecond a <? microsecond b) eqn:Eu; symmetry;
          [apply Z.ltb_lt; apply Z.ltb_lt in Eu
          | apply Z.ltb_ge; apply Z.ltb_ge in Eu]; lia.
      * symmetry; apply Z.ltb_lt; lia.
      * symmetry; apply Z.ltb_ge; lia.
    + symmetry; apply Z.ltb_lt; lia.
    + symmetry; apply Z.ltb_ge; lia.
  - symmetry; apply Z.ltb_lt; lia.
  - symmetry; apply Z.ltb_ge; lia.
Qed.

Lemma time_us_of_us (u : Z) : time_us (time_of_us u) = u.
Proof.
  unfold time_us, time_of_us, US_PER_HOUR, US_PER_MINUTE, US_PER_SECOND.
  cbn [hour minute second microsecond].
  Z.div_mod_to_equations. lia.
Qed.

Lemma timetz_us (dt : datetime) : time_us (timetz dt) = dt mod US_PER_DAY.
Proof. unfold timetz. apply time_us_of_us. Qed.

Lemma timetz_range (dt : datetime) : 0 <= time_us (timetz dt) < US_PER_DAY.
Proof.
  rewrite timetz_us. apply Z.mod_pos_bound, US_PER_DAY_pos.
Qed.

Lemma mod_next_day (dt : datetime) :
  (dt + days 1) mod US_PER_DAY = dt mod US_PER_DAY.
Proof. unfold days. apply Z_mod_plus_full. Qed.

Lemma replace_hm_minute_end (dt : datetime) (block : QuietBlock) :
  minute_end block ->
  replace_hm dt (hour (end_ block)) (minute (end_ block))
  = dt - dt mod US_PER_DAY + time_us (end_ block).
Proof.
  intros (_ & Hs & Hu). unfold replace_hm, time_us.
  cbn [hour minute second microsecond]. rewrite Hs, Hu. lia.
Qed.

(* ------------------------------------------------------------------ *)
(** * Quiet hours: [next_allowed_time] and [sanitize_schedule_time] *)

Section QuietHours.

Variable blocks : list QuietBlock.


(** The scan finds a block exactly when the time is quiet. *)
Lemma scan_blocks_none (candidate : datetime) (t : time)
      (bs : list QuietBlock) :
  scan_blocks candidate t bs = None <-> time_in_blocks t bs = false.
Proof.
  induction bs as [|block rest IH]; [cbn; tauto|].
  cbn [scan_blocks time_in_blocks].
  destruct (time_leb (start block) (end_ block)).
  - destruct (time_leb (start block) t && time_ltb t (end_ block)).
    + split; discriminate.
    + exact IH.
  - destruct (time_leb (start block) t); cbn [orb].
    + split; discriminate.
    + destruct (time_ltb t (end_ block)).
      * split; discriminate.
      * exact IH.
Qed.

(** A jump lands on the end of one of the blocks, on the candidate's day or
    on the next one. *)
Lemma scan_blocks_some (candidate moved : datetime) (t : time)
      (bs : list QuietBlock) :
  scan_blocks candidate t bs = Some moved ->
  exists block,
    In block bs /\
    ((time_us t < time_us (end_ block) /\
      moved = replace_hm candidate (hour (end_ block)) (minute (end_ block)))
     \/ moved = replace_hm (candidate + days 1)
                  (hour (end_ block)) (minute (end_ block))).
Proof.
  induction bs as [|block rest IH]; [discriminate|].
  cbn [scan_blocks]. unfold time_leb, time_ltb.
  destruct (time_us (start block) <=? time_us (end_ block)).
  - destruct (time_us (start block) <=? time_us t); cbn [andb].
    + destruct (time_us t <? time_us (end_ block)) eqn:E.
      * intros [= <-]. exists block. apply Z.ltb_lt in E.
        split; [left; reflexivity | left; split; [exact E | reflexivity]].
      * intros H. destruct (IH H) as (b & Hin & Hb).
        exists b. split; [right; exact Hin | exact Hb].
    + intros H. destruct (IH H) as (b & Hin & Hb).
      exists b. split; [right; exact Hin | exact Hb].
  - destruct (time_us (start block) <=? time_us t).
    + intros [= <-]. exists block.
      split; [left; reflexivity | right; reflexivity].
    + destruct (time_us t <? time_us (end_ block)) eqn:E.
      * intros [= <-]. exists block. apply Z.ltb_lt in E.
        split; [left; reflexivity | left; split; [exact E | reflexivity]].
      * intros H. destruct (IH H) as (b & Hin & Hb).
        exists b. split; [right; exact Hin | exact Hb].
Qed.

Hypothesis blocks_minute_end : Forall minute_end blocks.

(** With ends on whole minutes every jump goes forward. *)
Lemma scan_blocks_forward (candidate moved : datetime) :
  scan_blocks candidate (timetz candidate) blocks = Some moved ->
  candidate < moved.
Proof.
  intros H. apply scan_blocks_some in H. destruct H as (block & Hin & H).
  assert (Hme : minute_end block)
    by (rewrite Forall_forall in blocks_minute_end;
        apply blocks_minute_end, Hin).
  pose proof (time_us_range (end_ block) (proj1 Hme)) as Hend.
  pose proof (timetz_range candidate) as Ht.
  rewrite timetz_us in *.
  destruct H as [[Hlt ->] | ->]; rewrite (replace_hm_minute_end _ _ Hme).
  - lia.
  - rewrite mod_next_day. unfold days. lia.
Qed.

Lemma next_allowed_rounds_forward (n : nat) (candidate : datetime) :
  candidate <= next_allowed_rounds n candidate blocks.
Proof.
  revert candidate. induction n as [|n IH]; intros candidate; cbn.
  - lia.
  - destruct (scan_blocks candidate (timetz candidate) blocks) as [moved|]
      eqn:E; [|lia].
    apply scan_blocks_forward in E. specialize (IH moved). lia.
Qed.

(** The time of day a jump lands on. *)
Lemma scan_blocks_lands (candidate moved : datetime) :
  scan_blocks candidate (timetz candidate) blocks = Some moved ->
  exists block, In block blocks /\ time_us (timetz moved) = time_us (end_ block).
Proof.
  intros H. apply scan_blocks_some in H. destruct H as (block & Hin & H).
  assert (Hme : minute_end block)
    by (rewrite Forall_forall in blocks_minute_end;
        apply blocks_minute_end, Hin).
  pose proof (time_us_range (end_ block) (proj1 Hme)) as Hend.
  exists block. split; [exact Hin|]. rewrite timetz_us.
  assert (Hmod : forall base,
             (base - base mod US_PER_DAY + time_us (end_ block))
               mod US_PER_DAY = time_us (end_ block)).
  { intros base. pose proof US_PER_DAY_pos.
    rewrite (Z.div_mod base US_PER_DAY) at 1 by lia.
    replace (US_PER_DAY * (base / US_PER_DAY) + base mod US_PER_DAY
             - base mod US_PER_DAY + time_us (end_ block))
      with (time_us (end_ block) + (base / US_PER_DAY) * US_PER_DAY) by lia.
    rewrite Z_mod_plus_full. apply Z.mod_small. exact Hend. }
  destruct H as [[_ ->] | ->]; rewrite (replace_hm_minute_end _ _ Hme);
    apply Hmod.
Qed.





End QuietHours.

(** C10, as the code has it: for quiet blocks whose end is a whole minute
    ("HH:MM"), [next_allowed_time] never returns an instant before its
    input. *)
Theorem next_allowed_time_monotone (local_dt : datetime)
        (blocks : list QuietBlock) :
  Forall minute_end blocks ->
  local_dt <= next_allowed_time local_dt blocks.
Proof.
  intros Hends. unfold next_allowed_time.
  apply next_allowed_rounds_forward, Hends.
Qed.

Lemma next_allowed_time_monotone_witness :
  Forall minute_end [mkQuietBlock (hhmm 22 0) (hhmm 7 0)]
  /\ at_day 10 (hhmm 23 0)
     <= next_allowed_time (at_day 10 (hhmm 23 0))
          [mkQuietBlock (hhmm 22 0) (hhmm 7 0)].
Proof.
  assert (H : Forall minute_end [mkQuietBlock (hhmm 22 0) (hhmm 7 0)])
    by (repeat constructor; cbn; lia).
  split; [exact H | apply next_allowed_time_monotone; exact H].
Defined.

(** C10 as stated fails when the end of a block carries seconds: with the
    block 08:00-09:00:30, the instant 09:00:10 is moved back to 09:00:00 of
    the same day. *)
Lemma next_allowed_time_moves_back :
  next_allowed_time (at_day 10 (mkTime 9 0 10 0))
    [mkQuietBlock (hhmm 8 0) (mkTime 9 0 30 0)]
  = at_day 10 (hhmm 9 0)
  /\ ~ (at_day 10 (mkTime 9 0 10 0)
        <= next_allowed_time (at_day 10 (mkTime 9 0 10 0))
             [mkQuietBlock (hhmm 8 0) (mkTime 9 0 30 0)]).
Proof.
  split; [reflexivity | vm_compute; intros H; apply H; reflexivity].
Qed.




(* ------------------------------------------------------------------ *)
(** * The plan store *)

Lemma Status_eqb_eq (a b : Status) : Status_eqb a b = true <-> a = b.
Proof. destruct a, b; cbn; split; congruence. Qed.

Lemma insert_by_send_at_perm (row : PlanRow.t) (rows : list PlanRow.t) :
  Permutation (insert_by_send_at row rows) (row :: rows).
Proof.
  induction rows as [|r rest IH]; cbn; [apply Permutation_refl|].
  destruct (PlanRow.send_at_utc row <=? PlanRow.send_at_utc r).
  - apply Permutation_refl.
  - eapply perm_trans; [apply perm_skip, IH | apply perm_swap].
Qed.

Lemma order_by_send_at_perm (rows : list PlanRow.t) :
  Permutation (order_by_send_at rows) rows.
Proof.
  induction rows as [|r rest IH]; cbn; [constructor|].
  eapply perm_trans; [apply insert_by_send_at_perm | apply perm_skip, IH].
Qed.

Lemma insert_by_send_at_sorted (row : PlanRow.t) (rows : list PlanRow.t) :
  StronglySorted row_send_at_le rows ->
  StronglySorted row_send_at_le (insert_by_send_at row rows).
Proof.
  induction 1 as [|r rest Hrest IH Hall]; cbn.
  - repeat constructor.
  - destruct (PlanRow.send_at_utc row <=? PlanRow.send_at_utc r) eqn:E.
    + apply Z.leb_le in E. constructor; [constructor; assumption|].
      constructor; [exact E|].
      rewrite Forall_forall in *. intros x Hx. specialize (Hall x Hx).
      unfold row_send_at_le in *. lia.
    + apply Z.leb_gt in E. constructor; [exact IH|].
      rewrite Forall_forall in *. intros x Hx.
      apply (Permutation_in _ (insert_by_send_at_perm row rest)) in Hx.
      destruct Hx as [<- | Hx]; [unfold row_send_at_le; lia | auto].
Qed.

Lemma order_by_send_at_sorted (rows : list PlanRow.t) :
  StronglySorted row_send_at_le (order_by_send_at rows).
Proof.
  induction rows as [|r rest IH]; cbn;
    [constructor | apply insert_by_send_at_sorted, IH].
Qed.

(** A sorted list splits into a sorted front and a back that is not
    earlier. *)
Lemma sorted_app_inv (front back : list PlanRow.t) :
  StronglySorted row_send_at_le (front ++ back) ->
  StronglySorted row_send_at_le front
  /\ forall a b, In a front -> In b back -> row_send_at_le a b.
Proof.
  induction front as [|x front IH]; cbn; intros H.
  - split; [constructor | intros a b []].
  - inversion H as [|? ? Hs Hall]; subst. destruct (IH Hs) as (Hf & Hfb).
    rewrite Forall_forall in Hall. split.
    + constructor; [exact Hf|]. rewrite Forall_forall. intros y Hy.
      apply Hall, in_or_app. left; exact Hy.
    + intros a b [<- | Ha] Hb;
        [apply Hall, in_or_app; right; exact Hb | apply Hfb; assumption].
Qed.

Lemma sorted_map_record (rows : list PlanRow.t) :
  StronglySorted row_send_at_le rows ->
  StronglySorted send_at_le (map _plan_from_row rows).
Proof.
  induction 1 as [|r rest Hrest IH Hall]; cbn; constructor; [exact IH|].
  rewrite Forall_forall in *. intros y Hy. apply in_map_iff in Hy.
  destruct Hy as (x & <- & Hx). exact (Hall x Hx).
Qed.

(** LIMIT keeps a front of the rows, all of them when the limit is
    negative or not below their number. *)
Lemma sql_limit_split {A : Type} (limit : Z) (rows : list A) :
  exists back,
    rows = sql_limit limit rows ++ back
    /\ (limit < 0 \/ Z.of_nat (List.length rows) <= limit -> back = []).
Proof.
  unfold sql_limit. destruct (limit <? 0) eqn:E.
  - exists []. split; [symmetry; apply app_nil_r | reflexivity].
  - apply Z.ltb_ge in E. exists (skipn (Z.to_nat limit) rows).
    split; [symmetry; apply firstn_skipn|].
    intros [H | H]; [lia|]. apply skipn_all2. lia.
Qed.

Lemma sql_limit_length {A : Type} (limit : Z) (rows : list A) :
  0 <= limit ->
  List.length (sql_limit limit rows)
  = Nat.min (Z.to_nat limit) (List.length rows).
Proof.
  intros H. unfold sql_limit.
  destruct (limit <? 0) eqn:E; [apply Z.ltb_lt in E; lia|].
  apply length_firstn.
Qed.

Lemma due_record (now_utc : Z) (row : PlanRow.t) :
  due_at now_utc row = true ->
  PlanRecord.status (_plan_from_row row) = pending
  /\ PlanRecord.send_at_utc (_plan_from_row row) <= now_utc.
Proof.
  unfold due_at. intros H. apply andb_true_iff in H. destruct H as (Hs & Hd).
  apply Status_eqb_eq in Hs. apply Z.leb_le in Hd. cbn. split; assumption.
Qed.

(** Every plan a due query returns comes from a due row of the store. *)
Lemma get_due_plans_in (db : BotDB) (now_utc limit : Z) (p : PlanRecord.t) :
  In p (get_due_plans db now_utc limit) ->
  exists row,
    In row (plans db) /\ due_at now_utc row = true /\ p = _plan_from_row row.
Proof.
  unfold get_due_plans. intros H. apply in_map_iff in H.
  destruct H as (row & <- & Hrow). exists row.
  destruct (sql_limit_split limit
              (order_by_send_at (filter (due_at now_utc) (plans db))))
    as (back & Hsplit & _).
  assert (Hin : In row (filter (due_at now_utc) (plans db))).
  { apply (Permutation_in _ (order_by_send_at_perm _)).
    rewrite Hsplit. apply in_or_app. left; exact Hrow. }
  apply filter_In in Hin. destruct Hin as (Hin & Hdue). auto.
Qed.

(** C5, as the code has it: for every now and every limit that is not
    negative, [get_due_plans] returns only pending plans with
    [send_at_utc <= now], in ascending order of send time, at most [limit]
    of them (50 by default); what it returns is a front of the due plans in
    that order: together with the plans left out it is the whole set of due
    pending plans, none of those left out is earlier than one returned, and
    nothing is left out when the due plans number at most [limit]. *)
Theorem get_due_plans_correct (db : BotDB) (now_utc limit : Z) :
  0 <= limit ->
  let due := map _plan_from_row (filter (due_at now_utc) (plans db)) in
  let result := get_due_plans db now_utc limit in
  (forall p, In p result ->
     PlanRecord.status p = pending /\ PlanRecord.send_at_utc p <= now_utc)
  /\ StronglySorted send_at_le result
  /\ Z.of_nat (List.length result) <= limit
  /\ List.length result = Nat.min (Z.to_nat limit) (List.length due)
  /\ (exists rest,
        Permutation (result ++ rest) due
        /\ (forall p q, In p result -> In q rest -> send_at_le p q)
        /\ (Z.of_nat (List.length due) <= limit -> rest = []))
  /\ get_due_plans_default_limit = 50.
Proof.
  intros Hlimit due result.
  pose (sorted := order_by_send_at (filter (due_at now_utc) (plans db))).
  destruct (sql_limit_split limit sorted) as (back & Hsplit & Hall).
  assert (Hlen : List.length result
                 = Nat.min (Z.to_nat limit) (List.length due)).
  { unfold result, get_due_plans, due. rewrite !length_map.
    rewrite sql_limit_length by exact Hlimit.
    rewrite (Permutation_length (order_by_send_at_perm _)). reflexivity. }
  pose proof (order_by_send_at_sorted (filter (due_at now_utc) (plans db)))
    as Hsorted.
  fold sorted in Hsorted. rewrite Hsplit in Hsorted.
  apply sorted_app_inv in Hsorted. destruct Hsorted as (Hfront & Hback).
  split; [|split; [|split; [|split; [|split]]]].
  - intros p H.
    destruct (get_due_plans_in db now_utc limit p H) as (row & _ & Hdue & ->).
    apply (due_record now_utc row Hdue).
  - apply sorted_map_record, Hfront.
  - rewrite Hlen. lia.
  - exact Hlen.
  - exists (map _plan_from_row back). split; [|split].
    + unfold result, get_due_plans, due. fold sorted.
      rewrite <- map_app, <- Hsplit. apply Permutation_map.
      apply order_by_send_at_perm.
    + intros p q Hp Hq. apply in_map_iff in Hp, Hq.
      destruct Hp as (a & <- & Ha). destruct Hq as (b & <- & Hb).
      exact (Hback a b Ha Hb).
    + intros Hfew. rewrite Hall; [reflexivity|]. right.
      unfold sorted. rewrite (Permutation_length (order_by_send_at_perm _)).
      unfold due in Hfew. rewrite length_map in Hfew. exact Hfew.
  - reflexivity.
Qed.

Lemma get_due_plans_correct_witness :
  let db := store_of [plan_row_of 1 "a" 30 pending;
                      plan_row_of 2 "b" 10 pending;
                      plan_row_of 3 "a" 20 sent;
                      plan_row_of 4 "a" 20 pending;
                      plan_row_of 5 "b" 90 pending] in
  0 <= 2
  /\ map PlanRecord.id (get_due_plans db 50 2) = [2; 4]
  /\ StronglySorted send_at_le (get_due_plans db 50 2)
  /\ Z.of_nat (List.length (get_due_plans db 50 2)) <= 2.
Proof.
  intros db.
  assert (H : 0 <= 2) by lia.
  destruct (get_due_plans_correct db 50 2 H) as (_ & Hs & Hl & _).
  repeat split; [lia | exact Hs | exact Hl].
Defined.

(** C5 as stated fails in two ways.  With two due plans and a limit of 1
    only the earlier one is returned, so the result is not the whole set of
    due pending plans.  And a negative limit, which SQLite reads as no limit
    at all, does not bound the result: the due plan is returned, one row
    against a limit of -1. *)
Lemma get_due_plans_capped_or_unbounded :
  (let db := store_of [plan_row_of 1 "a" 30 pending;
                       plan_row_of 2 "b" 20 pending] in
   map PlanRecord.id (get_due_plans db 50 1) = [2]
   /\ due_at 50 (plan_row_of 1 "a" 30 pending) = true
   /\ ~ In (_plan_from_row (plan_row_of 1 "a" 30 pending))
           (get_due_plans db 50 1))
  /\ (let db := store_of [plan_row_of 1 "a" 30 pending] in
      map PlanRecord.id (get_due_plans db 50 (-1)) = [1]
      /\ ~ (Z.of_nat (List.length (get_due_plans db 50 (-1))) <= -1)).
Proof.
  split.
  - split; [reflexivity|]. split; [reflexivity|].
    vm_compute. intros [H | []]. discriminate.
  - split; [reflexivity | vm_compute; intros H; apply H; reflexivity].
Qed.

(* ------------------------------------------------------------------ *)
(** * Single-plan mutations *)

(** An UPDATE .. WHERE id = ? rewrites the row found under the id. *)
Lemma find_map_by_id (plan_id : Z) (set : PlanRow.t -> PlanRow.t)
      (rows : list PlanRow.t) :
  (forall row, PlanRow.id (set row) = PlanRow.id row) ->
  find (fun row => PlanRow.id row =? plan_id)
       (map (fun row => if PlanRow.id row =? plan_id then set row else row)
            rows)
  = option_map set (find (fun row => PlanRow.id row =? plan_id) rows).
Proof.
  intros Hid. induction rows as [|r rest IH]; [reflexivity|]. cbn.
  destruct (PlanRow.id r =? plan_id) eqn:E.
  - rewrite Hid, E. reflexivity.
  - rewrite E. exact IH.
Qed.

Lemma plan_row_mark_sent (db : BotDB) (plan_id now_utc : Z) :
  plan_row (mark_plan_sent db plan_id now_utc) plan_id
  = option_map (fun row => set_status row sent now_utc) (plan_row db plan_id).
Proof.
  unfold plan_row, mark_plan_sent. cbn.
  apply (find_map_by_id plan_id (fun row => set_status row sent now_utc)).
  reflexivity.
Qed.

Lemma plan_row_mark_canceled (db : BotDB) (plan_id now_utc : Z) :
  plan_row (mark_plan_canceled db plan_id now_utc) plan_id
  = option_map (fun row => set_status row canceled now_utc)
               (plan_row db plan_id).
Proof.
  unfold plan_row, mark_plan_canceled. cbn.
  apply (find_map_by_id plan_id (fun row => set_status row canceled now_utc)).
  reflexivity.
Qed.

Lemma plan_row_reschedule (db : BotDB) (plan_id send_at_utc now_utc : Z) :
  plan_row (reschedule_plan db plan_id send_at_utc now_utc) plan_id
  = option_map (fun row => set_send_at row send_at_utc now_utc)
               (plan_row db plan_id).
Proof.
  unfold plan_row, reschedule_plan. cbn.
  apply (find_map_by_id plan_id
           (fun row => set_send_at row send_at_utc now_utc)).
  reflexivity.
Qed.

(** C1, what the code does instead: the three mutations select the row by
    its id alone, whatever its status.  On any stored plan
    [mark_plan_sent] leaves the status 'sent', [mark_plan_canceled] leaves
    it 'canceled', and [reschedule_plan] keeps the status but overwrites
    the send time; so a canceled plan becomes sent, a sent plan becomes
    canceled, and a sent plan is given a new send time. *)
Theorem single_plan_mutations_ignore_status (db : BotDB)
        (plan_id now_utc send_at_utc : Z) (row : PlanRow.t) :
  plan_row db plan_id = Some row ->
  plan_status (mark_plan_sent db plan_id now_utc) plan_id = Some sent
  /\ plan_status (mark_plan_canceled db plan_id now_utc) plan_id
     = Some canceled
  /\ plan_status (reschedule_plan db plan_id send_at_utc now_utc) plan_id
     = Some (PlanRow.status row)
  /\ plan_send_at (reschedule_plan db plan_id send_at_utc now_utc) plan_id
     = Some send_at_utc.
Proof.
  intros Hrow. unfold plan_status, plan_send_at.
  rewrite plan_row_mark_sent, plan_row_mark_canceled, plan_row_reschedule.
  rewrite Hrow. cbn. repeat split.
Qed.

Lemma single_plan_mutations_ignore_status_witness :
  let was_canceled := store_of [plan_row_of 1 "a" 30 canceled] in
  let was_sent := store_of [plan_row_of 1 "a" 30 sent] in
  plan_status was_canceled 1 = Some canceled
  /\ plan_status (mark_plan_sent was_canceled 1 100) 1 = Some sent
  /\ plan_status was_sent 1 = Some sent
  /\ plan_status (mark_plan_canceled was_sent 1 100) 1 = Some canceled
  /\ plan_send_at was_sent 1 = Some 30
  /\ plan_send_at (reschedule_plan was_sent 1 500 100) 1 = Some 500.
Proof.
  intros was_canceled was_sent.
  destruct (single_plan_mutations_ignore_status was_canceled 1 100 500
              (plan_row_of 1 "a" 30 canceled) eq_refl) as (H1 & _).
  destruct (single_plan_mutations_ignore_status was_sent 1 100 500
              (plan_row_of 1 "a" 30 sent) eq_refl) as (_ & H2 & _ & H3).
  repeat split; assumption.
Defined.

(* ------------------------------------------------------------------ *)
(** * Replacing the plans of a chat *)

Lemma pending_of_set_canceled (chat_id : string) (now_utc : Z)
      (row : PlanRow.t) :
  pending_of chat_id
    (if pending_of chat_id row then set_status row canceled now_utc else row)
  = false.
Proof.
  destruct (pending_of chat_id row) eqn:E; [|exact E].
  unfold pending_of. cbn. apply andb_false_r.
Qed.

(** After the cancelling UPDATE the chat has no pending plan. *)
Lemma cancel_pending_none (db : BotDB) (chat_id : string) (now_utc : Z) :
  filter (pending_of chat_id) (plans (cancel_pending db chat_id now_utc)) = [].
Proof.
  unfold cancel_pending. cbn. induction (plans db) as [|r rest IH];
    [reflexivity|].
  cbn [map filter]. rewrite pending_of_set_canceled. exact IH.
Qed.

(** An INSERT adds one pending row of the chat after the rows there. *)
Lemma insert_plan_pending (db : BotDB) (chat_id : string) (plan : PlanTuple)
      (now_utc : Z) :
  exists row,
    filter (pending_of chat_id) (plans (insert_plan db chat_id plan now_utc))
    = filter (pending_of chat_id) (plans db) ++ [row]
    /\ _plan_from_row row
       = PlanRecord.mk (next_plan_id db) chat_id
           (fst (fst (fst (fst plan)))) (snd (fst (fst (fst plan))))
           (snd (fst (fst plan))) pending (snd (fst plan)) (snd plan).
Proof.
  destruct plan as [[[[send_at_utc text] gif_tag] reason] confidence].
  eexists. unfold insert_plan. cbn [plans]. rewrite filter_app. cbn [filter].
  unfold pending_of at 2. cbn [PlanRow.chat_id PlanRow.status].
  rewrite String.eqb_refl. cbn [Status_eqb andb].
  split; reflexivity.
Qed.

(** Cancelling keeps the ids, so the next rowid is the same. *)
Lemma next_plan_id_cancel (db : BotDB) (chat_id : string) (now_utc : Z) :
  next_plan_id (cancel_pending db chat_id now_utc) = next_plan_id db.
Proof.
  unfold next_plan_id, cancel_pending. cbn. f_equal.
  induction (plans db) as [|r rest IH]; [reflexivity|].
  cbn [map fold_right]. rewrite IH.
  destruct (pending_of chat_id r); reflexivity.
Qed.

Lemma replace_plans_one (db : BotDB) (chat_id : string) (plan : PlanTuple)
      (now_utc : Z) :
  count_pending_plans (replace_plans db chat_id [plan] now_utc) chat_id = 1
  /\ get_pending_plans (replace_plans db chat_id [plan] now_utc) chat_id
     = [PlanRecord.mk (next_plan_id db) chat_id
          (fst (fst (fst (fst plan)))) (snd (fst (fst (fst plan))))
          (snd (fst (fst plan))) pending (snd (fst plan)) (snd plan)].
Proof.
  unfold replace_plans, count_pending_plans, get_pending_plans.
  cbn [fold_left].
  destruct (insert_plan_pending (cancel_pending db chat_id now_utc)
              chat_id plan now_utc) as (row & -> & Hrow).
  rewrite cancel_pending_none. cbn. rewrite Hrow, next_plan_id_cancel.
  split; reflexivity.
Qed.

(* ------------------------------------------------------------------ *)
(** * Plan application *)

Section PlanApplicationFacts.

Variable parse_send_at : string -> string -> option datetime.
Variable utcoffset : string -> timedelta.

Local Abbreviation apply_planning := (_apply_planning parse_send_at utcoffset).
Local Abbreviation tuple_of := (plan_tuple_of parse_send_at utcoffset).

(** What a replace_all directive with an item does to the store. *)
Lemma apply_replace_all (db : BotDB) (settings : Settings.t)
      (event : InboundEvent.t) (item : LLMPlanItem.t) (pending_count : Z)
      (conversation : ConversationState.t) (now_utc_ts : Z)
      (local_now_dt : datetime) :
  apply_planning db settings event replace_all (Some item) pending_count
                 conversation now_utc_ts local_now_dt
  = match tuple_of settings event item conversation local_now_dt with
    | Some plan_tuple =>
      replace_plans db (InboundEvent.chat_id event) [plan_tuple] now_utc_ts
    | None => db
    end.
Proof. reflexivity. Qed.

(** C3: two replacements in a row leave exactly one pending plan for the
    chat, the one of the second replacement: [replace_plans] with one item
    cancels every pending plan of the chat and inserts the item in the same
    transaction.  Through plan application the same holds: when the second
    replace_all directive passes the policy gates its plan is the only
    pending one; when it is dropped the store stays as the first left
    it. *)
Theorem replace_all_twice_one_pending (db : BotDB) (chat_id : string)
        (first second : PlanTuple) (now1 now2 : Z) :
  let db1 := replace_plans db chat_id [first] now1 in
  let db2 := replace_plans db1 chat_id [second] now2 in
  count_pending_plans db1 chat_id = 1
  /\ count_pending_plans db2 chat_id = 1
  /\ get_pending_plans db2 chat_id
     = [record_of_tuple (next_plan_id db1) chat_id second]
  /\ forall settings event item1 item2 count1 count2 conv1 conv2 ln1 ln2,
      let s1 := apply_planning db settings event replace_all (Some item1)
                               count1 conv1 now1 ln1 in
      let s2 := apply_planning s1 settings event replace_all (Some item2)
                               count2 conv2 now2 ln2 in
      match tuple_of settings event item2 conv2 ln2 with
      | Some plan2 =>
        count_pending_plans s2 (InboundEvent.chat_id event) = 1
        /\ get_pending_plans s2 (InboundEvent.chat_id event)
           = [record_of_tuple (next_plan_id s1)
                (InboundEvent.chat_id event) plan2]
      | None =>
        s2 = s1
        /\ match tuple_of settings event item1 conv1 ln1 with
           | Some plan1 =>
             count_pending_plans s2 (InboundEvent.chat_id event) = 1
           | None => s2 = db
           end
      end.
Proof.
  intros db1 db2.
  split; [apply replace_plans_one|].
  split; [apply replace_plans_one|].
  split; [apply replace_plans_one|].
  intros settings event item1 item2 count1 count2 conv1 conv2 ln1 ln2 s1 s2.
  unfold s2, s1. rewrite !apply_replace_all.
  destruct (tuple_of settings event item2 conv2 ln2) as [plan2|].
  - apply replace_plans_one.
  - split; [reflexivity|].
    destruct (tuple_of settings event item1 conv1 ln1) as [plan1|];
      [apply replace_plans_one | reflexivity].
Qed.

(** C4: an append directive for a chat that already has
    [max_pending_per_chat] pending plans or more leaves the store as it
    was, so no plan is inserted and the pending count of the chat is the
    same. *)
Theorem append_at_cap_noop (db : BotDB) (settings : Settings.t)
        (event : InboundEvent.t) (plan_item : option LLMPlanItem.t)
        (pending_count : Z) (conversation : ConversationState.t)
        (now_utc_ts : Z) (local_now_dt : datetime) :
  ProactiveConfig.max_pending_per_chat (Settings.proactive settings)
  <= pending_count ->
  let after := apply_planning db settings event append plan_item
                              pending_count conversation now_utc_ts
                              local_now_dt in
  after = db
  /\ plans after = plans db
  /\ count_pending_plans after (InboundEvent.chat_id event)
     = count_pending_plans db (InboundEvent.chat_id event).
Proof.
  intros Hcap after.
  assert (H : after = db).
  { unfold after, _apply_planning.
    destruct plan_item as [item|]; [|reflexivity].
    destruct (plan_tuple_of _ _ _ _ _ _ _); [|reflexivity].
    apply Z.leb_le in Hcap. rewrite Hcap. reflexivity. }
  rewrite H. repeat split.
Qed.

(** C7: with no candidate item, replace_all does to the store what
    cancel_all does (every pending plan of the chat is canceled, the rows
    are otherwise the same and none is added), and the other two actions,
    none and append, leave the store as it was. *)
Theorem no_item_replace_all_is_cancel_all (db : BotDB)
        (settings : Settings.t) (event : InboundEvent.t)
        (pending_count : Z) (conversation : ConversationState.t)
        (now_utc_ts : Z) (local_now_dt : datetime) :
  let cleared := apply_planning db settings event replace_all None
                   pending_count conversation now_utc_ts local_now_dt in
  (forall plan_item pending_count' conversation' local_now_dt',
     cleared = apply_planning db settings event cancel_all plan_item
                 pending_count' conversation' now_utc_ts local_now_dt')
  /\ cleared
     = fst (cancel_all_plans db (InboundEvent.chat_id event) now_utc_ts)
  /\ plans cleared
     = map (fun row =>
              if pending_of (InboundEvent.chat_id event) row
              then set_status row canceled now_utc_ts else row)
           (plans db)
  /\ count_pending_plans cleared (InboundEvent.chat_id event) = 0
  /\ apply_planning db settings event none None pending_count conversation
                    now_utc_ts local_now_dt = db
  /\ apply_planning db settings event append None pending_count conversation
                    now_utc_ts local_now_dt = db.
Proof.
  intros cleared. repeat split.
  unfold cleared, _apply_planning, cancel_all_plans, count_pending_plans.
  cbn [fst]. rewrite cancel_pending_none. reflexivity.
Qed.

End PlanApplicationFacts.

Lemma append_at_cap_noop_witness :
  let db := store_of [plan_row_of 1 "a" 30 pending;
                      plan_row_of 2 "a" 40 pending] in
  let after :=
    _apply_planning sample_parse sample_utcoffset
      db sample_settings sample_event append (Some sample_item)
      (count_pending_plans db "a") (sample_conversation None 0 None)
      1000060 (at_day 20000 (hhmm 9 0)) in
  ProactiveConfig.max_pending_per_chat (Settings.proactive sample_settings)
  <= count_pending_plans db "a"
  /\ after = db
  /\ count_pending_plans after "a" = 2.
Proof.
  intros db after.
  assert (H : ProactiveConfig.max_pending_per_chat
                (Settings.proactive sample_settings)
              <= count_pending_plans db "a") by (vm_compute; discriminate).
  destruct (append_at_cap_noop sample_parse
              sample_utcoffset db sample_settings sample_event
              (Some sample_item) (count_pending_plans db "a")
              (sample_conversation None 0 None) 1000060
              (at_day 20000 (hhmm 9 0)) H) as (Heq & _ & Hcount).
  split; [exact H | split; [exact Heq | exact Hcount]].
Defined.

(** Below the cap the same directive does insert a plan. *)
Example append_below_cap :
  let db := store_of [plan_row_of 1 "a" 30 pending] in
  let after :=
    _apply_planning sample_parse sample_utcoffset
      db sample_settings sample_event append (Some sample_item)
      (count_pending_plans db "a") (sample_conversation None 0 None)
      1000060 (at_day 20000 (hhmm 9 0)) in
  count_pending_plans after "a" = 2
  /\ map PlanRecord.text (get_pending_plans after "a") = ["hello"%string; "ping"%string]
  /\ map PlanRecord.send_at_utc (get_pending_plans after "a")
     = [30; 20000 * 86400 + 4 * 3600].
Proof. vm_compute. repeat split. Qed.

(* ------------------------------------------------------------------ *)
(** * Cooldown in plan application *)

Section CooldownFacts.

Variable parse_send_at : string -> string -> option datetime.
Variable utcoffset : string -> timedelta.

Lemma truthy_int_nonzero (n : Z) : n <> 0 -> truthy_int (Some n) = Some n.
Proof.
  intros H. cbn. destruct (n =? 0) eqn:E; [|reflexivity].
  apply Z.eqb_eq in E. contradiction.
Qed.





End CooldownFacts.



(* ------------------------------------------------------------------ *)
(** * The due-plan execution loop *)

Lemma plan_row_of_due (s : BotDB) (now_utc limit : Z) (plan : PlanRecord.t) :
  In plan (get_due_plans s now_utc limit) ->
  exists row, plan_row s (PlanRecord.id plan) = Some row.
Proof.
  intros H. destruct (get_due_plans_in s now_utc limit plan H)
    as (row & Hin & _ & ->).
  unfold plan_row. cbn [_plan_from_row PlanRecord.id].
  destruct (find (fun r => PlanRow.id r =? PlanRow.id row) (plans s))
    as [found|] eqn:E; [exists found; reflexivity|].
  apply (find_none _ _ E) in Hin. rewrite Z.eqb_refl in Hin. discriminate.
Qed.

Lemma plan_row_same_plans (s s' : BotDB) (plan_id : Z) :
  plans s' = plans s -> plan_row s' plan_id = plan_row s plan_id.
Proof. unfold plan_row. intros ->. reflexivity. Qed.

Lemma get_due_plans_same_plans (s s' : BotDB) (now_utc limit : Z) :
  plans s' = plans s ->
  get_due_plans s' now_utc limit = get_due_plans s now_utc limit.
Proof. unfold get_due_plans. intros ->. reflexivity. Qed.

(** A plan marked canceled is not due any more. *)
Lemma canceled_not_due (s : BotDB) (plan_id at_utc now_utc limit : Z)
      (q : PlanRecord.t) :
  In q (get_due_plans (mark_plan_canceled s plan_id at_utc) now_utc limit) ->
  PlanRecord.id q <> plan_id.
Proof.
  intros H. destruct (get_due_plans_in _ _ _ _ H) as (row & Hin & Hdue & ->).
  unfold mark_plan_canceled in Hin. cbn [plans with_plans] in Hin.
  apply in_map_iff in Hin. destruct Hin as (r & <- & _).
  cbn [_plan_from_row PlanRecord.id].
  destruct (PlanRow.id r =? plan_id) eqn:E.
  - unfold due_at in Hdue. cbn in Hdue. discriminate.
  - apply Z.eqb_neq in E. exact E.
Qed.

Section ExecutionLoopFacts.

Variable Connector : Type.
Variable send_text : Connector -> string -> string -> option Connector.
Variable send_gif : Connector -> string -> string -> option Connector.
Variable local_clock : nat -> datetime.
Variable random_source : nat -> Q.
Variable pick_gif : nat -> string -> option string.
Variable utcoffset : string -> timedelta.

Local Abbreviation handle_plan :=
  (_handle_plan Connector send_text send_gif local_clock random_source
                pick_gif utcoffset).
Local Abbreviation handle_rest :=
  (handle_all Connector send_text send_gif local_clock random_source
              pick_gif utcoffset).

(** The daily counter as refreshed on the day of the clock. *)
Lemma refresh_daily_counter (chat_id : string) (today : Z)
      (conversation : ConversationState.t) (w : World Connector) :
  exists s,
    plans s = plans (db w) /\ messages s = messages (db w)
    /\ _refresh_daily_counter Connector chat_id today
         (ConversationState.daily_date conversation)
         (ConversationState.daily_count conversation) w
       = (mkWorld s (connector w) (clock_reads w) (random_reads w),
          inr (rolled_count conversation today)).
Proof.
  unfold _refresh_daily_counter, rolled_count.
  destruct (ConversationState.daily_date conversation) as [d|].
  - destruct (d =? today); cbn [negb].
    + exists (db w). destruct w. repeat split.
    + eexists. split; [|split; [|reflexivity]]; reflexivity.
  - eexists. split; [|split; [|reflexivity]]; reflexivity.
Qed.

(** A plan whose chat has used up the day is canceled, and the connector is
    left alone. *)
Lemma handle_plan_capped (plan : PlanRecord.t) (settings : Settings.t)
      (blocks : list QuietBlock) (now_utc : datetime) (w : World Connector)
      (conversation : ConversationState.t) :
  get_conversation (db w) (PlanRecord.chat_id plan) = Some conversation ->
  ProactiveConfig.max_per_day (Settings.proactive settings)
  <= rolled_count conversation (date (local_clock (clock_reads w))) ->
  exists s reads,
    plans s = plans (db w) /\ messages s = messages (db w)
    /\ handle_plan plan settings blocks now_utc w
       = (mkWorld (mark_plan_canceled s (PlanRecord.id plan) (utc_ts now_utc))
                  (connector w) reads (random_reads w),
          inr tt).
Proof.
  intros Hconv Hcap. unfold _handle_plan, bind, db_get_conversation.
  rewrite Hconv.
  destruct (should_schedule_proactive settings
              (ConversationState.chat_type conversation)); cbn [negb].
  - unfold local_now. cbn [db connector clock_reads random_reads].
    destruct (refresh_daily_counter (PlanRecord.chat_id plan)
                (date (local_clock (clock_reads w))) conversation
                (mkWorld (db w) (connector w) (S (clock_reads w))
                         (random_reads w)))
      as (s & Hp & Hm & ->).
    apply Z.leb_le in Hcap. rewrite Hcap.
    exists s, (S (clock_reads w)). repeat split; assumption.
  - exists (db w), (clock_reads w). repeat split.
Qed.

(** C9: a due plan whose conversation has reached [max_per_day] on the
    day of the local clock (the stored count when it was written today,
    0 after a change of date) is marked canceled; the connector is not
    called, no message is recorded, and the plan is not due any more.  So
    with [max_per_day = 1] and one plan sent today the next due plan of the
    chat is canceled without dispatch. *)
Theorem daily_cap_cancels_without_dispatch (plan : PlanRecord.t)
        (settings : Settings.t) (blocks : list QuietBlock)
        (now_utc : datetime) (limit : Z) (w : World Connector)
        (conversation : ConversationState.t) :
  In plan (get_due_plans (db w) (utc_ts now_utc) limit) ->
  get_conversation (db w) (PlanRecord.chat_id plan) = Some conversation ->
  ProactiveConfig.max_per_day (Settings.proactive settings)
  <= rolled_count conversation (date (local_clock (clock_reads w))) ->
  let after := handle_plan plan settings blocks now_utc w in
  snd after = inr tt
  /\ plan_status (db (fst after)) (PlanRecord.id plan) = Some canceled
  /\ connector (fst after) = connector w
  /\ messages (db (fst after)) = messages (db w)
  /\ (forall q,
        In q (get_due_plans (db (fst after)) (utc_ts now_utc) limit) ->
        PlanRecord.id q <> PlanRecord.id plan).
Proof.
  intros Hdue Hconv Hcap after.
  destruct (handle_plan_capped plan settings blocks now_utc w conversation
              Hconv Hcap) as (s & reads & Hp & Hm & Heq).
  unfold after. rewrite Heq. cbn [fst snd db connector].
  split; [reflexivity|]. split; [|split; [reflexivity|split]].
  - unfold plan_status. rewrite plan_row_mark_canceled.
    rewrite (plan_row_same_plans _ _ _ Hp).
    destruct (plan_row_of_due _ _ _ _ Hdue) as (row & ->). reflexivity.
  - exact Hm.
  - intros q Hq. exact (canceled_not_due _ _ _ _ _ _ Hq).
Qed.

(** What follows the text in [deliver] never raises on behalf of
    [send_text]. *)
Lemma send_plan_gif_outcome (plan : PlanRecord.t) (settings : Settings.t)
      (now_utc : datetime) (w : World Connector) :
  snd (send_plan_gif Connector send_gif random_source pick_gif plan settings
                     now_utc w)
  <> inl (ConnectorError SendText).
Proof.
  unfold send_plan_gif.
  destruct (truthy_str (PlanRecord.gif_tag plan)); [|discriminate].
  unfold bind, random.
  destruct (allow_gif _ _); [|discriminate].
  destruct (pick_gif _ _); [|discriminate].
  unfold connector_call. cbn [connector].
  destruct (send_gif _ _ _); discriminate.
Qed.

(** When the sending of the text raises, nothing of the plans, of the
    messages or of the connector has changed. *)
Lemma handle_plan_send_text_error (plan : PlanRecord.t)
      (settings : Settings.t) (blocks : list QuietBlock)
      (now_utc : datetime) (w : World Connector) :
  snd (handle_plan plan settings blocks now_utc w)
  = inl (ConnectorError SendText) ->
  exists s reads,
    plans s = plans (db w) /\ messages s = messages (db w)
    /\ fst (handle_plan plan settings blocks now_utc w)
       = mkWorld s (connector w) reads (random_reads w).
Proof.
  unfold _handle_plan, bind, db_get_conversation.
  destruct (get_conversation (db w) (PlanRecord.chat_id plan))
    as [conversation|]; [|discriminate].
  destruct (should_schedule_proactive settings
              (ConversationState.chat_type conversation)); cbn [negb];
    [|discriminate].
  unfold local_now. cbn [db connector clock_reads random_reads].
  destruct (refresh_daily_counter (PlanRecord.chat_id plan)
              (date (local_clock (clock_reads w))) conversation
              (mkWorld (db w) (connector w) (S (clock_reads w))
                       (random_reads w)))
    as (s & Hp & Hm & ->).
  cbn [db connector clock_reads random_reads] in *.
  destruct (_ <=? _); [discriminate|].
  destruct (is_within_quiet_hours _ blocks); [discriminate|].
  assert (Hdeliver :
    snd (deliver Connector send_text send_gif random_source pick_gif plan
           settings now_utc
           (rolled_count conversation (date (local_clock (clock_reads w))))
           (date (local_clock (clock_reads w)))
           (mkWorld s (connector w) (S (clock_reads w)) (random_reads w)))
    = inl (ConnectorError SendText) ->
    exists s' reads,
      plans s' = plans (db w) /\ messages s' = messages (db w)
      /\ fst (deliver Connector send_text send_gif random_source pick_gif
                plan settings now_utc
                (rolled_count conversation
                   (date (local_clock (clock_reads w))))
                (date (local_clock (clock_reads w)))
                (mkWorld s (connector w) (S (clock_reads w))
                         (random_reads w)))
         = mkWorld s' (connector w) reads (random_reads w)).
  { unfold deliver, bind, connector_call. cbn [connector].
    destruct (send_text (connector w) _ _) as [c|].
    - unfold db_exec at 1. cbn [db connector clock_reads random_reads].
      match goal with
      | |- context [send_plan_gif _ _ _ _ ?p ?st ?n ?w1] =>
        pose proof (send_plan_gif_outcome p st n w1) as Hgif;
        destruct (send_plan_gif Connector send_gif random_source pick_gif
                    p st n w1) as [w2 [e|u]]
      end.
      + cbn [snd] in *. intros H. contradiction.
      + discriminate.
    - intros _. exists s, (S (clock_reads w)). repeat split; assumption. }
  destruct (_next_after_cooldown _ _) as [until|]; [|exact Hdeliver].
  destruct (now_utc <? until); [discriminate | exact Hdeliver].
Qed.

(** The loop goes on with the next plan whatever the outcome. *)
Lemma handle_all_step (plan : PlanRecord.t) (rest : list PlanRecord.t)
      (settings : Settings.t) (blocks : list QuietBlock)
      (now_utc : datetime) (w : World Connector) :
  handle_rest (plan :: rest) settings blocks now_utc w
  = handle_rest rest settings blocks now_utc
      (fst (handle_plan plan settings blocks now_utc w)).
Proof.
  cbn [handle_all].
  destruct (handle_plan plan settings blocks now_utc w) as [w' [e|u]];
    reflexivity.
Qed.

(** C8: when the connector raises on sending the text of a due plan, the
    exception stays inside the handling of that plan: the rows of the
    plans are as before, so the plan is still pending and due, nothing was
    sent or recorded, and the loop handles the plans that remain in the
    batch. *)
Theorem send_failure_keeps_plan_pending (plan : PlanRecord.t)
        (rest : list PlanRecord.t) (settings : Settings.t)
        (blocks : list QuietBlock) (now_utc : datetime) (limit : Z)
        (w : World Connector) :
  In plan (get_due_plans (db w) (utc_ts now_utc) limit) ->
  snd (handle_plan plan settings blocks now_utc w)
  = inl (ConnectorError SendText) ->
  let after := fst (handle_plan plan settings blocks now_utc w) in
  plans (db after) = plans (db w)
  /\ PlanRecord.status plan = pending
  /\ plan_status (db after) (PlanRecord.id plan)
     = plan_status (db w) (PlanRecord.id plan)
  /\ In plan (get_due_plans (db after) (utc_ts now_utc) limit)
  /\ connector after = connector w
  /\ messages (db after) = messages (db w)
  /\ handle_rest (plan :: rest) settings blocks now_utc w
     = handle_rest rest settings blocks now_utc after.
Proof.
  intros Hdue Hraise after.
  destruct (handle_plan_send_text_error plan settings blocks now_utc w
              Hraise) as (s & reads & Hp & Hm & Heq).
  assert (Hplans : plans (db after) = plans (db w))
    by (unfold after; rewrite Heq; exact Hp).
  split; [exact Hplans|]. split; [|split; [|split; [|split; [|split]]]].
  - destruct (get_due_plans_in _ _ _ _ Hdue) as (row & _ & Hrow & ->).
    apply (due_record _ _ Hrow).
  - unfold plan_status. rewrite (plan_row_same_plans _ _ _ Hplans).
    reflexivity.
  - rewrite (get_due_plans_same_plans _ _ _ _ Hplans). exact Hdue.
  - unfold after. rewrite Heq. reflexivity.
  - unfold after. rewrite Heq. exact Hm.
  - apply handle_all_step.
Qed.

(** The sending of the text is reached, and its failure raised, when the
    plan passes the checks of the loop. *)
Lemma send_failure_raises (plan : PlanRecord.t) (settings : Settings.t)
      (blocks : list QuietBlock) (now_utc : datetime) (w : World Connector)
      (conversation : ConversationState.t) :
  get_conversation (db w) (PlanRecord.chat_id plan) = Some conversation ->
  should_schedule_proactive settings
    (ConversationState.chat_type conversation) = true ->
  rolled_count conversation (date (local_clock (clock_reads w)))
  < ProactiveConfig.max_per_day (Settings.proactive settings) ->
  is_within_quiet_hours (local_clock (clock_reads w)) blocks = false ->
  match _next_after_cooldown
          (ConversationState.last_bot_ts_utc conversation)
          (ProactiveConfig.cooldown_hours (Settings.proactive settings)) with
  | Some until => until <= now_utc
  | None => True
  end ->
  send_text (connector w) (PlanRecord.chat_id plan) (PlanRecord.text plan)
  = None ->
  snd (handle_plan plan settings blocks now_utc w)
  = inl (ConnectorError SendText).
Proof.
  intros Hconv Hallowed Hcount Hquiet Hcool Hsend.
  unfold _handle_plan, bind, db_get_conversation.
  rewrite Hconv, Hallowed. cbn [negb].
  unfold local_now. cbn [db connector clock_reads random_reads].
  destruct (refresh_daily_counter (PlanRecord.chat_id plan)
              (date (local_clock (clock_reads w))) conversation
              (mkWorld (db w) (connector w) (S (clock_reads w))
                       (random_reads w)))
    as (s & Hp & Hm & ->).
  destruct (_ <=? _) eqn:E; [apply Z.leb_le in E; lia|].
  rewrite Hquiet.
  assert (Hdeliver : forall count today,
    snd (deliver Connector send_text send_gif random_source pick_gif plan
           settings now_utc count today
           (mkWorld s (connector w) (S (clock_reads w)) (random_reads w)))
    = inl (ConnectorError SendText)).
  { intros count today. unfold deliver, bind, connector_call.
    cbn [connector]. rewrite Hsend. reflexivity. }
  destruct (_next_after_cooldown _ _) as [until|]; [|apply Hdeliver].
  destruct (now_utc <? until) eqn:E2; [apply Z.ltb_lt in E2; lia|].
  apply Hdeliver.
Qed.

End ExecutionLoopFacts.

Lemma daily_cap_cancels_without_dispatch_witness :
  let w := sample_world 1 (Some 20000)
             [plan_row_of 1 "a" 30 sent; plan_row_of 2 "a" 50 pending] in
  let plan := _plan_from_row (plan_row_of 2 "a" 50 pending) in
  let after := sample_handle (fun _ => false) plan w in
  In plan (get_due_plans (db w) (utc_ts noon_utc) 50)
  /\ ProactiveConfig.max_per_day (Settings.proactive sample_settings) = 1
  /\ rolled_count (sample_conversation None 1 (Some 20000))
                  (date (noon_clock (clock_reads w))) = 1
  /\ snd after = inr tt
  /\ plan_status (db (fst after)) 2 = Some canceled
  /\ connector (fst after) = [].
Proof.
  intros w plan after.
  assert (Hdue : In plan (get_due_plans (db w) (utc_ts noon_utc) 50))
    by (vm_compute; left; reflexivity).
  destruct (daily_cap_cancels_without_dispatch Outbox
              (outbox_send (fun _ => false)) (outbox_send (fun _ => false))
              noon_clock no_random no_gif sample_utcoffset plan
              sample_settings (build_quiet_blocks sample_settings) noon_utc
              50 w (sample_conversation None 1 (Some 20000)) Hdue eq_refl)
    as (Hok & Hst & Hconn & _).
  - vm_compute. discriminate.
  - split; [exact Hdue|]. split; [reflexivity|]. split; [reflexivity|].
    split; [exact Hok|]. split; [exact Hst | exact Hconn].
Defined.

Lemma send_failure_keeps_plan_pending_witness :
  let w := sample_world 0 None
             [plan_row_of 1 "b" 30 pending; plan_row_of 2 "a" 50 pending] in
  let plan := _plan_from_row (plan_row_of 1 "b" 30 pending) in
  let rest := [_plan_from_row (plan_row_of 2 "a" 50 pending)] in
  let down := String.eqb "b" in
  let after := fst (sample_handle down plan w) in
  In plan (get_due_plans (db w) (utc_ts noon_utc) 50)
  /\ snd (sample_handle down plan w) = inl (ConnectorError SendText)
  /\ plan_status (db after) 1 = Some pending
  /\ In plan (get_due_plans (db after) (utc_ts noon_utc) 50)
  /\ connector after = []
  /\ handle_all Outbox (outbox_send down) (outbox_send down) noon_clock
       no_random no_gif sample_utcoffset (plan :: rest) sample_settings
       (build_quiet_blocks sample_settings) noon_utc w
     = handle_all Outbox (outbox_send down) (outbox_send down) noon_clock
         no_random no_gif sample_utcoffset rest sample_settings
         (build_quiet_blocks sample_settings) noon_utc after.
Proof.
  intros w plan rest down after.
  assert (Hdue : In plan (get_due_plans (db w) (utc_ts noon_utc) 50))
    by (vm_compute; left; reflexivity).
  assert (Hraise : snd (sample_handle down plan w)
                   = inl (ConnectorError SendText)) by reflexivity.
  destruct (send_failure_keeps_plan_pending Outbox (outbox_send down)
              (outbox_send down) noon_clock no_random no_gif sample_utcoffset
              plan rest sample_settings (build_quiet_blocks sample_settings)
              noon_utc 50 w Hdue Hraise)
    as (_ & _ & Hst & Hstill & Hconn & _ & Hloop).
  split; [exact Hdue|]. split; [exact Hraise|].
  split; [exact (eq_trans Hst eq_refl)|].
  split; [exact Hstill|]. split; [exact Hconn | exact Hloop].
Defined.

(** One tick over three due plans: the text of plan 1 cannot be sent and
    the plan stays pending, plan 2 is sent, and plan 3, of the same chat as
    plan 2, is canceled because that chat has had its one message of the
    day. *)
Example tick_failure_then_daily_cap :
  let w := sample_world 0 None
             [plan_row_of 1 "b" 30 pending; plan_row_of 2 "a" 40 pending;
              plan_row_of 3 "a" 50 pending] in
  let after := sample_tick (String.eqb "b") sample_settings w in
  map (fun row => (PlanRow.id row, PlanRow.status row)) (plans (db after))
  = [(1, pending); (2, sent); (3, canceled)]
  /\ connector after = [("a"%string, "hello"%string)]
  /\ map MessageRecord.content (messages (db after)) = ["hello"%string].
Proof. vm_compute. repeat split. Qed.

(* ------------------------------------------------------------------ *)
(** * Scenarios *)

(** Quiet block 22:00-07:00, candidate 23:00: the sanitized time is 07:00
    of the next day. *)
Example quiet_wrap_23 :
  sanitize_schedule_time (at_day 10 (hhmm 23 0)) (at_day 10 (hhmm 12 0))
    [mkQuietBlock (hhmm 22 0) (hhmm 7 0)]
  = at_day 11 (hhmm 7 0).
Proof. reflexivity. Qed.

(** Two replace_all directives in a row on a chat with two pending plans:
    the second plan is the only pending one, the others are canceled. *)
Example replace_all_twice :
  let db := store_of [plan_row_of 1 "a" 30 pending;
                      plan_row_of 2 "a" 40 pending;
                      plan_row_of 3 "b" 50 pending] in
  let apply db ts :=
    _apply_planning sample_parse sample_utcoffset
      db sample_settings sample_event replace_all (Some sample_item)
      (count_pending_plans db "a") (sample_conversation None 0 None)
      ts (at_day 20000 (hhmm 9 0)) in
  let after := apply (apply db 1000060) 1000090 in
  map (fun row => (PlanRow.id row, PlanRow.chat_id row, PlanRow.status row))
      (plans after)
  = [(1, "a"%string, canceled); (2, "a"%string, canceled);
     (3, "b"%string, pending); (4, "a"%string, canceled);
     (5, "a"%string, pending)]
  /\ count_pending_plans after "a" = 1.
Proof. vm_compute. repeat split. Qed.

(** replace_all without an item clears the schedule of the chat. *)
Example replace_all_no_item :
  let db := store_of [plan_row_of 1 "a" 30 pending;
                      plan_row_of 2 "b" 40 pending;
                      plan_row_of 3 "a" 50 sent] in
  let after :=
    _apply_planning sample_parse sample_utcoffset db sample_settings
      sample_event replace_all None 1 (sample_conversation None 0 None)
      1000060 (at_day 20000 (hhmm 9 0)) in
  map (fun row => (PlanRow.id row, PlanRow.status row)) (plans after)
  = [(1, canceled); (2, pending); (3, sent)].
Proof. reflexivity. Qed.

(* ------------------------------------------------------------------ *)
(** * Further properties: quiet hours *)

(** X1: an instant is within the quiet hours exactly when its time of day
    lies in one of the blocks: from the start up to, not including, the end
    for a block with start <= end, and from the start on or before the end
    for a block that wraps past midnight.  A block with start = end is
    never quiet. *)
Theorem is_within_quiet_hours_iff (local_dt : datetime)
        (blocks : list QuietBlock) :
  is_within_quiet_hours local_dt blocks = true <->
  exists block,
    In block blocks
    /\ let t := local_dt mod US_PER_DAY in
       let s := time_us (start block) in
       let e := time_us (end_ block) in
       (s <= e /\ s <= t < e) \/ (e < s /\ (s <= t \/ t < e)).
Proof.
  unfold is_within_quiet_hours. rewrite <- (timetz_us local_dt).
  generalize (timetz local_dt) as t. intros t.
  induction blocks as [|block rest IH]; cbn [time_in_blocks].
  - split; [discriminate | intros (b & [] & _)].
  - unfold time_leb, time_ltb.
    destruct (time_us (start block) <=? time_us (end_ block)) eqn:Ese;
      [apply Z.leb_le in Ese | apply Z.leb_gt in Ese].
    + destruct (time_us (start block) <=? time_us t) eqn:Est;
        [apply Z.leb_le in Est | apply Z.leb_gt in Est]; cbn [andb].
      * destruct (time_us t <? time_us (end_ block)) eqn:Ete;
          [apply Z.ltb_lt in Ete | apply Z.ltb_ge in Ete].
        -- split; [|reflexivity]. intros _. exists block.
           split; [left; reflexivity | cbn; lia].
        -- rewrite IH. split.
           ++ intros (b & Hin & Hb). exists b. split; [right; exact Hin|].
              exact Hb.
           ++ intros (b & [<- | Hin] & Hb); [cbn in Hb; lia|].
              exists b. split; assumption.
      * rewrite IH. split.
        -- intros (b & Hin & Hb). exists b. split; [right; exact Hin|].
           exact Hb.
        -- intros (b & [<- | Hin] & Hb); [cbn in Hb; lia|].
           exists b. split; assumption.
    + destruct (time_us (start block) <=? time_us t) eqn:Est;
        [apply Z.leb_le in Est | apply Z.leb_gt in Est]; cbn [orb].
      * split; [|reflexivity]. intros _. exists block.
        split; [left; reflexivity | cbn; lia].
      * destruct (time_us t <? time_us (end_ block)) eqn:Ete;
          [apply Z.ltb_lt in Ete | apply Z.ltb_ge in Ete].
        -- split; [|reflexivity]. intros _. exists block.
           split; [left; reflexivity | cbn; lia].
        -- rewrite IH. split.
           ++ intros (b & Hin & Hb). exists b. split; [right; exact Hin|].
              exact Hb.
           ++ intros (b & [<- | Hin] & Hb); [cbn in Hb; lia|].
              exists b. split; assumption.
Qed.

(** A jump of the scan: the block it leaves and where it lands. *)
Lemma scan_blocks_jump (candidate moved : datetime) (t : time)
      (bs : list QuietBlock) :
  scan_blocks candidate t bs = Some moved ->
  exists block,
    In block bs /\
    ((time_us t < time_us (end_ block) /\
      moved = replace_hm candidate (hour (end_ block)) (minute (end_ block)))
     \/ (time_us (end_ block) < time_us (start block) <= time_us t /\
         moved = replace_hm (candidate + days 1)
                   (hour (end_ block)) (minute (end_ block)))).
Proof.
  induction bs as [|block rest IH]; [discriminate|].
  cbn [scan_blocks]. unfold time_leb, time_ltb.
  destruct (time_us (start block) <=? time_us (end_ block)) eqn:Ese;
    [|apply Z.leb_gt in Ese].
  - destruct (time_us (start block) <=? time_us t); cbn [andb].
    + destruct (time_us t <? time_us (end_ block)) eqn:E.
      * intros [= <-]. exists block. apply Z.ltb_lt in E.
        split; [left; reflexivity | left; split; [exact E | reflexivity]].
      * intros H. destruct (IH H) as (b & Hin & Hb).
        exists b. split; [right; exact Hin | exact Hb].
    + intros H. destruct (IH H) as (b & Hin & Hb).
      exists b. split; [right; exact Hin | exact Hb].
  - destruct (time_us (start block) <=? time_us t) eqn:Est.
    + intros [= <-]. exists block. apply Z.leb_le in Est.
      split; [left; reflexivity | right; split; [lia | reflexivity]].
    + destruct (time_us t <? time_us (end_ block)) eqn:E.
      * intros [= <-]. exists block. apply Z.ltb_lt in E.
        split; [left; reflexivity | left; split; [exact E | reflexivity]].
      * intros H. destruct (IH H) as (b & Hin & Hb).
        exists b. split; [right; exact Hin | exact Hb].
Qed.

(** With ends on whole minutes a jump is shorter than a day. *)
Lemma scan_blocks_within_a_day (blocks : list QuietBlock)
      (candidate moved : datetime) :
  Forall minute_end blocks ->
  scan_blocks candidate (timetz candidate) blocks = Some moved ->
  candidate < moved < candidate + days 1.
Proof.
  intros Hends H. apply scan_blocks_jump in H.
  destruct H as (block & Hin & H).
  assert (Hme : minute_end block)
    by (rewrite Forall_forall in Hends; apply Hends, Hin).
  pose proof (time_us_range (end_ block) (proj1 Hme)) as Hend.
  pose proof (timetz_range candidate) as Ht.
  rewrite timetz_us in *.
  destruct H as [[Hlt ->] | [Hwrap ->]];
    rewrite (replace_hm_minute_end _ _ Hme).
  - unfold days. lia.
  - rewrite mod_next_day. unfold days. lia.
Qed.

Lemma next_allowed_rounds_span (blocks : list QuietBlock) (n : nat)
      (candidate : datetime) :
  Forall minute_end blocks ->
  candidate <= next_allowed_rounds n candidate blocks
  /\ (n <> O -> next_allowed_rounds n candidate blocks
                < candidate + days (Z.of_nat n)).
Proof.
  intros Hends. revert candidate.
  induction n as [|n IH]; intros candidate; cbn [next_allowed_rounds].
  - split; [lia | congruence].
  - destruct (scan_blocks candidate (timetz candidate) blocks) as [moved|]
      eqn:E.
    + pose proof (scan_blocks_within_a_day _ _ _ Hends E) as Hjump.
      destruct (IH moved) as (Hle & Hlt). unfold days in *. split; [lia|].
      intros _. destruct n as [|n'].
      * cbn [next_allowed_rounds]. lia.
      * specialize (Hlt ltac:(discriminate)).
        rewrite (Nat2Z.inj_succ (S n')), Z.mul_succ_l.
        clear IH. revert Hlt.
        generalize (Z.of_nat (S n') * US_PER_DAY) as span.
        intros span Hlt. lia.
    + unfold days. split; [lia | intros _].
      apply Z.lt_add_pos_r, Z.mul_pos_pos; [lia | apply US_PER_DAY_pos].
Qed.

(** X2: [next_allowed_time] returns an instant outside the quiet hours as
    it is.  For blocks whose ends are whole minutes, an instant within the
    quiet hours is moved strictly forward, by less than five days, onto the
    end time of one of the blocks. *)
Theorem next_allowed_time_moves (local_dt : datetime)
        (blocks : list QuietBlock) :
  (is_within_quiet_hours local_dt blocks = false ->
   next_allowed_time local_dt blocks = local_dt)
  /\ (Forall minute_end blocks ->
      is_within_quiet_hours local_dt blocks = true ->
      local_dt < next_allowed_time local_dt blocks < local_dt + days 5
      /\ exists block,
           In block blocks
           /\ next_allowed_time local_dt blocks mod US_PER_DAY
              = time_us (end_ block)).
Proof.
  split.
  - unfold is_within_quiet_hours, next_allowed_time. intros Hout.
    apply scan_blocks_none with (candidate := local_dt) in Hout.
    cbn [next_allowed_rounds]. rewrite Hout. reflexivity.
  - intros Hends Hin. unfold next_allowed_time.
    destruct (scan_blocks local_dt (timetz local_dt) blocks) as [moved|]
      eqn:E.
    + pose proof (scan_blocks_within_a_day _ _ _ Hends E) as Hjump.
      change (next_allowed_rounds 5 local_dt blocks)
        with (match scan_blocks local_dt (timetz local_dt) blocks with
              | Some m => next_allowed_rounds 4 m blocks
              | None => local_dt
              end).
      rewrite E.
      destruct (next_allowed_rounds_span blocks 4 moved Hends) as (Hle & Hlt).
      specialize (Hlt ltac:(discriminate)). unfold days in *.
      split; [lia|].
      clear Hle Hlt Hjump. revert E. generalize local_dt as c.
      generalize 4%nat as n. intros n. revert moved.
      induction n as [|n IH]; intros moved c E; cbn [next_allowed_rounds].
      * destruct (scan_blocks_lands blocks Hends _ _ E) as (b & Hb & Hland).
        exists b. rewrite <- timetz_us. split; assumption.
      * destruct (scan_blocks moved (timetz moved) blocks) as [moved'|]
          eqn:E'.
        -- apply (IH moved' moved E').
        -- destruct (scan_blocks_lands blocks Hends _ _ E)
             as (b & Hb & Hland).
           exists b. rewrite <- timetz_us. split; assumption.
    + apply scan_blocks_none in E. unfold is_within_quiet_hours in Hin.
      congruence.
Qed.

Lemma next_allowed_time_moves_witness :
  let blocks := [mkQuietBlock (hhmm 22 0) (hhmm 7 0);
                 mkQuietBlock (hhmm 7 0) (hhmm 8 30)] in
  Forall minute_end blocks
  /\ is_within_quiet_hours (at_day 10 (hhmm 23 15)) blocks = true
  /\ next_allowed_time (at_day 10 (hhmm 23 15)) blocks
     = at_day 11 (hhmm 8 30)
  /\ at_day 10 (hhmm 23 15)
     < next_allowed_time (at_day 10 (hhmm 23 15)) blocks
     < at_day 10 (hhmm 23 15) + days 5.
Proof.
  intros blocks.
  assert (Hends : Forall minute_end blocks)
    by (repeat constructor; cbn; lia).
  assert (Hin : is_within_quiet_hours (at_day 10 (hhmm 23 15)) blocks = true)
    by reflexivity.
  destruct (next_allowed_time_moves (at_day 10 (hhmm 23 15)) blocks)
    as (_ & H).
  destruct (H Hends Hin) as (Hspan & _).
  split; [exact Hends|]. split; [exact Hin|]. split; [reflexivity|].
  exact Hspan.
Defined.

(* ------------------------------------------------------------------ *)
(** * Further properties: clamped texts and the summary *)

Lemma str_length_app (a b : string) :
  String.length (a ++ b) = (String.length a + String.length b)%nat.
Proof. induction a as [|c a IH]; cbn; [reflexivity | rewrite IH; reflexivity]. Qed.

Lemma str_length_take (n : nat) (s : string) :
  String.length (PyStr.take n s) = Nat.min n (String.length s).
Proof.
  revert s. induction n as [|n IH]; intros [|c s]; cbn; try reflexivity.
  rewrite IH. reflexivity.
Qed.

Lemma str_take_drop (n : nat) (s : string) :
  (PyStr.take n s ++ PyStr.drop n s)%string = s.
Proof.
  revert s. induction n as [|n IH]; intros [|c s]; cbn; try reflexivity.
  rewrite IH. reflexivity.
Qed.

Lemma clamp_text_short (value : string) (max_chars : Z) :
  Z.of_nat (String.length value) <= max_chars ->
  clamp_text value max_chars = value.
Proof.
  intros H. unfold clamp_text. apply Z.leb_le in H. rewrite H. reflexivity.
Qed.

Lemma clamp_text_bound (value : string) (max_chars : Z) :
  3 <= max_chars ->
  Z.of_nat (String.length (clamp_text value max_chars)) <= max_chars.
Proof.
  intros H3. unfold clamp_text.
  destruct (Z.of_nat (String.length value) <=? max_chars) eqn:E;
    [apply Z.leb_le in E; exact E | apply Z.leb_gt in E].
  unfold PyStr.slice_to.
  destruct (max_chars - 3 <? 0) eqn:En; [apply Z.ltb_lt in En; lia|].
  rewrite str_length_app, str_length_take. cbn [String.length]. lia.
Qed.

(** X3: [clamp_text] returns a text of at most [max_chars] characters as
    it is.  For [max_chars >= 3] the result never has more than
    [max_chars] characters, and a longer text comes back as its first
    [max_chars - 3] characters followed by "...", [max_chars] characters
    in all.  For [max_chars < 3] a text longer than [max_chars] comes back
    longer than [max_chars]: the bound does not hold there. *)
Theorem clamp_text_length (value : string) (max_chars : Z) :
  (Z.of_nat (String.length value) <= max_chars ->
   clamp_text value max_chars = value)
  /\ (3 <= max_chars ->
      Z.of_nat (String.length (clamp_text value max_chars)) <= max_chars
      /\ (max_chars < Z.of_nat (String.length value) ->
          exists kept dropped,
            value = (kept ++ dropped)%string
            /\ Z.of_nat (String.length kept) = max_chars - 3
            /\ clamp_text value max_chars = (kept ++ "...")%string
            /\ Z.of_nat (String.length (clamp_text value max_chars))
               = max_chars))
  /\ (max_chars < 3 ->
      max_chars < Z.of_nat (String.length value) ->
      max_chars < Z.of_nat (String.length (clamp_text value max_chars))).
Proof.
  split; [apply clamp_text_short|]. split.
  - intros H3. split; [apply clamp_text_bound, H3|]. intros Hlong.
    exists (PyStr.take (Z.to_nat (max_chars - 3)) value),
           (PyStr.drop (Z.to_nat (max_chars - 3)) value).
    assert (Hc : clamp_text value max_chars
                 = (PyStr.take (Z.to_nat (max_chars - 3)) value ++ "...")%string).
    { unfold clamp_text, PyStr.slice_to.
      destruct (Z.of_nat (String.length value) <=? max_chars) eqn:E;
        [apply Z.leb_le in E; lia|].
      destruct (max_chars - 3 <? 0) eqn:En; [apply Z.ltb_lt in En; lia|].
      reflexivity. }
    split; [symmetry; apply str_take_drop|].
    split; [rewrite str_length_take; lia|].
    split; [exact Hc|].
    rewrite Hc, str_length_app, str_length_take. cbn [String.length]. lia.
  - intros Hsmall Hlong. unfold clamp_text.
    destruct (Z.of_nat (String.length value) <=? max_chars) eqn:E;
      [apply Z.leb_le in E; lia|].
    rewrite str_length_app. cbn [String.length]. lia.
Qed.

Lemma clamp_text_length_witness :
  Z.of_nat (String.length "hello") <= 8
  /\ clamp_text "hello" 8 = "hello"%string
  /\ 3 <= 8
  /\ 8 < Z.of_nat (String.length "hello, world")
  /\ clamp_text "hello, world" 8 = "hello..."%string
  /\ 2 < 3
  /\ 2 < Z.of_nat (String.length "hello")
  /\ clamp_text "hello" 2 = "hell..."%string
  /\ 2 < Z.of_nat (String.length (clamp_text "hello" 2)).
Proof.
  destruct (clamp_text_length "hello" 8) as (Hshort & _).
  destruct (clamp_text_length "hello" 2) as (_ & _ & Hsmall).
  assert (H1 : Z.of_nat (String.length "hello") <= 8) by (cbn; lia).
  assert (H2 : 2 < 3) by lia.
  assert (H3 : 2 < Z.of_nat (String.length "hello")) by (cbn; lia).
  split; [exact H1|]. split; [exact (Hshort H1)|].
  split; [lia|]. split; [cbn; lia|]. split; [reflexivity|].
  split; [exact H2|]. split; [exact H3|]. split; [reflexivity|].
  exact (Hsmall H2 H3).
Defined.

Lemma last_n_app {A : Type} (n : nat) (older recent : list A) :
  (n <= List.length recent)%nat ->
  PyStr.last_n n (older ++ recent) = PyStr.last_n n recent.
Proof.
  intros H. unfold PyStr.last_n. rewrite length_app, skipn_app.
  replace (List.length older + List.length recent - n - List.length older)%nat
    with (List.length recent - n)%nat by lia.
  rewrite skipn_all2 by lia. reflexivity.
Qed.

(** X4: for [max_chars >= 3] the summary [update_summary] builds has at
    most [max_chars] characters; and the summary is built from the last six
    recent messages only: messages before them do not change it. *)
Theorem update_summary_bounded (previous_summary : string)
        (recent_messages : list RecentMessage.t) (max_chars : Z) :
  (3 <= max_chars ->
   Z.of_nat (String.length
               (update_summary previous_summary recent_messages max_chars))
   <= max_chars)
  /\ (forall older,
        (6 <= List.length recent_messages)%nat ->
        update_summary previous_summary (older ++ recent_messages) max_chars
        = update_summary previous_summary recent_messages max_chars).
Proof.
  split.
  - intros H3. unfold update_summary. apply clamp_text_bound, H3.
  - intros older H6. unfold update_summary.
    rewrite (last_n_app 6 older recent_messages H6). reflexivity.
Qed.

Lemma update_summary_bounded_witness :
  let recent := [RecentMessage.mk "user" "are you there?" 10 "text" "u1";
                 RecentMessage.mk "bot" "yes" 11 "text" "bot"] in
  3 <= 20
  /\ update_summary " earlier talk " recent 1200
     = String.concat (String PyStr.newline EmptyString)
         ["earlier talk"; "Recent:"; "U: are you there?"; "B: yes"]%string
  /\ update_summary " earlier talk " recent 20
     = String.concat (String PyStr.newline EmptyString)
         ["earlier..."; "Recent..."]%string
  /\ Z.of_nat (String.length (update_summary " earlier talk " recent 20))
     <= 20.
Proof.
  intros recent.
  destruct (update_summary_bounded " earlier talk " recent 20) as (Hb & _).
  assert (H3 : 3 <= 20) by lia.
  split; [exact H3|]. split; [reflexivity|]. split; [reflexivity|].
  exact (Hb H3).
Defined.

(* ------------------------------------------------------------------ *)
(** * Further properties: the plans of the store *)

Lemma next_plan_id_above (db : BotDB) :
  plans_seq db < next_plan_id db
  /\ forall row, In row (plans db) -> PlanRow.id row < next_plan_id db.
Proof.
  unfold next_plan_id. generalize (plans_seq db) as seq.
  induction (plans db) as [|r rest IH]; intros seq; cbn [fold_right].
  - split; [lia | intros row []].
  - destruct (IH seq) as (Hseq & Hrows). split; [lia|].
    intros row [<- | Hin]; [lia | specialize (Hrows row Hin); lia].
Qed.

Lemma insert_plan_rows (db : BotDB) (chat_id : string) (plan : PlanTuple)
      (now_utc : Z) :
  exists row,
    plans (insert_plan db chat_id plan now_utc) = plans db ++ [row]
    /\ plans_seq (insert_plan db chat_id plan now_utc) = next_plan_id db
    /\ conversations (insert_plan db chat_id plan now_utc) = conversations db
    /\ messages (insert_plan db chat_id plan now_utc) = messages db
    /\ PlanRow.id row = next_plan_id db
    /\ PlanRow.chat_id row = chat_id
    /\ PlanRow.status row = pending
    /\ _plan_from_row row = record_of_tuple (next_plan_id db) chat_id plan.
Proof.
  destruct plan as [[[[send_at_utc text] gif_tag] reason] confidence].
  eexists. unfold insert_plan. cbn. repeat split.
Qed.

Lemma insert_plan_ids (db : BotDB) (chat_id : string) (plan : PlanTuple)
      (now_utc : Z) :
  NoDup (map PlanRow.id (plans db)) ->
  NoDup (map PlanRow.id (plans (insert_plan db chat_id plan now_utc))).
Proof.
  intros Hnd.
  destruct (insert_plan_rows db chat_id plan now_utc)
    as (row & -> & _ & _ & _ & Hid & _).
  rewrite map_app. cbn [map]. rewrite Hid.
  apply NoDup_app; [exact Hnd | repeat constructor; intros [] |].
  intros id Hin [<- | []]. apply in_map_iff in Hin.
  destruct Hin as (r & Hr & Hin).
  pose proof (proj2 (next_plan_id_above db) r Hin). lia.
Qed.

Lemma insert_many_ids (chat_id : string) (new_plans : list PlanTuple)
      (now_utc : Z) (db : BotDB) :
  NoDup (map PlanRow.id (plans db)) ->
  NoDup (map PlanRow.id
           (plans (fold_left
                     (fun acc plan => insert_plan acc chat_id plan now_utc)
                     new_plans db))).
Proof.
  revert db. induction new_plans as [|plan rest IH]; intros db Hnd;
    cbn [fold_left]; [exact Hnd|].
  apply IH, insert_plan_ids, Hnd.
Qed.

Lemma update_by_id_ids (plan_id : Z) (set : PlanRow.t -> PlanRow.t)
      (rows : list PlanRow.t) :
  (forall row, PlanRow.id (set row) = PlanRow.id row) ->
  map PlanRow.id
      (map (fun row => if PlanRow.id row =? plan_id then set row else row)
           rows)
  = map PlanRow.id rows.
Proof.
  intros Hid. rewrite map_map. apply map_ext. intros row.
  destruct (PlanRow.id row =? plan_id); [apply Hid | reflexivity].
Qed.

Lemma cancel_pending_ids (db : BotDB) (chat_id : string) (now_utc : Z) :
  map PlanRow.id (plans (cancel_pending db chat_id now_utc))
  = map PlanRow.id (plans db).
Proof.
  unfold cancel_pending. cbn [plans with_plans]. rewrite map_map.
  apply map_ext. intros row. destruct (pending_of chat_id row); reflexivity.
Qed.

(** X5: the ids of the plans stay pairwise distinct under every write of
    the store to the plans table, and an inserted plan takes an id above
    every id in the table and above the AUTOINCREMENT mark, which then
    moves up to it; the updates keep the ids and add or drop no row. *)
Theorem plan_ids_stay_unique (db : BotDB) (chat_id : string)
        (new_plans : list PlanTuple) (plan : PlanTuple)
        (plan_id send_at_utc now_utc : Z) :
  NoDup (map PlanRow.id (plans db)) ->
  NoDup (map PlanRow.id (plans (append_plans db chat_id new_plans now_utc)))
  /\ NoDup (map PlanRow.id
             (plans (replace_plans db chat_id new_plans now_utc)))
  /\ map PlanRow.id (plans (fst (cancel_all_plans db chat_id now_utc)))
     = map PlanRow.id (plans db)
  /\ map PlanRow.id (plans (mark_plan_sent db plan_id now_utc))
     = map PlanRow.id (plans db)
  /\ map PlanRow.id (plans (mark_plan_canceled db plan_id now_utc))
     = map PlanRow.id (plans db)
  /\ map PlanRow.id (plans (reschedule_plan db plan_id send_at_utc now_utc))
     = map PlanRow.id (plans db)
  /\ (let after := insert_plan db chat_id plan now_utc in
      map PlanRow.id (plans after)
      = map PlanRow.id (plans db) ++ [next_plan_id db]
      /\ plans_seq after = next_plan_id db
      /\ plans_seq db < next_plan_id db
      /\ next_plan_id db < next_plan_id after
      /\ forall row, In row (plans db) -> PlanRow.id row < next_plan_id db).
Proof.
  intros Hnd.
  split; [apply insert_many_ids, Hnd|].
  split; [apply insert_many_ids; rewrite cancel_pending_ids; exact Hnd|].
  split; [apply cancel_pending_ids|].
  split; [apply update_by_id_ids; reflexivity|].
  split; [apply update_by_id_ids; reflexivity|].
  split; [apply update_by_id_ids; reflexivity|].
  cbv zeta.
  destruct (insert_plan_rows db chat_id plan now_utc)
    as (row & Hrows & Hseq & _ & _ & Hid & _).
  destruct (next_plan_id_above db) as (Hmark & Habove).
  split; [rewrite Hrows, map_app; cbn [map]; rewrite Hid; reflexivity|].
  split; [exact Hseq|]. split; [exact Hmark|]. split; [|exact Habove].
  pose proof (proj1 (next_plan_id_above (insert_plan db chat_id plan now_utc)))
    as Hnext.
  rewrite Hseq in Hnext. exact Hnext.
Qed.

Lemma plan_ids_stay_unique_witness :
  let db := store_of [plan_row_of 3 "a" 30 pending;
                      plan_row_of 7 "b" 40 sent] in
  let one := (50, "again"%string, @None string, ""%string, 7 # 10) in
  NoDup (map PlanRow.id (plans db))
  /\ map PlanRow.id (plans (replace_plans db "a" [one; one] 100))
     = [3; 7; 8; 9]
  /\ NoDup (map PlanRow.id (plans (replace_plans db "a" [one; one] 100))).
Proof.
  intros db one.
  assert (Hnd : NoDup (map PlanRow.id (plans db))).
  { cbn. repeat constructor; cbn; intuition discriminate. }
  destruct (plan_ids_stay_unique db "a" [one; one] one 3 0 100 Hnd)
    as (_ & Hrep & _).
  split; [exact Hnd|]. split; [reflexivity | exact Hrep].
Defined.

Lemma filter_pending_other (chat_id other : string) (now_utc : Z)
      (rows : list PlanRow.t) :
  other <> chat_id ->
  filter (pending_of other)
         (map (fun row =>
                 if pending_of chat_id row
                 then set_status row canceled now_utc else row) rows)
  = filter (pending_of other) rows.
Proof.
  intros Hneq. induction rows as [|r rest IH]; [reflexivity|].
  cbn [map filter]. rewrite IH.
  destruct (pending_of chat_id r) eqn:E; [|reflexivity].
  unfold pending_of in *. cbn [PlanRow.chat_id PlanRow.status set_status].
  apply andb_true_iff in E. destruct E as (Ec & _).
  apply String.eqb_eq in Ec. rewrite Ec.
  assert (Hf : String.eqb chat_id other = false)
    by (apply String.eqb_neq; congruence).
  rewrite Hf. reflexivity.
Qed.

Lemma cancel_pending_fixed (db : BotDB) (chat_id : string) (now_utc : Z) :
  filter (pending_of chat_id) (plans db) = [] ->
  cancel_pending db chat_id now_utc = db.
Proof.
  intros Hnone. unfold cancel_pending, with_plans. destruct db as [ms cs ps seq].
  cbn in *. f_equal.
  induction ps as [|r rest IH]; [reflexivity|]. cbn [filter map] in *.
  destruct (pending_of chat_id r); [discriminate|].
  rewrite (IH Hnone). reflexivity.
Qed.

(** X6: [cancel_all_plans] reports as its row count the number of pending
    plans the chat had, and leaves the chat with none; the pending plans of
    every other chat, and every row that was not a pending plan of the
    chat, stay as they were; the rows it cancels keep everything but status
    and update time.  A second call reports 0 and changes nothing. *)
Theorem cancel_all_plans_effect (db : BotDB) (chat_id : string)
        (now_utc later_utc : Z) :
  let after := fst (cancel_all_plans db chat_id now_utc) in
  snd (cancel_all_plans db chat_id now_utc) = count_pending_plans db chat_id
  /\ count_pending_plans after chat_id = 0
  /\ get_pending_plans after chat_id = []
  /\ (forall other, other <> chat_id ->
        get_pending_plans after other = get_pending_plans db other)
  /\ Forall2 (fun before row =>
                if pending_of chat_id before
                then row = set_status before canceled now_utc
                else row = before)
             (plans db) (plans after)
  /\ cancel_all_plans after chat_id later_utc = (after, 0).
Proof.
  intros after. unfold after, cancel_all_plans, count_pending_plans,
    get_pending_plans. cbn [fst snd].
  split; [reflexivity|].
  rewrite cancel_pending_none. cbn [List.length map order_by_send_at].
  split; [reflexivity|]. split; [reflexivity|]. split; [|split].
  - intros other Hneq. unfold cancel_pending. cbn [plans with_plans].
    rewrite (filter_pending_other chat_id other now_utc _ Hneq). reflexivity.
  - unfold cancel_pending. cbn [plans with_plans].
    induction (plans db) as [|r rest IH]; cbn [map]; constructor; [|exact IH].
    destruct (pending_of chat_id r); reflexivity.
  - rewrite (cancel_pending_fixed (cancel_pending db chat_id now_utc)
               chat_id later_utc (cancel_pending_none db chat_id now_utc)).
    reflexivity.
Qed.

Lemma filter_pending_insert_other (db : BotDB) (chat_id other : string)
      (plan : PlanTuple) (now_utc : Z) :
  other <> chat_id ->
  filter (pending_of other) (plans (insert_plan db chat_id plan now_utc))
  = filter (pending_of other) (plans db).
Proof.
  intros Hneq.
  destruct (insert_plan_rows db chat_id plan now_utc)
    as (row & -> & _ & _ & _ & _ & Hchat & _).
  rewrite filter_app. cbn [filter]. unfold pending_of at 2. rewrite Hchat.
  assert (Hf : String.eqb chat_id other = false)
    by (apply String.eqb_neq; congruence).
  rewrite Hf. cbn [andb]. apply app_nil_r.
Qed.

Lemma append_plans_rows (chat_id : string) (new_plans : list PlanTuple)
      (now_utc : Z) (db : BotDB) :
  exists added,
    plans (append_plans db chat_id new_plans now_utc) = plans db ++ added
    /\ List.length added = List.length new_plans
    /\ Forall (fun row => PlanRow.chat_id row = chat_id
                          /\ PlanRow.status row = pending) added
    /\ conversations (append_plans db chat_id new_plans now_utc)
       = conversations db
    /\ messages (append_plans db chat_id new_plans now_utc) = messages db.
Proof.
  unfold append_plans. revert db.
  induction new_plans as [|plan rest IH]; intros db; cbn [fold_left].
  - exists []. rewrite app_nil_r. repeat split. constructor.
  - destruct (insert_plan_rows db chat_id plan now_utc)
      as (row & Hrows & _ & Hc & Hm & _ & Hchat & Hst & _).
    destruct (IH (insert_plan db chat_id plan now_utc))
      as (added & Hadd & Hlen & Hall & Hc' & Hm').
    exists (row :: added). rewrite Hadd, Hrows, <- app_assoc.
    split; [reflexivity|]. split; [cbn; rewrite Hlen; reflexivity|].
    split; [constructor; [split; assumption | exact Hall]|].
    split; congruence.
Qed.

Lemma filter_all_true {A : Type} (f : A -> bool) (l : list A) :
  Forall (fun x => f x = true) l -> filter f l = l.
Proof.
  induction 1 as [|x l Hx _ IH]; cbn; [reflexivity|]. rewrite Hx, IH.
  reflexivity.
Qed.

Lemma filter_all_false {A : Type} (f : A -> bool) (l : list A) :
  Forall (fun x => f x = false) l -> filter f l = [].
Proof.
  induction 1 as [|x l Hx _ IH]; cbn; [reflexivity|]. rewrite Hx. exact IH.
Qed.

(** X7: [append_plans] (and [add_plan], its case of one plan) adds its
    plans after the rows there, each pending and of the chat, and touches
    no other row: the chat has as many more pending plans as were given,
    the other chats have the pending plans they had, and conversations and
    messages are as before. *)
Theorem append_plans_effect (db : BotDB) (chat_id : string)
        (new_plans : list PlanTuple) (now_utc : Z) :
  let after := append_plans db chat_id new_plans now_utc in
  (exists added,
     plans after = plans db ++ added
     /\ List.length added = List.length new_plans
     /\ Forall (fun row => PlanRow.chat_id row = chat_id
                           /\ PlanRow.status row = pending) added)
  /\ count_pending_plans after chat_id
     = count_pending_plans db chat_id + Z.of_nat (List.length new_plans)
  /\ (forall other, other <> chat_id ->
        get_pending_plans after other = get_pending_plans db other)
  /\ conversations after = conversations db
  /\ messages after = messages db
  /\ (forall send_at_utc text gif_tag reason confidence,
        add_plan db chat_id send_at_utc text gif_tag reason confidence now_utc
        = append_plans db chat_id
            [(send_at_utc, text, gif_tag, reason, confidence)] now_utc).
Proof.
  intros after.
  destruct (append_plans_rows chat_id new_plans now_utc db)
    as (added & Hrows & Hlen & Hall & Hc & Hm).
  fold after in Hrows, Hc, Hm.
  split; [exists added; auto|]. split; [|split; [|split; [|split]]].
  - unfold count_pending_plans. rewrite Hrows, filter_app, length_app.
    rewrite (filter_all_true _ added).
    + rewrite Hlen. lia.
    + eapply Forall_impl; [|exact Hall]. intros row (Hchat & Hst).
      unfold pending_of. rewrite Hchat, Hst, String.eqb_refl. reflexivity.
  - intros other Hneq. unfold get_pending_plans.
    rewrite Hrows, filter_app. rewrite (filter_all_false _ added).
    + rewrite app_nil_r. reflexivity.
    + eapply Forall_impl; [|exact Hall]. intros row (Hchat & _).
      unfold pending_of. rewrite Hchat.
      assert (Hf : String.eqb chat_id other = false)
        by (apply String.eqb_neq; congruence).
      rewrite Hf. reflexivity.
  - exact Hc.
  - exact Hm.
  - reflexivity.
Qed.

(** X8: [get_pending_plans] returns the pending plans of the chat, all of
    them and nothing else, in ascending order of send time, as many as
    [count_pending_plans] counts. *)
Theorem get_pending_plans_correct (db : BotDB) (chat_id : string) :
  let result := get_pending_plans db chat_id in
  Permutation result
    (map _plan_from_row (filter (pending_of chat_id) (plans db)))
  /\ (forall p, In p result ->
        PlanRecord.status p = pending /\ PlanRecord.chat_id p = chat_id)
  /\ StronglySorted send_at_le result
  /\ Z.of_nat (List.length result) = count_pending_plans db chat_id.
Proof.
  intros result. unfold result, get_pending_plans, count_pending_plans.
  split; [apply Permutation_map, order_by_send_at_perm|].
  split; [|split].
  - intros p Hp. apply in_map_iff in Hp. destruct Hp as (row & <- & Hrow).
    apply (Permutation_in _ (order_by_send_at_perm _)) in Hrow.
    apply filter_In in Hrow. destruct Hrow as (_ & Hpend).
    unfold pending_of in Hpend. apply andb_true_iff in Hpend.
    destruct Hpend as (Hc & Hs). apply String.eqb_eq in Hc.
    apply Status_eqb_eq in Hs. cbn. split; assumption.
  - apply sorted_map_record, order_by_send_at_sorted.
  - rewrite length_map.
    rewrite (Permutation_length (order_by_send_at_perm _)). reflexivity.
Qed.

(* ------------------------------------------------------------------ *)
(** * Further properties: conversations and messages *)

Lemma get_conversation_chat_id (db : BotDB) (chat_id : string)
      (row : ConversationState.t) :
  get_conversation db chat_id = Some row ->
  ConversationState.chat_id row = chat_id /\ In row (conversations db).
Proof.
  unfold get_conversation. intros H. apply find_some in H.
  destruct H as (Hin & Heq). apply String.eqb_eq in Heq. split; assumption.
Qed.

(** An UPDATE .. WHERE chat_id = ? rewrites the row read under the chat id
    and no row read under another one. *)
Lemma get_conversation_update (db : BotDB) (chat_id other : string)
      (set : ConversationState.t -> ConversationState.t) :
  (forall row, ConversationState.chat_id (set row)
               = ConversationState.chat_id row) ->
  get_conversation (update_conversation db chat_id set) other
  = if String.eqb other chat_id
    then option_map set (get_conversation db other)
    else get_conversation db other.
Proof.
  intros Hid. unfold get_conversation, update_conversation.
  cbn [conversations with_conversations].
  induction (conversations db) as [|r rest IH].
  - cbn. destruct (String.eqb other chat_id); reflexivity.
  - cbn [map find].
    destruct (String.eqb (ConversationState.chat_id r) chat_id) eqn:Erc.
    + rewrite Hid. apply String.eqb_eq in Erc.
      destruct (String.eqb (ConversationState.chat_id r) other) eqn:Ero.
      * apply String.eqb_eq in Ero.
        assert (Hoc : String.eqb other chat_id = true)
          by (apply String.eqb_eq; congruence).
        rewrite Hoc. reflexivity.
      * exact IH.
    + destruct (String.eqb (ConversationState.chat_id r) other) eqn:Ero.
      * apply String.eqb_eq in Ero. apply String.eqb_neq in Erc.
        assert (Hoc : String.eqb other chat_id = false)
          by (apply String.eqb_neq; congruence).
        rewrite Hoc. reflexivity.
      * exact IH.
Qed.

Lemma update_conversation_missing (db : BotDB) (chat_id : string)
      (set : ConversationState.t -> ConversationState.t) :
  get_conversation db chat_id = None ->
  update_conversation db chat_id set = db.
Proof.
  unfold get_conversation, update_conversation, with_conversations.
  destruct db as [ms cs ps seq]. cbn. intros Hnone. f_equal.
  induction cs as [|r rest IH]; [reflexivity|]. cbn [find map] in *.
  destruct (String.eqb (ConversationState.chat_id r) chat_id);
    [discriminate|].
  rewrite (IH Hnone). reflexivity.
Qed.

Lemma update_conversation_chat_ids (db : BotDB) (chat_id : string)
      (set : ConversationState.t -> ConversationState.t) :
  (forall row, ConversationState.chat_id (set row)
               = ConversationState.chat_id row) ->
  map ConversationState.chat_id
      (conversations (update_conversation db chat_id set))
  = map ConversationState.chat_id (conversations db).
Proof.
  intros Hid. unfold update_conversation.
  cbn [conversations with_conversations]. rewrite map_map.
  apply map_ext. intros row.
  destruct (String.eqb (ConversationState.chat_id row) chat_id);
    [apply Hid | reflexivity].
Qed.

Lemma get_conversation_app_new (db : BotDB) (fresh : ConversationState.t)
      (other : string) :
  get_conversation db (ConversationState.chat_id fresh) = None ->
  get_conversation (with_conversations db (conversations db ++ [fresh])) other
  = if String.eqb other (ConversationState.chat_id fresh)
    then Some fresh
    else get_conversation db other.
Proof.
  unfold get_conversation. cbn [conversations with_conversations].
  intros Hnone.
  destruct (String.eqb other (ConversationState.chat_id fresh)) eqn:E.
  - apply String.eqb_eq in E. subst other.
    induction (conversations db) as [|r rest IH]; cbn [app find] in *.
    + rewrite String.eqb_refl. reflexivity.
    + destruct (String.eqb (ConversationState.chat_id r)
                           (ConversationState.chat_id fresh));
        [discriminate | exact (IH Hnone)].
  - clear Hnone. induction (conversations db) as [|r rest IH];
      cbn [app find].
    + rewrite String.eqb_sym, E. reflexivity.
    + destruct (String.eqb (ConversationState.chat_id r) other);
        [reflexivity | exact IH].
Qed.

(** X9: [ensure_conversation] never fails: it returns the conversation of
    the chat, which the store then holds under the chat id, with the chat
    type given.  A chat not known before gets an empty conversation (no
    summary, no timestamps, daily count 0); a known one keeps summary,
    timestamps and counter.  Other chats, plans and messages are not
    touched, chat ids stay pairwise distinct, and a second call changes
    nothing. *)
Theorem ensure_conversation_correct (db : BotDB) (chat_id : string)
        (chat_type : ChatType) :
  let after := fst (ensure_conversation db chat_id chat_type) in
  exists conversation,
    snd (ensure_conversation db chat_id chat_type) = Some conversation
    /\ get_conversation after chat_id = Some conversation
    /\ ConversationState.chat_id conversation = chat_id
    /\ ConversationState.chat_type conversation = chat_type
    /\ match get_conversation db chat_id with
       | None =>
         conversation
         = ConversationState.mk chat_id chat_type "" None None 0 None
       | Some before => conversation = set_chat_type chat_type before
       end
    /\ (forall other, other <> chat_id ->
          get_conversation after other = get_conversation db other)
    /\ plans after = plans db
    /\ messages after = messages db
    /\ (NoDup (map ConversationState.chat_id (conversations db)) ->
        NoDup (map ConversationState.chat_id (conversations after)))
    /\ ensure_conversation after chat_id chat_type
       = (after, Some conversation).
Proof.
  intros after. unfold after, ensure_conversation.
  destruct (get_conversation db chat_id) as [before|] eqn:Hget.
  - destruct (get_conversation_chat_id _ _ _ Hget) as (Hid & _).
    assert (Hafter :
      get_conversation
        (if negb (ChatType_eqb (ConversationState.chat_type before)
                               chat_type)
         then update_conversation db chat_id (set_chat_type chat_type)
         else db) chat_id
      = Some (set_chat_type chat_type before)).
    { destruct (ChatType_eqb (ConversationState.chat_type before) chat_type)
        eqn:E; cbn [negb].
      - rewrite Hget. f_equal. destruct before as [c t s lu lb dc dd].
        cbn in *. destruct t, chat_type; cbn in E; try discriminate;
          reflexivity.
      - rewrite get_conversation_update by reflexivity.
        rewrite String.eqb_refl, Hget. reflexivity. }
    exists (set_chat_type chat_type before). cbn [fst snd].
    split; [exact Hafter|]. split; [exact Hafter|].
    split; [exact Hid|]. split; [reflexivity|]. split; [reflexivity|].
    split; [|split; [|split; [|split]]].
    + intros other Hneq.
      destruct (negb (ChatType_eqb (ConversationState.chat_type before)
                                   chat_type)); [|reflexivity].
      rewrite get_conversation_update by reflexivity.
      apply String.eqb_neq in Hneq. rewrite Hneq. reflexivity.
    + destruct (negb _); reflexivity.
    + destruct (negb _); reflexivity.
    + intros Hnd. destruct (negb _); [|exact Hnd].
      rewrite update_conversation_chat_ids by reflexivity. exact Hnd.
    + rewrite Hafter. cbn [ConversationState.chat_type set_chat_type].
      assert (Hsame : ChatType_eqb chat_type chat_type = true)
        by (destruct chat_type; reflexivity).
      rewrite Hsame. cbn [negb]. rewrite Hafter. reflexivity.
  - exists (ConversationState.mk chat_id chat_type "" None None 0 None).
    cbn [fst snd].
    pose proof (get_conversation_app_new db
                  (ConversationState.mk chat_id chat_type "" None None 0 None))
      as Hnew.
    cbn [ConversationState.chat_id] in Hnew.
    split; [reflexivity|].
    split; [rewrite (Hnew chat_id Hget), String.eqb_refl; reflexivity|].
    split; [reflexivity|]. split; [reflexivity|]. split; [reflexivity|].
    split; [|split; [|split; [|split]]].
    + intros other Hneq. rewrite (Hnew other Hget).
      apply String.eqb_neq in Hneq. rewrite Hneq. reflexivity.
    + reflexivity.
    + reflexivity.
    + cbn [conversations with_conversations]. intros Hnd.
      rewrite map_app. cbn [map ConversationState.chat_id].
      apply NoDup_app; [exact Hnd | repeat constructor; intros [] |].
      intros c Hin [<- | []]. apply in_map_iff in Hin.
      destruct Hin as (r & Hr & Hin).
      unfold get_conversation in Hget.
      apply (find_none _ _ Hget) in Hin. apply String.eqb_neq in Hin.
      contradiction.
    + rewrite (Hnew chat_id Hget), String.eqb_refl.
      cbn [ConversationState.chat_type].
      assert (Hsame : ChatType_eqb chat_type chat_type = true)
        by (destruct chat_type; reflexivity).
      rewrite Hsame. cbn [negb].
      rewrite (Hnew chat_id Hget), String.eqb_refl. reflexivity.
Qed.

(** X10: the writes of the counters reach the conversation of the chat and
    no other: after [update_daily_counter] the conversation reads the count
    and the date written, after [update_last_bot_ts] the timestamp written,
    all else as before; and for a chat without a conversation both leave
    the store as it was, without an error. *)
Theorem conversation_counters_round_trip (db : BotDB) (chat_id : string)
        (daily_count daily_date ts_utc : Z) :
  let counted := update_daily_counter db chat_id daily_count daily_date in
  let stamped := update_last_bot_ts db chat_id ts_utc in
  match get_conversation db chat_id with
  | Some before =>
    get_conversation counted chat_id
    = Some (ConversationState.mk
              (ConversationState.chat_id before)
              (ConversationState.chat_type before)
              (ConversationState.summary before)
              (ConversationState.last_user_ts_utc before)
              (ConversationState.last_bot_ts_utc before)
              daily_count (Some daily_date))
    /\ get_conversation stamped chat_id
       = Some (ConversationState.mk
                 (ConversationState.chat_id before)
                 (ConversationState.chat_type before)
                 (ConversationState.summary before)
                 (ConversationState.last_user_ts_utc before)
                 (Some ts_utc)
                 (ConversationState.daily_count before)
                 (ConversationState.daily_date before))
  | None => counted = db /\ stamped = db
  end
  /\ (forall other, other <> chat_id ->
        get_conversation counted other = get_conversation db other
        /\ get_conversation stamped other = get_conversation db other)
  /\ plans counted = plans db /\ plans stamped = plans db
  /\ messages counted = messages db /\ messages stamped = messages db.
Proof.
  intros counted stamped. split; [|split].
  - destruct (get_conversation db chat_id) as [before|] eqn:Hget.
    + unfold counted, stamped, update_daily_counter, update_last_bot_ts.
      rewrite !get_conversation_update by reflexivity.
      rewrite String.eqb_refl, Hget. split; reflexivity.
    + unfold counted, stamped, update_daily_counter, update_last_bot_ts.
      split; apply update_conversation_missing, Hget.
  - intros other Hneq. apply String.eqb_neq in Hneq.
    unfold counted, stamped, update_daily_counter, update_last_bot_ts.
    rewrite !get_conversation_update by reflexivity.
    rewrite Hneq. split; reflexivity.
  - repeat split.
Qed.








(* ------------------------------------------------------------------ *)
(** * Further properties: what one tick of the loop may change *)

Section LoopSteps.

Variable Connector : Type.
Variable send_text : Connector -> string -> string -> option Connector.
Variable send_gif : Connector -> string -> string -> option Connector.
Variable local_clock : nat -> datetime.
Variable random_source : nat -> Q.
Variable pick_gif : nat -> string -> option string.
Variable utcoffset : string -> timedelta.
Variable settings : Settings.t.
Variable blocks : list QuietBlock.
Variable now_utc : datetime.

Local Abbreviation handle_plan :=
  (_handle_plan Connector send_text send_gif local_clock random_source
                pick_gif utcoffset).
Local Abbreviation handle_rest :=
  (handle_all Connector send_text send_gif local_clock random_source
              pick_gif utcoffset).

(** A relation between stores that every write of the loop respects, for
    the plans the loop is handed. *)
Variable R : BotDB -> BotDB -> Prop.
Variable handed : PlanRecord.t -> Prop.

Hypothesis R_refl : forall s, R s s.
Hypothesis R_trans : forall s1 s2 s3, R s1 s2 -> R s2 s3 -> R s1 s3.
Hypothesis R_message :
  forall s chat_id ts content msg_type,
    R s (add_message s chat_id "bot" "bot" ts content msg_type).
Hypothesis R_stamp :
  forall plan s ts,
    handed plan -> R s (update_last_bot_ts s (PlanRecord.chat_id plan) ts).
Hypothesis R_count :
  forall plan s n d,
    handed plan ->
    n <= Z.max 0 (ProactiveConfig.max_per_day (Settings.proactive settings)) ->
    R s (update_daily_counter s (PlanRecord.chat_id plan) n d).
Hypothesis R_cancel :
  forall plan s ts,
    handed plan -> R s (mark_plan_canceled s (PlanRecord.id plan) ts).
Hypothesis R_sent :
  forall plan s ts,
    handed plan -> R s (mark_plan_sent s (PlanRecord.id plan) ts).
Hypothesis R_reschedule :
  forall plan s send_at ts,
    handed plan -> R s (reschedule_plan s (PlanRecord.id plan) send_at ts).

Lemma refresh_daily_counter_step (plan : PlanRecord.t)
      (today : Z) (conversation : ConversationState.t) (w : World Connector) :
  handed plan ->
  exists s,
    R (db w) s
    /\ _refresh_daily_counter Connector (PlanRecord.chat_id plan) today
         (ConversationState.daily_date conversation)
         (ConversationState.daily_count conversation) w
       = (mkWorld s (connector w) (clock_reads w) (random_reads w),
          inr (rolled_count conversation today)).
Proof.
  intros Hp. unfold _refresh_daily_counter, rolled_count.
  assert (Hzero : forall d, R (db w)
            (update_daily_counter (db w) (PlanRecord.chat_id plan) 0 d))
    by (intros d; apply R_count; [exact Hp | lia]).
  destruct (ConversationState.daily_date conversation) as [d|].
  - destruct (d =? today); cbn [negb].
    + exists (db w). destruct w. split; [apply R_refl | reflexivity].
    + eexists. split; [apply Hzero | reflexivity].
  - eexists. split; [apply Hzero | reflexivity].
Qed.

Lemma send_plan_gif_step (plan : PlanRecord.t) (w : World Connector) :
  R (db w)
    (db (fst (send_plan_gif Connector send_gif random_source pick_gif plan
                settings now_utc w))).
Proof.
  unfold send_plan_gif.
  destruct (truthy_str (PlanRecord.gif_tag plan)); [|apply R_refl].
  unfold bind, random. cbn [fst snd db connector].
  destruct (allow_gif _ _); [|apply R_refl].
  destruct (pick_gif _ _); [|apply R_refl].
  unfold connector_call. cbn [connector db].
  destruct (send_gif _ _ _); cbn [fst db]; [apply R_message | apply R_refl].
Qed.

Lemma deliver_step (plan : PlanRecord.t) (daily_count today : Z)
      (w : World Connector) :
  handed plan ->
  daily_count
  < ProactiveConfig.max_per_day (Settings.proactive settings) ->
  R (db w)
    (db (fst (deliver Connector send_text send_gif random_source pick_gif
                plan settings now_utc daily_count today w))).
Proof.
  intros Hp Hcount. unfold deliver, bind, connector_call.
  destruct (send_text (connector w) _ _) as [c|]; [|apply R_refl].
  unfold db_exec at 1. cbn [db connector clock_reads random_reads].
  match goal with
  | |- context [send_plan_gif _ _ _ _ ?p ?st ?n ?w1] =>
    pose proof (send_plan_gif_step p w1) as Hgif;
    destruct (send_plan_gif Connector send_gif random_source pick_gif
                p st n w1) as [w2 [e|u]]
  end; cbn [fst db] in *.
  - eapply R_trans; [apply R_message | exact Hgif].
  - eapply R_trans; [apply R_message|].
    eapply R_trans; [exact Hgif|].
    eapply R_trans; [apply (R_sent plan), Hp|].
    eapply R_trans; [apply (R_stamp plan), Hp|].
    apply (R_count plan); [exact Hp | lia].
Qed.

(** Handling a plan takes the store along [R]. *)
Lemma handle_plan_step (plan : PlanRecord.t) (w : World Connector) :
  handed plan ->
  R (db w) (db (fst (handle_plan plan settings blocks now_utc w))).
Proof.
  intros Hp. unfold _handle_plan, bind, db_get_conversation.
  destruct (get_conversation (db w) (PlanRecord.chat_id plan))
    as [conversation|]; [|apply R_refl].
  destruct (should_schedule_proactive settings
              (ConversationState.chat_type conversation)); cbn [negb];
    [|apply (R_cancel plan), Hp].
  unfold local_now. cbn [db connector clock_reads random_reads].
  destruct (refresh_daily_counter_step plan
              (date (local_clock (clock_reads w))) conversation
              (mkWorld (db w) (connector w) (S (clock_reads w))
                       (random_reads w)) Hp)
    as (s & Hs & ->).
  cbn [db connector clock_reads random_reads] in *.
  destruct (_ <=? _) eqn:Ecap;
    [cbn [fst db]; eapply R_trans; [exact Hs | apply (R_cancel plan), Hp]|].
  apply Z.leb_gt in Ecap.
  destruct (is_within_quiet_hours _ blocks);
    [cbn [fst db]; eapply R_trans; [exact Hs | apply (R_reschedule plan), Hp]|].
  assert (Hdeliver :
    R (db w)
      (db (fst (deliver Connector send_text send_gif random_source pick_gif
                  plan settings now_utc
                  (rolled_count conversation
                     (date (local_clock (clock_reads w))))
                  (date (local_clock (clock_reads w)))
                  (mkWorld s (connector w) (S (clock_reads w))
                           (random_reads w)))))).
  { eapply R_trans; [exact Hs|].
    apply (deliver_step plan _ _
             (mkWorld s (connector w) (S (clock_reads w)) (random_reads w))
             Hp Ecap). }
  destruct (_next_after_cooldown _ _) as [until|]; [|exact Hdeliver].
  destruct (now_utc <? until); [|exact Hdeliver].
  cbn [fst db]. eapply R_trans; [exact Hs | apply (R_reschedule plan), Hp].
Qed.

Lemma handle_all_steps (due_plans : list PlanRecord.t) (w : World Connector) :
  Forall handed due_plans ->
  R (db w) (db (handle_rest due_plans settings blocks now_utc w)).
Proof.
  intros Hall. revert w.
  induction Hall as [|plan rest Hp _ IH]; intros w; [apply R_refl|].
  rewrite handle_all_step.
  eapply R_trans; [apply handle_plan_step, Hp | apply IH].
Qed.

End LoopSteps.





Lemma daily_counts_update (bound : Z) (s : BotDB) (chat_id : string)
      (set : ConversationState.t -> ConversationState.t) :
  (forall row, ConversationState.daily_count row <= bound ->
               ConversationState.daily_count (set row) <= bound) ->
  daily_counts_within bound s ->
  daily_counts_within bound (update_conversation s chat_id set).
Proof.
  unfold daily_counts_within, update_conversation.
  cbn [conversations with_conversations]. intros Hset Hall.
  induction Hall as [|r rest Hr _ IH]; cbn [map]; constructor; [|exact IH].
  destruct (String.eqb (ConversationState.chat_id r) chat_id);
    [apply Hset, Hr | exact Hr].
Qed.

(** X13: the loop keeps the daily counts within the daily maximum: when
    no conversation has a daily count above [max_per_day] (above 0, for a
    maximum below 0) before a tick, none has after it. *)
Theorem loop_keeps_daily_counts (Connector : Type)
        (send_text send_gif : Connector -> string -> string -> option Connector)
        (local_clock : nat -> datetime) (random_source : nat -> Q)
        (pick_gif : nat -> string -> option string)
        (utcoffset : string -> timedelta)
        (settings : Settings.t) (now_utc : datetime) (w : World Connector) :
  let bound :=
    Z.max 0 (ProactiveConfig.max_per_day (Settings.proactive settings)) in
  daily_counts_within bound (db w) ->
  daily_counts_within bound
    (db (process_due_plans Connector send_text send_gif local_clock
           random_source pick_gif utcoffset settings now_utc w)).
Proof.
  intros bound. unfold process_due_plans.
  set (due := get_due_plans (db w) (utc_ts now_utc)
                            get_due_plans_default_limit).
  assert (Hall :
    daily_counts_within bound (db w) ->
    daily_counts_within bound
      (db (handle_all Connector send_text send_gif local_clock
             random_source pick_gif utcoffset due settings
             (build_quiet_blocks settings) now_utc w))).
  { apply (handle_all_steps Connector send_text send_gif local_clock
             random_source pick_gif utcoffset settings
             (build_quiet_blocks settings) now_utc
             (fun s s' => daily_counts_within bound s ->
                          daily_counts_within bound s')
             (fun _ => True)).
    - auto.
    - auto.
    - intros; assumption.
    - intros plan s ts _. unfold update_last_bot_ts.
      apply daily_counts_update. intros row Hrow. exact Hrow.
    - intros plan s n d _ Hn. unfold update_daily_counter.
      apply daily_counts_update. intros row _. exact Hn.
    - intros; assumption.
    - intros; assumption.
    - intros; assumption.
    - rewrite Forall_forall. intros; exact I. }
  destruct due; [auto | exact Hall].
Qed.

Lemma loop_keeps_daily_counts_witness :
  let w := sample_world 0 None
             [plan_row_of 1 "a" 30 pending; plan_row_of 2 "a" 40 pending;
              plan_row_of 3 "b" 50 pending] in
  let after := sample_tick (fun _ => false) sample_settings w in
  daily_counts_within 1 (db w)
  /\ map ConversationState.daily_count (conversations (db after)) = [1; 1]
  /\ daily_counts_within 1 (db after).
Proof.
  intros w after.
  assert (H : daily_counts_within 1 (db w))
    by (repeat constructor; cbn; lia).
  split; [exact H|]. split; [reflexivity|].
  apply (loop_keeps_daily_counts Outbox (outbox_send (fun _ => false))
           (outbox_send (fun _ => false)) noon_clock no_random no_gif
           sample_utcoffset sample_settings noon_utc w H).
Defined.

Lemma conversations_kept_update (s : BotDB) (chat_id : string)
      (set : ConversationState.t -> ConversationState.t) :
  (forall row,
     ConversationState.chat_id (set row) = ConversationState.chat_id row
     /\ ConversationState.chat_type (set row)
        = ConversationState.chat_type row
     /\ ConversationState.summary (set row) = ConversationState.summary row
     /\ ConversationState.last_user_ts_utc (set row)
        = ConversationState.last_user_ts_utc row) ->
  conversations_kept s (update_conversation s chat_id set).
Proof.
  intros Hset. unfold conversations_kept, update_conversation.
  cbn [conversations with_conversations].
  induction (conversations s) as [|r rest IH]; cbn [map]; constructor;
    [|exact IH].
  destruct (String.eqb (ConversationState.chat_id r) chat_id);
    [apply Hset | repeat split].
Qed.

Lemma conversations_kept_same (s s' : BotDB) :
  conversations s' = conversations s -> conversations_kept s s'.
Proof.
  unfold conversations_kept. intros ->.
  induction (conversations s) as [|r rest IH]; constructor; [|exact IH].
  repeat split.
Qed.

Lemma conversations_kept_trans (s1 s2 s3 : BotDB) :
  conversations_kept s1 s2 -> conversations_kept s2 s3 ->
  conversations_kept s1 s3.
Proof.
  unfold conversations_kept.
  generalize (conversations s1) (conversations s2) (conversations s3).
  intros l1 l2 l3 H12. revert l3.
  induction H12 as [|a b l1 l2 Hab _ IH]; intros l3 H23;
    inversion H23 as [|? c ? l3' Hbc H23']; subst; constructor;
    [|apply IH, H23'].
  destruct Hab as (H1 & H2 & H3 & H4). destruct Hbc as (H1' & H2' & H3' & H4').
  repeat split; congruence.
Qed.

Lemma messages_appended_same (s s' : BotDB) :
  messages s' = messages s -> messages_appended s s'.
Proof.
  intros H. exists []. rewrite app_nil_r. split; [exact H | constructor].
Qed.

Lemma messages_appended_trans (s1 s2 s3 : BotDB) :
  messages_appended s1 s2 -> messages_appended s2 s3 ->
  messages_appended s1 s3.
Proof.
  intros (a & Ha & Fa) (b & Hb & Fb). exists (a ++ b).
  rewrite Hb, Ha, app_assoc. split; [reflexivity | apply Forall_app; auto].
Qed.

(** X14: a tick of the loop creates and deletes no conversation and leaves
    chat type, summary and last user timestamp of each as they were; and
    it only adds to the messages, after those there, messages whose role
    and sender are "bot". *)
Theorem loop_keeps_conversations_and_messages (Connector : Type)
        (send_text send_gif : Connector -> string -> string -> option Connector)
        (local_clock : nat -> datetime) (random_source : nat -> Q)
        (pick_gif : nat -> string -> option string)
        (utcoffset : string -> timedelta)
        (settings : Settings.t) (now_utc : datetime) (w : World Connector) :
  let after := process_due_plans Connector send_text send_gif local_clock
                 random_source pick_gif utcoffset settings now_utc w in
  conversations_kept (db w) (db after)
  /\ messages_appended (db w) (db after).
Proof.
  intros after. unfold after, process_due_plans.
  set (due := get_due_plans (db w) (utc_ts now_utc)
                            get_due_plans_default_limit).
  assert (Hall :
    conversations_kept (db w)
      (db (handle_all Connector send_text send_gif local_clock
             random_source pick_gif utcoffset due settings
             (build_quiet_blocks settings) now_utc w))
    /\ messages_appended (db w)
         (db (handle_all Connector send_text send_gif local_clock
                random_source pick_gif utcoffset due settings
                (build_quiet_blocks settings) now_utc w))).
  { apply (handle_all_steps Connector send_text send_gif local_clock
             random_source pick_gif utcoffset settings
             (build_quiet_blocks settings) now_utc
             (fun s s' => conversations_kept s s' /\ messages_appended s s')
             (fun _ => True)).
    - intros s. split; [apply conversations_kept_same
                       | apply messages_appended_same]; reflexivity.
    - intros s1 s2 s3 (Hc & Hm) (Hc' & Hm').
      split; [eapply conversations_kept_trans | eapply messages_appended_trans];
        eassumption.
    - intros s chat_id ts content msg_type.
      split; [apply conversations_kept_same; reflexivity|].
      eexists. split; [reflexivity|]. repeat constructor.
    - intros plan s ts _. unfold update_last_bot_ts.
      split; [|apply messages_appended_same; reflexivity].
      apply conversations_kept_update. intros row. repeat split.
    - intros plan s n d _ _. unfold update_daily_counter.
      split; [|apply messages_appended_same; reflexivity].
      apply conversations_kept_update. intros row. repeat split.
    - intros. split; [apply conversations_kept_same
                     | apply messages_appended_same]; reflexivity.
    - intros. split; [apply conversations_kept_same
                     | apply messages_appended_same]; reflexivity.
    - intros. split; [apply conversations_kept_same
                     | apply messages_appended_same]; reflexivity.
    - rewrite Forall_forall. intros; exact I. }
  destruct due; [|exact Hall].
  split; [apply conversations_kept_same | apply messages_appended_same];
    reflexivity.
Qed.

(* ------------------------------------------------------------------ *)
(** * Further properties: the paths of [_handle_plan] *)

Lemma plan_row_update_other (plan_id other : Z)
      (set : PlanRow.t -> PlanRow.t) (s : BotDB) :
  (forall row, PlanRow.id (set row) = PlanRow.id row) ->
  other <> plan_id ->
  plan_row
    (with_plans s
       (map (fun row => if PlanRow.id row =? plan_id then set row else row)
            (plans s))) other
  = plan_row s other.
Proof.
  intros Hid Hneq. unfold plan_row. cbn [plans with_plans].
  induction (plans s) as [|r rest IH]; [reflexivity|]. cbn [map find].
  destruct (PlanRow.id r =? plan_id) eqn:E.
  - rewrite Hid. apply Z.eqb_eq in E.
    assert (H1 : (PlanRow.id r =? other) = false)
      by (apply Z.eqb_neq; congruence).
    rewrite H1. exact IH.
  - destruct (PlanRow.id r =? other); [reflexivity | exact IH].
Qed.

Section HandlePlanPaths.

Variable Connector : Type.
Variable send_text : Connector -> string -> string -> option Connector.
Variable send_gif : Connector -> string -> string -> option Connector.
Variable local_clock : nat -> datetime.
Variable random_source : nat -> Q.
Variable pick_gif : nat -> string -> option string.
Variable utcoffset : string -> timedelta.

Local Abbreviation handle_plan :=
  (_handle_plan Connector send_text send_gif local_clock random_source
                pick_gif utcoffset).
Local Abbreviation handle_rest :=
  (handle_all Connector send_text send_gif local_clock random_source
              pick_gif utcoffset).

(** The refresh of the daily counter, with the store it leaves. *)
Lemma refresh_daily_counter_store (chat_id : string) (today : Z)
      (conversation : ConversationState.t) (w : World Connector) :
  ConversationState.chat_id conversation = chat_id ->
  _refresh_daily_counter Connector chat_id today
    (ConversationState.daily_date conversation)
    (ConversationState.daily_count conversation) w
  = (mkWorld (refreshed (db w) conversation today) (connector w)
             (clock_reads w) (random_reads w),
     inr (rolled_count conversation today)).
Proof.
  intros <-. unfold _refresh_daily_counter, rolled_count, refreshed.
  destruct (ConversationState.daily_date conversation) as [d|];
    [destruct (d =? today); cbn [negb]|]; try reflexivity.
  destruct w; reflexivity.
Qed.

Lemma refreshed_facts (s : BotDB) (conversation : ConversationState.t)
      (today : Z) :
  get_conversation s (ConversationState.chat_id conversation)
  = Some conversation ->
  plans (refreshed s conversation today) = plans s
  /\ messages (refreshed s conversation today) = messages s
  /\ exists row,
       get_conversation (refreshed s conversation today)
                        (ConversationState.chat_id conversation) = Some row
       /\ ConversationState.chat_id row = ConversationState.chat_id conversation
       /\ ConversationState.chat_type row
          = ConversationState.chat_type conversation
       /\ ConversationState.summary row = ConversationState.summary conversation
       /\ ConversationState.last_user_ts_utc row
          = ConversationState.last_user_ts_utc conversation
       /\ ConversationState.last_bot_ts_utc row
          = ConversationState.last_bot_ts_utc conversation.
Proof.
  intros Hget. unfold refreshed.
  assert (Hupd :
    plans (update_daily_counter s (ConversationState.chat_id conversation)
                                0 today) = plans s
    /\ messages (update_daily_counter s
                   (ConversationState.chat_id conversation) 0 today)
       = messages s
    /\ exists row,
         get_conversation
           (update_daily_counter s (ConversationState.chat_id conversation)
                                 0 today)
           (ConversationState.chat_id conversation) = Some row
         /\ ConversationState.chat_id row
            = ConversationState.chat_id conversation
         /\ ConversationState.chat_type row
            = ConversationState.chat_type conversation
         /\ ConversationState.summary row
            = ConversationState.summary conversation
         /\ ConversationState.last_user_ts_utc row
            = ConversationState.last_user_ts_utc conversation
         /\ ConversationState.last_bot_ts_utc row
            = ConversationState.last_bot_ts_utc conversation).
  { split; [reflexivity|]. split; [reflexivity|].
    unfold update_daily_counter.
    rewrite get_conversation_update by reflexivity.
    rewrite String.eqb_refl, Hget. eexists. split; [reflexivity|].
    repeat split. }
  destruct (ConversationState.daily_date conversation) as [d|];
    [destruct (d =? today)|]; try exact Hupd.
  split; [reflexivity|]. split; [reflexivity|].
  exists conversation. repeat split. exact Hget.
Qed.

(** The run of [_handle_plan] up to the dispatch, for a plan that is ready
    to be sent. *)
Lemma handle_plan_ready (plan : PlanRecord.t) (settings : Settings.t)
      (blocks : list QuietBlock) (now_utc : datetime) (w : World Connector)
      (conversation : ConversationState.t) :
  ready_to_send (db w) settings blocks now_utc
                (local_clock (clock_reads w)) plan conversation ->
  handle_plan plan settings blocks now_utc w
  = deliver Connector send_text send_gif random_source pick_gif plan
      settings now_utc
      (rolled_count conversation (date (local_clock (clock_reads w))))
      (date (local_clock (clock_reads w)))
      (mkWorld (refreshed (db w) conversation
                  (date (local_clock (clock_reads w))))
               (connector w) (S (clock_reads w)) (random_reads w)).
Proof.
  intros (Hconv & Hallowed & Hcount & Hquiet & Hcool).
  destruct (get_conversation_chat_id _ _ _ Hconv) as (Hid & _).
  unfold _handle_plan, bind, db_get_conversation.
  rewrite Hconv, Hallowed. cbn [negb].
  unfold local_now. cbn [db connector clock_reads random_reads].
  rewrite (refresh_daily_counter_store _ _ _ _ Hid).
  cbn [db connector clock_reads random_reads].
  destruct (_ <=? _) eqn:E; [apply Z.leb_le in E; lia|].
  rewrite Hquiet.
  destruct (_next_after_cooldown _ _) as [until|]; [|reflexivity].
  destruct (now_utc <? until) eqn:E2; [apply Z.ltb_lt in E2; lia|].
  reflexivity.
Qed.

(** X15: a due plan without a gif tag that passes the checks of the loop,
    with a connector that takes the text: the text goes through the
    connector once, the message is recorded after those there, the plan is
    marked sent and is not due any more, and the conversation gets the time
    of the tick as last bot timestamp and the daily count of the day raised
    by one, which stays within [max_per_day]. *)
Theorem dispatch_marks_sent_and_counts (plan : PlanRecord.t)
        (settings : Settings.t) (blocks : list QuietBlock)
        (now_utc : datetime) (limit : Z) (w : World Connector)
        (conversation : ConversationState.t) (sent_to : Connector) :
  In plan (get_due_plans (db w) (utc_ts now_utc) limit) ->
  ready_to_send (db w) settings blocks now_utc
                (local_clock (clock_reads w)) plan conversation ->
  truthy_str (PlanRecord.gif_tag plan) = None ->
  send_text (connector w) (PlanRecord.chat_id plan) (PlanRecord.text plan)
  = Some sent_to ->
  let today := date (local_clock (clock_reads w)) in
  let after := fst (handle_plan plan settings blocks now_utc w) in
  snd (handle_plan plan settings blocks now_utc w) = inr tt
  /\ connector after = sent_to
  /\ messages (db after) = messages (db w) ++ [text_message plan now_utc]
  /\ plan_status (db after) (PlanRecord.id plan) = Some sent
  /\ (forall q,
        In q (get_due_plans (db after) (utc_ts now_utc) limit) ->
        PlanRecord.id q <> PlanRecord.id plan)
  /\ (forall other, other <> PlanRecord.id plan ->
        plan_row (db after) other = plan_row (db w) other)
  /\ get_conversation (db after) (PlanRecord.chat_id plan)
     = Some (ConversationState.mk
               (ConversationState.chat_id conversation)
               (ConversationState.chat_type conversation)
               (ConversationState.summary conversation)
               (ConversationState.last_user_ts_utc conversation)
               (Some (utc_ts now_utc))
               (rolled_count conversation today + 1)
               (Some today))
  /\ rolled_count conversation today + 1
     <= ProactiveConfig.max_per_day (Settings.proactive settings).
Proof.
  intros Hdue Hready Hnogif Hsend today after.
  pose proof Hready as (Hconv & _ & Hcount & _).
  destruct (get_conversation_chat_id _ _ _ Hconv) as (Hid & _).
  assert (Hrun :
    handle_plan plan settings blocks now_utc w
    = (mkWorld
         (update_daily_counter
            (update_last_bot_ts
               (mark_plan_sent
                  (add_message (refreshed (db w) conversation today)
                     (PlanRecord.chat_id plan) "bot" "bot" (utc_ts now_utc)
                     (PlanRecord.text plan) "text")
                  (PlanRecord.id plan) (utc_ts now_utc))
               (PlanRecord.chat_id plan) (utc_ts now_utc))
            (PlanRecord.chat_id plan)
            (rolled_count conversation today + 1) today)
         sent_to (S (clock_reads w)) (random_reads w),
       inr tt)).
  { rewrite (handle_plan_ready _ _ _ _ _ _ Hready).
    unfold deliver, bind, connector_call, send_plan_gif.
    cbn [connector db clock_reads random_reads].
    rewrite Hsend, Hnogif. reflexivity. }
  unfold after. rewrite Hrun. cbn [fst snd db connector].
  rewrite <- Hid in *.
  destruct (refreshed_facts (db w) conversation today Hconv)
    as (Hplans & Hmsgs & row & Hrow & Hr1 & Hr2 & Hr3 & Hr4 & Hr5).
  split; [reflexivity|]. split; [reflexivity|].
  split; [cbn; rewrite Hmsgs; unfold text_message; rewrite Hid; reflexivity|].
  split; [|split; [|split; [|split]]].
  - unfold plan_status.
    change (plan_row (update_daily_counter ?s _ _ _) ?i) with (plan_row s i).
    change (plan_row (update_last_bot_ts ?s _ _) ?i) with (plan_row s i).
    rewrite plan_row_mark_sent.
    change (plan_row (add_message ?s _ _ _ _ _ _) ?i) with (plan_row s i).
    rewrite (plan_row_same_plans _ _ _ Hplans).
    destruct (plan_row_of_due _ _ _ _ Hdue) as (r & ->). reflexivity.
  - intros q Hq.
    destruct (get_due_plans_in _ _ _ _ Hq) as (r & Hin & Hdq & ->).
    cbn [plans update_daily_counter update_last_bot_ts update_conversation
         with_conversations mark_plan_sent with_plans] in Hin.
    apply in_map_iff in Hin. destruct Hin as (r0 & <- & _).
    cbn [_plan_from_row PlanRecord.id].
    destruct (PlanRow.id r0 =? PlanRecord.id plan) eqn:E.
    + unfold due_at in Hdq. cbn in Hdq. discriminate.
    + apply Z.eqb_neq in E. exact E.
  - intros other Hneq.
    change (plan_row (update_daily_counter ?s _ _ _) ?i) with (plan_row s i).
    change (plan_row (update_last_bot_ts ?s _ _) ?i) with (plan_row s i).
    unfold mark_plan_sent.
    rewrite plan_row_update_other by (try reflexivity; exact Hneq).
    change (plan_row (add_message ?s _ _ _ _ _ _) ?i) with (plan_row s i).
    apply plan_row_same_plans, Hplans.
  - unfold update_daily_counter, update_last_bot_ts.
    rewrite !get_conversation_update by reflexivity.
    rewrite String.eqb_refl.
    change (get_conversation (mark_plan_sent ?s _ _) ?c)
      with (get_conversation s c).
    change (get_conversation (add_message ?s _ _ _ _ _ _) ?c)
      with (get_conversation s c).
    rewrite Hrow. cbn [option_map]. rewrite Hr1, Hr2, Hr3, Hr4.
    reflexivity.
  - unfold today. lia.
Qed.

Lemma utc_ts_from_ts (ts delta : Z) :
  utc_ts (from_ts_utc ts + hours delta) = ts + delta * 3600.
Proof.
  unfold utc_ts, from_ts_utc, hours, US_PER_HOUR, US_PER_MINUTE.
  replace (ts * US_PER_SECOND + delta * (60 * (60 * US_PER_SECOND)))
    with ((ts + delta * 3600) * US_PER_SECOND) by lia.
  apply Z.quot_mul. discriminate.
Qed.

(** X16: a due plan that passes the daily cap but cannot go out yet is put
    off, not dropped and not sent.  When the local clock is within the
    quiet hours its send time becomes the UTC second of
    [next_allowed_time]; else, when the bot's last message at T (T not 0)
    is less than [cooldown_hours] back, it becomes T + cooldown_hours * 3600.
    In both cases the status is untouched, nothing goes through the
    connector, no message is recorded and no other plan changes. *)
Theorem blocked_plan_is_rescheduled (plan : PlanRecord.t)
        (settings : Settings.t) (blocks : list QuietBlock)
        (now_utc : datetime) (limit : Z) (w : World Connector)
        (conversation : ConversationState.t) :
  In plan (get_due_plans (db w) (utc_ts now_utc) limit) ->
  get_conversation (db w) (PlanRecord.chat_id plan) = Some conversation ->
  should_schedule_proactive settings
    (ConversationState.chat_type conversation) = true ->
  rolled_count conversation (date (local_clock (clock_reads w)))
  < ProactiveConfig.max_per_day (Settings.proactive settings) ->
  let local_now_dt := local_clock (clock_reads w) in
  let after := fst (handle_plan plan settings blocks now_utc w) in
  let put_off_to (send_at_utc : Z) :=
    snd (handle_plan plan settings blocks now_utc w) = inr tt
    /\ plan_send_at (db after) (PlanRecord.id plan) = Some send_at_utc
    /\ plan_status (db after) (PlanRecord.id plan)
       = plan_status (db w) (PlanRecord.id plan)
    /\ (forall other, other <> PlanRecord.id plan ->
          plan_row (db after) other = plan_row (db w) other)
    /\ connector after = connector w
    /\ messages (db after) = messages (db w) in
  (is_within_quiet_hours local_now_dt blocks = true ->
   put_off_to (utc_timestamp utcoffset (Settings.timezone settings)
                 (next_allowed_time local_now_dt blocks)))
  /\ (forall last_bot_ts,
        is_within_quiet_hours local_now_dt blocks = false ->
        ConversationState.last_bot_ts_utc conversation = Some last_bot_ts ->
        last_bot_ts <> 0 ->
        now_utc
        < from_ts_utc last_bot_ts
          + hours (ProactiveConfig.cooldown_hours
                     (Settings.proactive settings)) ->
        put_off_to (last_bot_ts
                    + ProactiveConfig.cooldown_hours
                        (Settings.proactive settings) * 3600)).
Proof.
  intros Hdue Hconv Hallowed Hcount local_now_dt after put_off_to.
  destruct (get_conversation_chat_id _ _ _ Hconv) as (Hid & _).
  destruct (plan_row_of_due _ _ _ _ Hdue) as (found & Hfound).
  assert (Hput : forall send_at_utc,
    handle_plan plan settings blocks now_utc w
    = (mkWorld
         (reschedule_plan
            (refreshed (db w) conversation (date local_now_dt))
            (PlanRecord.id plan) send_at_utc (utc_ts now_utc))
         (connector w) (S (clock_reads w)) (random_reads w),
       inr tt) ->
    put_off_to send_at_utc).
  { intros send_at_utc Hrun. unfold put_off_to, after. rewrite Hrun.
    cbn [fst snd db connector].
    rewrite <- Hid in Hconv.
    destruct (refreshed_facts (db w) conversation (date local_now_dt) Hconv)
      as (Hplans & Hmsgs & _).
    split; [reflexivity|].
    unfold plan_send_at, plan_status. rewrite plan_row_reschedule.
    rewrite (plan_row_same_plans _ _ _ Hplans), Hfound.
    split; [reflexivity|]. split; [reflexivity|].
    split; [|split; [reflexivity | exact Hmsgs]].
    intros other Hneq. unfold reschedule_plan.
    rewrite plan_row_update_other by (try reflexivity; exact Hneq).
    apply plan_row_same_plans, Hplans. }
  split.
  - intros Hquiet. apply Hput.
    unfold _handle_plan, bind, db_get_conversation.
    rewrite Hconv, Hallowed. cbn [negb].
    unfold local_now. cbn [db connector clock_reads random_reads].
    rewrite (refresh_daily_counter_store _ _ _ _ Hid).
    destruct (_ <=? _) eqn:E; [apply Z.leb_le in E; unfold local_now_dt in *;
                               lia|].
    fold local_now_dt. rewrite Hquiet. reflexivity.
  - intros last_bot_ts Hquiet Hlast Hnz Hcool. rewrite <- utc_ts_from_ts.
    apply Hput.
    unfold _handle_plan, bind, db_get_conversation.
    rewrite Hconv, Hallowed. cbn [negb].
    unfold local_now. cbn [db connector clock_reads random_reads].
    rewrite (refresh_daily_counter_store _ _ _ _ Hid).
    destruct (_ <=? _) eqn:E; [apply Z.leb_le in E; unfold local_now_dt in *;
                               lia|].
    fold local_now_dt. rewrite Hquiet.
    unfold _next_after_cooldown. rewrite Hlast, (truthy_int_nonzero _ Hnz).
    apply Z.ltb_lt in Hcool. rewrite Hcool. reflexivity.
Qed.

(** X17: a due plan whose chat has no conversation raises the
    RuntimeError of [get_conversation]; the loop catches it, the world is
    as before, and the plans that follow in the batch are handled as if the
    plan had not been there. *)
Theorem missing_conversation_is_skipped (plan : PlanRecord.t)
        (rest : list PlanRecord.t) (settings : Settings.t)
        (blocks : list QuietBlock) (now_utc : datetime)
        (w : World Connector) :
  get_conversation (db w) (PlanRecord.chat_id plan) = None ->
  handle_plan plan settings blocks now_utc w
  = (w, inl (RuntimeError ("Conversation not found: "
                           ++ PlanRecord.chat_id plan)%string))
  /\ handle_rest (plan :: rest) settings blocks now_utc w
     = handle_rest rest settings blocks now_utc w.
Proof.
  intros Hnone.
  assert (Hrun : handle_plan plan settings blocks now_utc w
                 = (w, inl (RuntimeError ("Conversation not found: "
                                          ++ PlanRecord.chat_id plan)%string))).
  { unfold _handle_plan, bind, db_get_conversation. rewrite Hnone.
    reflexivity. }
  split; [exact Hrun|]. cbn [handle_all]. rewrite Hrun. reflexivity.
Qed.

(** X18: when the gif that goes with a plan cannot be sent (the connector
    raises on [send_gif]), the text has already gone out and is recorded,
    but the plan is not marked sent: its rows are as before, it is still
    due, and neither the last bot timestamp nor the daily count of the
    conversation has moved, so the next tick sends the text again. *)
Theorem gif_failure_leaves_plan_due (plan : PlanRecord.t)
        (settings : Settings.t) (blocks : list QuietBlock)
        (now_utc : datetime) (limit : Z) (w : World Connector)
        (conversation : ConversationState.t) (sent_to : Connector)
        (gif_tag gif_path : string) :
  In plan (get_due_plans (db w) (utc_ts now_utc) limit) ->
  ready_to_send (db w) settings blocks now_utc
                (local_clock (clock_reads w)) plan conversation ->
  send_text (connector w) (PlanRecord.chat_id plan) (PlanRecord.text plan)
  = Some sent_to ->
  truthy_str (PlanRecord.gif_tag plan) = Some gif_tag ->
  allow_gif (Settings.gif_rate settings) (random_source (random_reads w))
  = true ->
  pick_gif (random_reads w) gif_tag = Some gif_path ->
  send_gif sent_to (PlanRecord.chat_id plan) gif_path = None ->
  let after := fst (handle_plan plan settings blocks now_utc w) in
  snd (handle_plan plan settings blocks now_utc w)
  = inl (ConnectorError SendGif)
  /\ connector after = sent_to
  /\ messages (db after) = messages (db w) ++ [text_message plan now_utc]
  /\ plans (db after) = plans (db w)
  /\ In plan (get_due_plans (db after) (utc_ts now_utc) limit)
  /\ exists row,
       get_conversation (db after) (PlanRecord.chat_id plan) = Some row
       /\ ConversationState.last_bot_ts_utc row
          = ConversationState.last_bot_ts_utc conversation
       /\ ConversationState.daily_count row
          = rolled_count conversation (date (local_clock (clock_reads w))).
Proof.
  intros Hdue Hready Hsend Htag Hallow Hpick Hgif after.
  pose proof Hready as (Hconv & _).
  destruct (get_conversation_chat_id _ _ _ Hconv) as (Hid & _).
  set (today := date (local_clock (clock_reads w))).
  assert (Hrun :
    handle_plan plan settings blocks now_utc w
    = (mkWorld
         (add_message (refreshed (db w) conversation today)
            (PlanRecord.chat_id plan) "bot" "bot" (utc_ts now_utc)
            (PlanRecord.text plan) "text")
         sent_to (S (clock_reads w)) (S (random_reads w)),
       inl (ConnectorError SendGif))).
  { rewrite (handle_plan_ready _ _ _ _ _ _ Hready).
    unfold deliver, bind, connector_call, send_plan_gif, random, bind,
      connector_call, db_exec.
    cbn [connector db clock_reads random_reads fst snd].
    rewrite Hsend, Htag. cbn [connector db clock_reads random_reads fst snd].
    rewrite Hallow, Hpick. cbn [connector]. rewrite Hgif. reflexivity. }
  unfold after. rewrite Hrun. cbn [fst snd db connector].
  rewrite <- Hid in Hconv.
  destruct (refreshed_facts (db w) conversation today Hconv)
    as (Hplans & Hmsgs & row & Hrow & _ & _ & _ & _ & Hbot).
  split; [reflexivity|]. split; [reflexivity|].
  split; [cbn; rewrite Hmsgs; reflexivity|].
  split; [exact Hplans|].
  split; [rewrite (get_due_plans_same_plans (db w)); [exact Hdue|exact Hplans]|].
  change (get_conversation (add_message ?s _ _ _ _ _ _) ?c)
    with (get_conversation s c).
  rewrite <- Hid. exists row. split; [exact Hrow|]. split; [exact Hbot|].
  clear - Hrow Hconv. unfold refreshed, rolled_count in *. fold today.
  destruct (ConversationState.daily_date conversation) as [d|].
  - destruct (d =? today).
    + congruence.
    + unfold update_daily_counter in Hrow.
      rewrite get_conversation_update in Hrow by reflexivity.
      rewrite String.eqb_refl, Hconv in Hrow. injection Hrow as <-.
      reflexivity.
  - unfold update_daily_counter in Hrow.
    rewrite get_conversation_update in Hrow by reflexivity.
    rewrite String.eqb_refl, Hconv in Hrow. injection Hrow as <-.
    reflexivity.
Qed.

Lemma plan_status_mark_canceled (s : BotDB) (plan_id other ts : Z) :
  plan_status (mark_plan_canceled s plan_id ts) other
  = if other =? plan_id
    then option_map (fun _ => canceled) (plan_status s other)
    else plan_status s other.
Proof.
  unfold plan_status. destruct (other =? plan_id) eqn:E.
  - apply Z.eqb_eq in E. subst other. rewrite plan_row_mark_canceled.
    destruct (plan_row s plan_id); reflexivity.
  - apply Z.eqb_neq in E. unfold mark_plan_canceled.
    rewrite plan_row_update_other by (try reflexivity; exact E).
    reflexivity.
Qed.

Lemma handle_plan_not_allowed (plan : PlanRecord.t) (settings : Settings.t)
      (blocks : list QuietBlock) (now_utc : datetime) (w : World Connector) :
  ProactiveConfig.enabled (Settings.proactive settings) = false ->
  fst (handle_plan plan settings blocks now_utc w)
  = match get_conversation (db w) (PlanRecord.chat_id plan) with
    | Some _ =>
      mkWorld (mark_plan_canceled (db w) (PlanRecord.id plan)
                                  (utc_ts now_utc))
              (connector w) (clock_reads w) (random_reads w)
    | None => w
    end.
Proof.
  intros Hoff. unfold _handle_plan, bind, db_get_conversation.
  destruct (get_conversation (db w) (PlanRecord.chat_id plan))
    as [conversation|]; [|reflexivity].
  unfold should_schedule_proactive. rewrite Hoff. reflexivity.
Qed.

Lemma handle_all_not_allowed (due_plans : list PlanRecord.t)
      (settings : Settings.t) (blocks : list QuietBlock)
      (now_utc : datetime) (w : World Connector) :
  ProactiveConfig.enabled (Settings.proactive settings) = false ->
  let after := handle_rest due_plans settings blocks now_utc w in
  connector after = connector w
  /\ messages (db after) = messages (db w)
  /\ conversations (db after) = conversations (db w)
  /\ (forall plan_id,
        plan_status (db w) plan_id = Some canceled ->
        plan_status (db after) plan_id = Some canceled)
  /\ (forall plan,
        In plan due_plans ->
        get_conversation (db w) (PlanRecord.chat_id plan) <> None ->
        plan_row (db w) (PlanRecord.id plan) <> None ->
        plan_status (db after) (PlanRecord.id plan) = Some canceled).
Proof.
  intros Hoff. revert w.
  induction due_plans as [|plan rest IH]; intros w after.
  - repeat split; try reflexivity; [intros; assumption | intros p []].
  - unfold after. rewrite handle_all_step.
    rewrite (handle_plan_not_allowed _ _ _ _ _ Hoff).
    destruct (get_conversation (db w) (PlanRecord.chat_id plan))
      as [conversation|] eqn:Hconv.
    + destruct (IH (mkWorld (mark_plan_canceled (db w) (PlanRecord.id plan)
                                                (utc_ts now_utc))
                            (connector w) (clock_reads w) (random_reads w)))
        as (Hc & Hm & Hcv & Hkeep & Hall).
      cbn [db connector] in *.
      split; [exact Hc|]. split; [exact Hm|]. split; [exact Hcv|].
      split.
      * intros plan_id Hst. apply Hkeep.
        rewrite plan_status_mark_canceled, Hst.
        destruct (plan_id =? PlanRecord.id plan); reflexivity.
      * intros p [<- | Hin] Hpc Hrow.
        -- apply Hkeep. rewrite plan_status_mark_canceled, Z.eqb_refl.
           unfold plan_status. destruct (plan_row (db w) (PlanRecord.id plan));
             [reflexivity | contradiction].
        -- apply Hall; [exact Hin | exact Hpc |].
           intros Hnone. apply Hrow.
           destruct (Z.eq_dec (PlanRecord.id p) (PlanRecord.id plan)) as [E|E].
           ++ rewrite E in *. rewrite plan_row_mark_canceled in Hnone.
              destruct (plan_row (db w) (PlanRecord.id plan));
                [discriminate | reflexivity].
           ++ unfold mark_plan_canceled in Hnone.
              rewrite plan_row_update_other in Hnone
                by (try reflexivity; exact E).
              exact Hnone.
    + destruct (IH w) as (Hc & Hm & Hcv & Hkeep & Hall).
      split; [exact Hc|]. split; [exact Hm|]. split; [exact Hcv|].
      split; [exact Hkeep|].
      intros p [<- | Hin] Hpc Hrow; [contradiction | apply Hall; assumption].
Qed.

(** X19: with proactive messages switched off, a tick of the loop sends
    nothing and records nothing, and cancels every plan it fetched as due
    whose chat has a conversation; the conversations are left as they
    were. *)
Theorem proactive_off_cancels_due_plans (settings : Settings.t)
        (now_utc : datetime) (w : World Connector) :
  ProactiveConfig.enabled (Settings.proactive settings) = false ->
  let due := get_due_plans (db w) (utc_ts now_utc)
                           get_due_plans_default_limit in
  let after := process_due_plans Connector send_text send_gif local_clock
                 random_source pick_gif utcoffset settings now_utc w in
  connector after = connector w
  /\ messages (db after) = messages (db w)
  /\ conversations (db after) = conversations (db w)
  /\ (forall plan,
        In plan due ->
        get_conversation (db w) (PlanRecord.chat_id plan) <> None ->
        plan_status (db after) (PlanRecord.id plan) = Some canceled).
Proof.
  intros Hoff due after.
  destruct (handle_all_not_allowed due settings (build_quiet_blocks settings)
              now_utc w Hoff) as (Hc & Hm & Hcv & _ & Hall).
  assert (Hafter : after = handle_rest due settings
                             (build_quiet_blocks settings) now_utc w).
  { unfold after, process_due_plans. fold due. destruct due; reflexivity. }
  rewrite Hafter. split; [exact Hc|]. split; [exact Hm|].
  split; [exact Hcv|]. intros plan Hin Hpc. apply Hall; [exact Hin | exact Hpc|].
  destruct (plan_row_of_due _ _ _ _ Hin) as (row & ->). discriminate.
Qed.

Lemma send_plan_gif_unused (send_gif' : Connector -> string -> string
                                        -> option Connector)
      (plan : PlanRecord.t) (settings : Settings.t) (now_utc : datetime)
      (w : World Connector) :
  Settings.gif_rate settings = off
  \/ truthy_str (PlanRecord.gif_tag plan) = None ->
  send_plan_gif Connector send_gif random_source pick_gif plan settings
                now_utc w
  = send_plan_gif Connector send_gif' random_source pick_gif plan settings
                  now_utc w.
Proof.
  intros H. unfold send_plan_gif.
  destruct (truthy_str (PlanRecord.gif_tag plan)) as [tag|] eqn:Etag;
    [|reflexivity].
  destruct H as [Hoff | Hnone]; [|discriminate].
  unfold bind, random. rewrite Hoff. reflexivity.
Qed.

Lemma handle_plan_gif_unused (send_gif' : Connector -> string -> string
                                          -> option Connector)
      (plan : PlanRecord.t) (settings : Settings.t)
      (blocks : list QuietBlock) (now_utc : datetime) (w : World Connector) :
  Settings.gif_rate settings = off
  \/ truthy_str (PlanRecord.gif_tag plan) = None ->
  handle_plan plan settings blocks now_utc w
  = _handle_plan Connector send_text send_gif' local_clock random_source
                 pick_gif utcoffset plan settings blocks now_utc w.
Proof.
  intros H.
  assert (Hdeliver : forall count today w1,
    deliver Connector send_text send_gif random_source pick_gif plan
            settings now_utc count today w1
    = deliver Connector send_text send_gif' random_source pick_gif plan
              settings now_utc count today w1).
  { intros count today w1. unfold deliver, bind.
    destruct (connector_call Connector SendText _ w1) as [w2 [e|u]];
      [reflexivity|].
    destruct (db_exec Connector _ w2) as [w3 [e|u']]; [reflexivity|].
    rewrite (send_plan_gif_unused send_gif' plan settings now_utc w3 H).
    reflexivity. }
  unfold _handle_plan, bind.
  destruct (db_get_conversation Connector _ w) as [w1 [e|conversation]];
    [reflexivity|].
  destruct (negb _); [reflexivity|].
  destruct (local_now Connector local_clock _ w1) as [w2 [e|local_now_dt]];
    [reflexivity|].
  destruct (_refresh_daily_counter Connector _ _ _ _ w2)
    as [w3 [e|daily_count]]; [reflexivity|].
  destruct (_ <=? _); [reflexivity|].
  destruct (is_within_quiet_hours _ _); [reflexivity|].
  destruct (_next_after_cooldown _ _) as [until|]; [|apply Hdeliver].
  destruct (now_utc <? until); [reflexivity | apply Hdeliver].
Qed.

(** X20: a plan without a gif tag never reaches [send_gif], and with
    [gif_rate] off no plan does: handling the plan, and with the rate off
    the whole tick, comes out the same whatever the connector's [send_gif]
    would do. *)
Theorem gif_off_never_sends_gif
        (send_gif' : Connector -> string -> string -> option Connector)
        (settings : Settings.t) (now_utc : datetime) :
  (forall plan blocks w,
     Settings.gif_rate settings = off
     \/ truthy_str (PlanRecord.gif_tag plan) = None ->
     handle_plan plan settings blocks now_utc w
     = _handle_plan Connector send_text send_gif' local_clock random_source
                    pick_gif utcoffset plan settings blocks now_utc w)
  /\ (Settings.gif_rate settings = off ->
      forall w,
        process_due_plans Connector send_text send_gif local_clock
                          random_source pick_gif utcoffset settings now_utc w
        = process_due_plans Connector send_text send_gif' local_clock
                            random_source pick_gif utcoffset settings
                            now_utc w).
Proof.
  split.
  - intros plan blocks w H. apply handle_plan_gif_unused, H.
  - intros Hoff w. unfold process_due_plans.
    destruct (get_due_plans (db w) (utc_ts now_utc)
                            get_due_plans_default_limit) as [|p due];
      [reflexivity|].
    generalize (p :: due) as l. intros l. revert w.
    induction l as [|plan rest IH]; intros w; [reflexivity|].
    cbn [handle_all].
    rewrite (handle_plan_gif_unused send_gif' plan settings
               (build_quiet_blocks settings) now_utc w (or_introl Hoff)).
    destruct (_handle_plan Connector send_text send_gif' local_clock
                random_source pick_gif utcoffset plan settings
                (build_quiet_blocks settings) now_utc w) as [w' [e|u]];
      apply IH.
Qed.

End HandlePlanPaths.

Lemma dispatch_marks_sent_and_counts_witness :
  let w := sample_world 0 None [plan_row_of 1 "a" 30 pending] in
  let plan := _plan_from_row (plan_row_of 1 "a" 30 pending) in
  let after := fst (sample_handle (fun _ => false) plan w) in
  In plan (get_due_plans (db w) (utc_ts noon_utc) 50)
  /\ plan_status (db after) 1 = Some sent
  /\ connector after = [("a"%string, "hello"%string)]
  /\ get_conversation (db after) "a"
     = Some (ConversationState.mk "a" direct "" None (Some 1728014400) 1
                                  (Some 20000)).
Proof.
  intros w plan after.
  assert (Hdue : In plan (get_due_plans (db w) (utc_ts noon_utc) 50))
    by (vm_compute; left; reflexivity).
  assert (Hready : ready_to_send (db w) sample_settings
                     (build_quiet_blocks sample_settings) noon_utc
                     (noon_clock (clock_reads w)) plan
                     (sample_conversation None 0 None)).
  { split; [reflexivity|]. split; [reflexivity|].
    split; [vm_compute; reflexivity|]. split; [reflexivity | exact I]. }
  destruct (dispatch_marks_sent_and_counts Outbox
              (outbox_send (fun _ => false)) (outbox_send (fun _ => false))
              noon_clock no_random no_gif sample_utcoffset plan
              sample_settings (build_quiet_blocks sample_settings) noon_utc
              50 w (sample_conversation None 0 None)
              [("a"%string, "hello"%string)] Hdue Hready eq_refl eq_refl)
    as (_ & Hconn & _ & Hst & _ & _ & Hconv & _).
  split; [exact Hdue|]. split; [exact Hst|]. split; [exact Hconn|].
  exact Hconv.
Defined.

Lemma blocked_plan_is_rescheduled_witness :
  let plan := _plan_from_row (plan_row_of 1 "a" 30 pending) in
  let at_night := sample_world 0 None [plan_row_of 1 "a" 30 pending] in
  let cooling := world_after_bot 1728010800 [plan_row_of 1 "a" 30 pending] in
  let handle clock w :=
    _handle_plan Outbox (outbox_send (fun _ => false))
      (outbox_send (fun _ => false)) clock no_random no_gif sample_utcoffset
      plan sample_settings (build_quiet_blocks sample_settings) noon_utc w in
  In plan (get_due_plans (db at_night) (utc_ts noon_utc) 50)
  /\ is_within_quiet_hours (night_clock 0) (build_quiet_blocks sample_settings)
     = true
  /\ plan_send_at (db (fst (handle night_clock at_night))) 1
     = Some (utc_ts (at_day 20000 (hhmm 23 0)))
  /\ plan_status (db (fst (handle night_clock at_night))) 1 = Some pending
  /\ connector (fst (handle night_clock at_night)) = []
  /\ noon_utc < from_ts_utc 1728010800 + hours 6
  /\ plan_send_at (db (fst (handle noon_clock cooling))) 1
     = Some (1728010800 + 6 * 3600)
  /\ connector (fst (handle noon_clock cooling)) = [].
Proof.
  intros plan at_night cooling handle.
  assert (Hdue : In plan (get_due_plans (db at_night) (utc_ts noon_utc) 50))
    by (vm_compute; left; reflexivity).
  assert (Hdue' : In plan (get_due_plans (db cooling) (utc_ts noon_utc) 50))
    by (vm_compute; left; reflexivity).
  assert (Hcount : forall clock,
            rolled_count (sample_conversation None 0 None) (date (clock 0%nat))
            < ProactiveConfig.max_per_day (Settings.proactive sample_settings))
    by (intros clock; reflexivity).
  destruct (blocked_plan_is_rescheduled Outbox (outbox_send (fun _ => false))
              (outbox_send (fun _ => false)) night_clock no_random no_gif
              sample_utcoffset plan sample_settings
              (build_quiet_blocks sample_settings) noon_utc 50 at_night
              (sample_conversation None 0 None) Hdue eq_refl eq_refl
              (Hcount night_clock)) as (Hquiet & _).
  destruct (Hquiet eq_refl) as (_ & Hat & Hst & _ & Hconn & _).
  destruct (blocked_plan_is_rescheduled Outbox (outbox_send (fun _ => false))
              (outbox_send (fun _ => false)) noon_clock no_random no_gif
              sample_utcoffset plan sample_settings
              (build_quiet_blocks sample_settings) noon_utc 50 cooling
              (ConversationState.mk "a" direct "" None (Some 1728010800) 0
                                    None)
              Hdue' eq_refl eq_refl eq_refl) as (_ & Hcool).
  assert (Hlt : noon_utc < from_ts_utc 1728010800 + hours 6) by reflexivity.
  destruct (Hcool 1728010800 eq_refl eq_refl ltac:(discriminate) Hlt)
    as (_ & Hat' & _ & _ & Hconn' & _).
  split; [exact Hdue|]. split; [reflexivity|].
  split; [exact (eq_trans Hat eq_refl)|].
  split; [exact (eq_trans Hst eq_refl)|]. split; [exact Hconn|].
  split; [exact Hlt|]. split; [exact Hat' | exact Hconn'].
Defined.

Lemma missing_conversation_is_skipped_witness :
  let w := sample_world 0 None
             [plan_row_of 1 "zz" 30 pending; plan_row_of 2 "a" 40 pending] in
  let plan := _plan_from_row (plan_row_of 1 "zz" 30 pending) in
  get_conversation (db w) (PlanRecord.chat_id plan) = None
  /\ sample_handle (fun _ => false) plan w
     = (w, inl (RuntimeError "Conversation not found: zz"))
  /\ map (fun row => (PlanRow.id row, PlanRow.status row))
         (plans (db (sample_tick (fun _ => false) sample_settings w)))
     = [(1, pending); (2, sent)].
Proof.
  intros w plan.
  assert (Hnone : get_conversation (db w) (PlanRecord.chat_id plan) = None)
    by reflexivity.
  destruct (missing_conversation_is_skipped Outbox
              (outbox_send (fun _ => false)) (outbox_send (fun _ => false))
              noon_clock no_random no_gif sample_utcoffset plan []
              sample_settings (build_quiet_blocks sample_settings) noon_utc
              w Hnone) as (Hrun & _).
  split; [exact Hnone|]. split; [exact Hrun | reflexivity].
Defined.

Lemma gif_failure_leaves_plan_due_witness :
  let w := sample_world 0 None [gif_plan_row 1 "a" 30] in
  let plan := _plan_from_row (gif_plan_row 1 "a" 30) in
  let handle :=
    _handle_plan Outbox (outbox_send (fun _ => false)) always_raises
      noon_clock no_random one_gif sample_utcoffset plan sample_settings
      (build_quiet_blocks sample_settings) noon_utc in
  In plan (get_due_plans (db w) (utc_ts noon_utc) 50)
  /\ snd (handle w) = inl (ConnectorError SendGif)
  /\ connector (fst (handle w)) = [("a"%string, "hello"%string)]
  /\ plans (db (fst (handle w))) = plans (db w)
  /\ In plan (get_due_plans (db (fst (handle w))) (utc_ts noon_utc) 50)
  /\ connector (fst (handle (fst (handle w))))
     = [("a"%string, "hello"%string); ("a"%string, "hello"%string)].
Proof.
  intros w plan handle.
  assert (Hdue : In plan (get_due_plans (db w) (utc_ts noon_utc) 50))
    by (vm_compute; left; reflexivity).
  assert (Hready : ready_to_send (db w) sample_settings
                     (build_quiet_blocks sample_settings) noon_utc
                     (noon_clock (clock_reads w)) plan
                     (sample_conversation None 0 None)).
  { split; [reflexivity|]. split; [reflexivity|].
    split; [vm_compute; reflexivity|]. split; [reflexivity | exact I]. }
  destruct (gif_failure_leaves_plan_due Outbox (outbox_send (fun _ => false))
              always_raises noon_clock no_random one_gif sample_utcoffset
              plan sample_settings (build_quiet_blocks sample_settings)
              noon_utc 50 w (sample_conversation None 0 None)
              [("a"%string, "hello"%string)] "cat" "assets/gifs/cat.gif"
              Hdue Hready eq_refl eq_refl eq_refl eq_refl eq_refl)
    as (Hraise & Hconn & _ & Hplans & Hstill & _).
  split; [exact Hdue|]. split; [exact Hraise|]. split; [exact Hconn|].
  split; [exact Hplans|]. split; [exact Hstill | reflexivity].
Defined.

Lemma proactive_off_cancels_due_plans_witness :
  let w := sample_world 0 None
             [plan_row_of 1 "a" 30 pending; plan_row_of 2 "b" 40 pending;
              plan_row_of 3 "a" 5000000000 pending] in
  let after := sample_tick (fun _ => false) settings_off w in
  ProactiveConfig.enabled (Settings.proactive settings_off) = false
  /\ map (fun row => (PlanRow.id row, PlanRow.status row)) (plans (db after))
     = [(1, canceled); (2, canceled); (3, pending)]
  /\ connector after = []
  /\ plan_status (db after) 1 = Some canceled.
Proof.
  intros w after.
  assert (Hoff : ProactiveConfig.enabled (Settings.proactive settings_off)
                 = false) by reflexivity.
  destruct (proactive_off_cancels_due_plans Outbox
              (outbox_send (fun _ => false)) (outbox_send (fun _ => false))
              noon_clock no_random no_gif sample_utcoffset settings_off
              noon_utc w Hoff) as (Hconn & _ & _ & Hall).
  split; [exact Hoff|]. split; [reflexivity|]. split; [exact Hconn|].
  apply (Hall (_plan_from_row (plan_row_of 1 "a" 30 pending)));
    [vm_compute; left; reflexivity | discriminate].
Defined.

(* ------------------------------------------------------------------ *)
(** * Further properties: what plan application writes *)

Section PlanApplicationWrites.

Variable parse_send_at : string -> string -> option datetime.
Variable utcoffset : string -> timedelta.

Local Abbreviation apply_planning := (_apply_planning parse_send_at utcoffset).
Local Abbreviation tuple_of := (plan_tuple_of parse_send_at utcoffset).

(** The four things [_apply_planning] can do to the store. *)
Lemma apply_planning_cases (db : BotDB) (settings : Settings.t)
      (event : InboundEvent.t) (action : Action)
      (plan_item : option LLMPlanItem.t) (pending_count : Z)
      (conversation : ConversationState.t) (now_utc_ts : Z)
      (local_now_dt : datetime) :
  let after := apply_planning db settings event action plan_item
                              pending_count conversation now_utc_ts
                              local_now_dt in
  let chat_id := InboundEvent.chat_id event in
  after = db
  \/ after = cancel_pending db chat_id now_utc_ts
  \/ exists item plan,
       plan_item = Some item
       /\ tuple_of settings event item conversation local_now_dt = Some plan
       /\ (after = insert_plan (cancel_pending db chat_id now_utc_ts)
                               chat_id plan now_utc_ts
           \/ after = insert_plan db chat_id plan now_utc_ts).
Proof.
  intros after chat_id. unfold after, _apply_planning.
  destruct action; try (right; left; reflexivity);
    destruct plan_item as [item|]; try (left; reflexivity);
    try (right; left; reflexivity);
    destruct (tuple_of settings event item conversation local_now_dt)
      as [plan|] eqn:E; try (left; reflexivity).
  - right; right. exists item, plan. repeat split; try assumption.
    left; reflexivity.
  - destruct (_ <=? _); [left; reflexivity|].
    right; right. exists item, plan. repeat split; try assumption.
    right; reflexivity.
Qed.

(** X21: whatever the directive, plan application touches the pending
    plans of the chat of the event and nothing else: conversations and
    messages are as before, every row of the plans table that was there is
    either unchanged or a pending plan of that chat now canceled, and at
    most one row is added after them.  So the pending plans of every other
    chat are what they were. *)
Theorem apply_planning_frame (db : BotDB) (settings : Settings.t)
        (event : InboundEvent.t) (action : Action)
        (plan_item : option LLMPlanItem.t) (pending_count : Z)
        (conversation : ConversationState.t) (now_utc_ts : Z)
        (local_now_dt : datetime) :
  let after := apply_planning db settings event action plan_item
                              pending_count conversation now_utc_ts
                              local_now_dt in
  let chat_id := InboundEvent.chat_id event in
  conversations after = conversations db
  /\ messages after = messages db
  /\ (exists kept added,
        plans after = kept ++ added
        /\ (List.length added <= 1)%nat
        /\ Forall2 (fun row row' =>
                      row' = row
                      \/ (pending_of chat_id row = true
                          /\ row' = set_status row canceled now_utc_ts))
                   (plans db) kept)
  /\ (forall other, other <> chat_id ->
        get_pending_plans after other = get_pending_plans db other).
Proof.
  intros after chat_id.
  assert (Hsame : forall rows : list PlanRow.t,
    Forall2 (fun row row' =>
               row' = row
               \/ (pending_of chat_id row = true
                   /\ row' = set_status row canceled now_utc_ts))
            rows rows).
  { induction rows; constructor; [left; reflexivity | assumption]. }
  assert (Hcancel :
    Forall2 (fun row row' =>
               row' = row
               \/ (pending_of chat_id row = true
                   /\ row' = set_status row canceled now_utc_ts))
            (plans db) (plans (cancel_pending db chat_id now_utc_ts))).
  { unfold cancel_pending. cbn [plans with_plans].
    induction (plans db) as [|r rest IH]; cbn [map]; constructor;
      [|exact IH].
    destruct (pending_of chat_id r) eqn:E;
      [right; split; reflexivity | left; reflexivity]. }
  assert (Hother_cancel : forall other, other <> chat_id ->
    get_pending_plans (cancel_pending db chat_id now_utc_ts) other
    = get_pending_plans db other).
  { intros other Hneq. unfold get_pending_plans, cancel_pending.
    cbn [plans with_plans].
    rewrite (filter_pending_other chat_id other now_utc_ts _ Hneq).
    reflexivity. }
  assert (Hother_insert : forall s plan other, other <> chat_id ->
    get_pending_plans (insert_plan s chat_id plan now_utc_ts) other
    = get_pending_plans s other).
  { intros s plan other Hneq. unfold get_pending_plans.
    rewrite (filter_pending_insert_other s chat_id other plan now_utc_ts Hneq).
    reflexivity. }
  destruct (apply_planning_cases db settings event action plan_item
              pending_count conversation now_utc_ts local_now_dt)
    as [H | [H | (item & plan & _ & _ & [H | H])]];
    fold after in H; fold chat_id in H; rewrite H.
  - split; [reflexivity|]. split; [reflexivity|]. split; [|reflexivity].
    exists (plans db), []. rewrite app_nil_r.
    split; [reflexivity|]. split; [cbn; lia | apply Hsame].
  - split; [reflexivity|]. split; [reflexivity|]. split; [|exact Hother_cancel].
    exists (plans (cancel_pending db chat_id now_utc_ts)), [].
    rewrite app_nil_r. split; [reflexivity|].
    split; [cbn; lia | exact Hcancel].
  - destruct (insert_plan_rows (cancel_pending db chat_id now_utc_ts)
                chat_id plan now_utc_ts)
      as (row & Hrows & _ & Hc & Hm & _).
    split; [rewrite Hc; reflexivity|]. split; [rewrite Hm; reflexivity|].
    split.
    + exists (plans (cancel_pending db chat_id now_utc_ts)), [row].
      split; [exact Hrows|]. split; [cbn; lia | exact Hcancel].
    + intros other Hneq. rewrite Hother_insert by exact Hneq.
      apply Hother_cancel, Hneq.
  - destruct (insert_plan_rows db chat_id plan now_utc_ts)
      as (row & Hrows & _ & Hc & Hm & _).
    split; [exact Hc|]. split; [exact Hm|]. split.
    + exists (plans db), [row].
      split; [exact Hrows|]. split; [cbn; lia | apply Hsame].
    + intros other Hneq. apply Hother_insert, Hneq.
Qed.






End PlanApplicationWrites.


(* ------------------------------------------------------------------ *)
(** * Further properties: the number of pending plans of a chat *)

Lemma count_pending_cancel (db : BotDB) (chat_id : string) (now_utc : Z) :
  count_pending_plans (cancel_pending db chat_id now_utc) chat_id = 0.
Proof.
  unfold count_pending_plans. rewrite cancel_pending_none. reflexivity.
Qed.

Lemma count_pending_insert (db : BotDB) (chat_id : string) (plan : PlanTuple)
      (now_utc : Z) :
  count_pending_plans (insert_plan db chat_id plan now_utc) chat_id
  = count_pending_plans db chat_id + 1.
Proof.
  unfold count_pending_plans.
  destruct (insert_plan_pending db chat_id plan now_utc) as (row & -> & _).
  rewrite length_app. cbn [List.length]. lia.
Qed.

(** X23: when plan application is given the number of pending plans the
    chat has in the store, as the event handler gives it, the chat ends
    with at most one pending plan more than it had; action append leaves it
    with at most max(max_pending_per_chat, what it had), replace_all with
    at most max(1, what it had) (one when the item passes the gates, what
    it had when the item is dropped), cancel_all with none, and action none
    leaves the store as it was. *)
Theorem apply_planning_pending_count
        (parse_send_at : string -> string -> option datetime)
        (utcoffset : string -> timedelta)
        (db : BotDB) (settings : Settings.t)
        (event : InboundEvent.t) (action : Action)
        (plan_item : option LLMPlanItem.t) (pending_count : Z)
        (conversation : ConversationState.t) (now_utc_ts : Z)
        (local_now_dt : datetime) :
  pending_count = count_pending_plans db (InboundEvent.chat_id event) ->
  let after := _apply_planning parse_send_at utcoffset db settings event
                               action plan_item pending_count conversation
                               now_utc_ts local_now_dt in
  let chat_id := InboundEvent.chat_id event in
  let cap := ProactiveConfig.max_pending_per_chat
               (Settings.proactive settings) in
  count_pending_plans after chat_id <= count_pending_plans db chat_id + 1
  /\ (action = append ->
      count_pending_plans after chat_id
      <= Z.max cap (count_pending_plans db chat_id))
  /\ (action = replace_all ->
      count_pending_plans after chat_id
      <= Z.max 1 (count_pending_plans db chat_id)
      /\ (forall item plan,
            plan_item = Some item ->
            plan_tuple_of parse_send_at utcoffset settings event item
                          conversation local_now_dt = Some plan ->
            count_pending_plans after chat_id = 1))
  /\ (action = cancel_all -> count_pending_plans after chat_id = 0)
  /\ (action = none -> after = db).
Proof.
  intros Hcount after chat_id cap.
  assert (Hnonneg : 0 <= count_pending_plans db chat_id)
    by (unfold count_pending_plans; lia).
  pose proof (count_pending_cancel db chat_id now_utc_ts) as Hcancel.
  subst after chat_id cap.
  unfold _apply_planning, cancel_all_plans, replace_plans, append_plans.
  cbn [fst fold_left].
  set (cap := ProactiveConfig.max_pending_per_chat
                (Settings.proactive settings)).
  destruct action; [| | |];
    (destruct plan_item as [item|];
     [destruct (plan_tuple_of parse_send_at utcoffset settings event item
                              conversation local_now_dt)
        as [plan|] eqn:Htuple|]);
    try (destruct (cap <=? pending_count) eqn:E;
         [apply Z.leb_le in E | apply Z.leb_gt in E]);
    rewrite ?count_pending_insert, ?Hcancel;
    (split; [lia|]);
    (split; [intros Ha; try discriminate Ha; lia|]);
    (split; [intros Ha;
             first [discriminate Ha
                   | split; [lia | intros item' plan' Hi Ht;
                                   first [discriminate Hi
                                         | injection Hi as <-;
                                           first [congruence | lia]]]]|]);
    (split; [intros Ha; try discriminate Ha; lia || reflexivity
            | intros Ha; try discriminate Ha; reflexivity]).
Qed.

Lemma apply_planning_pending_count_witness :
  let db := store_of [plan_row_of 1 "a" 30 pending;
                      plan_row_of 2 "a" 40 pending] in
  let after :=
    _apply_planning sample_parse sample_utcoffset db sample_settings
      sample_event append (Some sample_item) 2
      (sample_conversation None 0 None) 100
      (at_day 20000 (hhmm 9 0)) in
  2 = count_pending_plans db "a"
  /\ count_pending_plans after "a" <= 2.
Proof.
  intros db after. split; [reflexivity|].
  destruct (apply_planning_pending_count sample_parse sample_utcoffset db
              sample_settings sample_event append (Some sample_item) 2
              (sample_conversation None 0 None) 100
              (at_day 20000 (hhmm 9 0)) eq_refl)
    as (_ & Happend & _).
  exact (Happend eq_refl).
Defined.

(* ------------------------------------------------------------------ *)
(** * Further properties: the daily counter of a turn *)

(** X24: [_refresh_daily_counter] of main.py, called on the conversation
    as the store holds it, returns today's date in every case (the
    fallback of its last line is never taken) and the count of today: the
    stored count when the stored date is today, else 0; afterwards the
    store holds that very count and date for the chat; the other fields of
    the row, the rows of other chats, the plans and the messages are as
    before. *)
Theorem turn_refresh_daily_counter_correct (db : BotDB)
        (conversation : ConversationState.t) (local_date : Z) :
  get_conversation db (ConversationState.chat_id conversation)
  = Some conversation ->
  let chat_id := ConversationState.chat_id conversation in
  let after := fst (Turn._refresh_daily_counter db conversation local_date) in
  let daily_count :=
    fst (snd (Turn._refresh_daily_counter db conversation local_date)) in
  let daily_date :=
    snd (snd (Turn._refresh_daily_counter db conversation local_date)) in
  daily_date = local_date
  /\ daily_count = rolled_count conversation local_date
  /\ (exists row,
        get_conversation after chat_id = Some row
        /\ ConversationState.daily_count row = daily_count
        /\ ConversationState.daily_date row = Some daily_date
        /\ ConversationState.chat_type row
           = ConversationState.chat_type conversation
        /\ ConversationState.summary row
           = ConversationState.summary conversation
        /\ ConversationState.last_user_ts_utc row
           = ConversationState.last_user_ts_utc conversation
        /\ ConversationState.last_bot_ts_utc row
           = ConversationState.last_bot_ts_utc conversation)
  /\ (forall other, other <> chat_id ->
        get_conversation after other = get_conversation db other)
  /\ plans after = plans db
  /\ messages after = messages db.
Proof.
  intros Hstored chat_id after daily_count daily_date.
  subst after daily_count daily_date.
  unfold Turn._refresh_daily_counter, rolled_count.
  destruct (ConversationState.daily_date conversation) as [d|] eqn:Edate.
  - destruct (d =? local_date) eqn:Ed; cbn [negb fst snd].
    + apply Z.eqb_eq in Ed. subst d.
      split; [reflexivity|]. split; [reflexivity|].
      split; [|split; [reflexivity | split; reflexivity]].
      exists conversation. fold chat_id in Hstored.
      repeat split; try assumption; reflexivity.
    + split; [reflexivity|]. split; [reflexivity|].
      split; [|split; [|split; reflexivity]].
      * unfold update_daily_counter.
        rewrite get_conversation_update by reflexivity.
        rewrite String.eqb_refl. fold chat_id in Hstored. rewrite Hstored.
        cbn [option_map]. eexists. split; [reflexivity|].
        repeat split; reflexivity.
      * intros other Hneq. unfold update_daily_counter.
        rewrite get_conversation_update by reflexivity.
        apply String.eqb_neq in Hneq. fold chat_id. rewrite Hneq.
        reflexivity.
  - cbn [fst snd].
    split; [reflexivity|]. split; [reflexivity|].
    split; [|split; [|split; reflexivity]].
    + unfold update_daily_counter.
      rewrite get_conversation_update by reflexivity.
      rewrite String.eqb_refl. fold chat_id in Hstored. rewrite Hstored.
      cbn [option_map]. eexists. split; [reflexivity|].
      repeat split; reflexivity.
    + intros other Hneq. unfold update_daily_counter.
      rewrite get_conversation_update by reflexivity.
      apply String.eqb_neq in Hneq. fold chat_id. rewrite Hneq.
      reflexivity.
Qed.

Lemma turn_refresh_daily_counter_correct_witness :
  let conversation := sample_conversation None 3 (Some 19999) in
  let db := mkDB [] [conversation] [] 0 in
  get_conversation db "a" = Some conversation
  /\ snd (Turn._refresh_daily_counter db conversation 20000) = (0, 20000)
  /\ option_map (fun row => (ConversationState.daily_count row,
                             ConversationState.daily_date row))
       (get_conversation
          (fst (Turn._refresh_daily_counter db conversation 20000)) "a")
     = Some (0, Some 20000).
Proof.
  intros conversation db.
  split; [reflexivity|].
  destruct (turn_refresh_daily_counter_correct db conversation 20000 eq_refl)
    as (Hdate & Hcount & (row & Hrow & Hc & Hd & _) & _).
  split.
  - rewrite (surjective_pairing
               (snd (Turn._refresh_daily_counter db conversation 20000))).
    rewrite Hdate, Hcount. reflexivity.
  - cbv zeta in Hrow. change (ConversationState.chat_id conversation)
      with "a"%string in Hrow. rewrite Hrow. cbn [option_map].
    rewrite Hc, Hd, Hdate, Hcount. reflexivity.
Defined.

(* ------------------------------------------------------------------ *)
(** * Further properties: the JSON object of an answer *)

Lemma str_app_assoc (a b c : string) :
  ((a ++ b) ++ c)%string = (a ++ (b ++ c))%string.
Proof. induction a as [|x a IH]; cbn; [reflexivity | rewrite IH; reflexivity]. Qed.

Lemma str_app_nil_r (a : string) : (a ++ EmptyString)%string = a.
Proof. induction a as [|x a IH]; cbn; [reflexivity | rewrite IH; reflexivity]. Qed.

Lemma str_drop_app (a b : string) :
  PyStr.drop (String.length a) (a ++ b) = b.
Proof. induction a as [|x a IH]; cbn; [destruct b; reflexivity | exact IH]. Qed.

Lemma str_take_app (n : nat) (a b : string) :
  PyStr.take (String.length a + n) (a ++ b) = (a ++ PyStr.take n b)%string.
Proof. induction a as [|x a IH]; cbn; [reflexivity | rewrite IH; reflexivity]. Qed.

Lemma str_take_all (s : string) : PyStr.take (String.length s) s = s.
Proof. induction s as [|x s IH]; cbn; [reflexivity | rewrite IH; reflexivity]. Qed.

(** Two ways of cutting one string: the shorter front is a front of the
    longer one. *)
Lemma str_app_eq_app (a b c d : string) :
  (a ++ b)%string = (c ++ d)%string ->
  (String.length a <= String.length c)%nat ->
  exists m, c = (a ++ m)%string /\ b = (m ++ d)%string.
Proof.
  revert c. induction a as [|x a IH]; intros c Heq Hlen.
  - exists c. split; [reflexivity | exact Heq].
  - destruct c as [|y c]; [cbn in Hlen; lia|].
    cbn in Heq. injection Heq as -> Heq. cbn in Hlen.
    destruct (IH c Heq ltac:(lia)) as (m & -> & ->).
    exists m. split; reflexivity.
Qed.

Lemma index_first_split (c : Ascii.ascii) (s : string) (i : nat) :
  PyStr.index_first c s = Some i ->
  exists before rest,
    s = (before ++ String c rest)%string
    /\ String.length before = i
    /\ PyStr.index_first c before = None.
Proof.
  revert i. induction s as [|d s IH]; intros i; cbn; [discriminate|].
  destruct (Ascii.eqb d c) eqn:E.
  - intros [= <-]. apply Ascii.eqb_eq in E. subst d.
    exists EmptyString, s. repeat split.
  - destruct (PyStr.index_first c s) as [k|]; cbn; [|discriminate].
    intros [= <-]. destruct (IH k eq_refl) as (before & rest & -> & Hlen & Hnone).
    exists (String d before), rest. cbn. rewrite E, Hnone, Hlen.
    repeat split.
Qed.

Lemma index_last_split (c : Ascii.ascii) (s : string) (j : nat) :
  PyStr.index_last c s = Some j ->
  exists front after,
    s = (front ++ String c after)%string
    /\ String.length front = j
    /\ PyStr.index_last c after = None.
Proof.
  revert j. induction s as [|d s IH]; intros j; cbn; [discriminate|].
  destruct (PyStr.index_last c s) as [k|] eqn:Elast.
  - intros [= <-]. destruct (IH k eq_refl) as (front & after & -> & Hlen & Hnone).
    exists (String d front), after. cbn. rewrite Hlen. repeat split.
    exact Hnone.
  - destruct (Ascii.eqb d c) eqn:E; [|discriminate].
    intros [= <-]. apply Ascii.eqb_eq in E. subst d.
    exists EmptyString, s. repeat split. exact Elast.
Qed.

Lemma index_first_app (c : Ascii.ascii) (a b : string) :
  PyStr.index_first c a = None ->
  PyStr.index_first c (a ++ String c b) = Some (String.length a).
Proof.
  induction a as [|d a IH]; cbn.
  - intros _. rewrite Ascii.eqb_refl. reflexivity.
  - destruct (Ascii.eqb d c); [discriminate|].
    destruct (PyStr.index_first c a); [discriminate|].
    intros _. rewrite (IH eq_refl). reflexivity.
Qed.

Lemma index_last_app (c : Ascii.ascii) (a b : string) :
  PyStr.index_last c b = None ->
  PyStr.index_last c (a ++ String c b) = Some (String.length a).
Proof.
  intros Hnone. induction a as [|d a IH]; cbn.
  - rewrite Hnone, Ascii.eqb_refl. reflexivity.
  - rewrite IH. reflexivity.
Qed.

Lemma find_none (c : Ascii.ascii) (s : string) :
  PyStr.find c s = -1 <-> PyStr.index_first c s = None.
Proof.
  unfold PyStr.find. destruct (PyStr.index_first c s); split;
    intros H; try reflexivity; try discriminate; lia.
Qed.

Lemma rfind_none (c : Ascii.ascii) (s : string) :
  PyStr.rfind c s = -1 <-> PyStr.index_last c s = None.
Proof.
  unfold PyStr.rfind. destruct (PyStr.index_last c s); split;
    intros H; try reflexivity; try discriminate; lia.
Qed.

(** X25: [_extract_json] returns a string exactly when the content has a
    "{" with a "}" somewhere after it, and then returns the part of the
    content from its first "{" to its last "}", both included: the content
    is before ++ "{" ++ inside ++ "}" ++ after with no "{" in before and no
    "}" in after, and the result is "{" ++ inside ++ "}".  Without such a
    pair the result is None. *)
Theorem extract_json_spans_braces (content json : string) :
  _extract_json content = Some json <->
  exists before inside after,
    content
    = (before ++ String PyStr.lbrace (inside ++ String PyStr.rbrace after))%string
    /\ json = String PyStr.lbrace (inside ++ String PyStr.rbrace EmptyString)
    /\ PyStr.find PyStr.lbrace before = -1
    /\ PyStr.rfind PyStr.rbrace after = -1.
Proof.
  assert (Hslice : forall before inside after,
    PyStr.slice
      (before ++ String PyStr.lbrace (inside ++ String PyStr.rbrace after))
      (Z.of_nat (String.length before))
      (Z.of_nat (String.length before + S (String.length inside)) + 1)
    = String PyStr.lbrace (inside ++ String PyStr.rbrace EmptyString)).
  { intros before inside after. unfold PyStr.slice.
    rewrite Nat2Z.id, str_drop_app.
    replace (Z.to_nat (Z.of_nat (String.length before
                                 + S (String.length inside)) + 1
                       - Z.of_nat (String.length before)))
      with (S (String.length inside + 1)) by lia.
    cbn [PyStr.take]. rewrite str_take_app. reflexivity. }
  split.
  - unfold _extract_json, PyStr.find, PyStr.rfind.
    destruct (PyStr.index_first PyStr.lbrace content) as [i|] eqn:Ei;
      [|cbn; discriminate].
    destruct (PyStr.index_last PyStr.rbrace content) as [j|] eqn:Ej;
      [|rewrite orb_true_r; discriminate].
    destruct (Z.of_nat i =? -1) eqn:E1; [apply Z.eqb_eq in E1; lia|].
    destruct (Z.of_nat j =? -1) eqn:E2; [apply Z.eqb_eq in E2; lia|].
    destruct (Z.of_nat j <=? Z.of_nat i) eqn:E3; cbn [orb]; [discriminate|].
    apply Z.leb_gt in E3. intros [= <-].
    destruct (index_first_split _ _ _ Ei) as (before & rest & Hcut1 & Hlen1 & Hnone1).
    destruct (index_last_split _ _ _ Ej) as (front & after & Hcut2 & Hlen2 & Hnone2).
    rewrite Hcut1 in Hcut2.
    destruct (str_app_eq_app _ _ _ _ Hcut2 ltac:(lia)) as (m & Hfront & Hrest).
    destruct m as [|x inside].
    { rewrite Hfront, str_length_app in Hlen2. cbn in Hlen2. lia. }
    cbn in Hrest. injection Hrest as <- Hrest.
    exists before, inside, after.
    assert (Hcontent : content
      = (before ++ String PyStr.lbrace (inside ++ String PyStr.rbrace after))%string)
      by (rewrite Hcut1, Hrest; reflexivity).
    split; [exact Hcontent|].
    split; [|split; [apply find_none, Hnone1 | apply rfind_none, Hnone2]].
    rewrite Hcontent at 1.
    assert (Hj : j = (String.length before + S (String.length inside))%nat).
    { rewrite <- Hlen2, Hfront, str_length_app. reflexivity. }
    rewrite <- Hlen1, Hj. apply Hslice.
  - intros (before & inside & after & -> & -> & Hb & Ha).
    apply find_none in Hb. apply rfind_none in Ha.
    unfold _extract_json, PyStr.find, PyStr.rfind.
    rewrite (index_first_app _ _ _ Hb).
    replace (before ++ String PyStr.lbrace (inside ++ String PyStr.rbrace after))%string
      with ((before ++ String PyStr.lbrace inside)
            ++ String PyStr.rbrace after)%string
      by (rewrite str_app_assoc; reflexivity).
    rewrite (index_last_app _ _ _ Ha), str_length_app. cbn [String.length].
    destruct (Z.of_nat (String.length before) =? -1) eqn:E1;
      [apply Z.eqb_eq in E1; lia|].
    destruct (Z.of_nat (String.length before + S (String.length inside)) =? -1)
      eqn:E2; [apply Z.eqb_eq in E2; lia|].
    destruct (Z.of_nat (String.length before + S (String.length inside))
              <=? Z.of_nat (String.length before)) eqn:E3;
      [apply Z.leb_le in E3; lia|].
    cbn [orb]. rewrite str_app_assoc. cbn [String.append]. rewrite Hslice.
    reflexivity.
Qed.

(* ------------------------------------------------------------------ *)
(** * Further properties: the tags of a file name *)

Lemma lower_char_idempotent (c : Ascii.ascii) :
  PyStr.lower_char (PyStr.lower_char c) = PyStr.lower_char c.
Proof. destruct c as [[] [] [] [] [] [] [] []]; reflexivity. Qed.

Lemma is_tag_sep_lower (c : Ascii.ascii) :
  is_tag_sep (PyStr.lower_char c) = is_tag_sep c.
Proof. destruct c as [[] [] [] [] [] [] [] []]; reflexivity. Qed.

Lemma lower_idempotent (s : string) : PyStr.lower (PyStr.lower s) = PyStr.lower s.
Proof.
  induction s as [|c s IH]; cbn; [reflexivity|].
  rewrite lower_char_idempotent, IH. reflexivity.
Qed.

Lemma lower_app (a b : string) :
  PyStr.lower (a ++ b) = (PyStr.lower a ++ PyStr.lower b)%string.
Proof. induction a as [|c a IH]; cbn; [reflexivity | rewrite IH; reflexivity]. Qed.

Lemma nonempty_lower (s : string) :
  PyStr.nonempty (PyStr.lower s) = PyStr.nonempty s.
Proof. destruct s; reflexivity. Qed.

Lemma all_chars_app (p : Ascii.ascii -> bool) (a b : string) :
  all_chars p (a ++ b) = all_chars p a && all_chars p b.
Proof.
  induction a as [|c a IH]; cbn; [reflexivity|].
  rewrite IH, andb_assoc. reflexivity.
Qed.

(** The pieces hold characters of the string that are outside the class,
    after those of the piece being read. *)
Lemma re_split_runs_chars (in_class p : Ascii.ascii -> bool) (s : string) :
  forall piece in_run,
    all_chars (fun c => in_class c || p c) s = true ->
    all_chars p piece = true ->
    Forall (fun token => all_chars p token = true)
           (PyStr.re_split_runs in_class s piece in_run).
Proof.
  induction s as [|c s IH]; intros piece in_run Hs Hpiece; cbn.
  - constructor; [exact Hpiece | constructor].
  - cbn in Hs. apply andb_true_iff in Hs. destruct Hs as (Hc & Hs).
    destruct (in_class c) eqn:E.
    + destruct in_run; [|constructor; [exact Hpiece|]];
        apply IH; try assumption; reflexivity.
    + apply IH; [exact Hs|]. rewrite all_chars_app, Hpiece. cbn.
      cbn in Hc. rewrite Hc. reflexivity.
Qed.

(** After a run of the class, what was read before the run does not
    matter. *)
Lemma re_split_runs_after_run (in_class : Ascii.ascii -> bool) (s : string) :
  filter PyStr.nonempty (PyStr.re_split_runs in_class s EmptyString true)
  = filter PyStr.nonempty (PyStr.re_split_runs in_class s EmptyString false).
Proof.
  destruct s as [|c s]; cbn; [reflexivity|].
  destruct (in_class c); reflexivity.
Qed.

Lemma re_split_runs_app (in_class : Ascii.ascii -> bool) (c : Ascii.ascii)
      (a b : string) :
  in_class c = true ->
  forall piece in_run,
    (in_run = true -> piece = EmptyString) ->
    filter PyStr.nonempty
           (PyStr.re_split_runs in_class (a ++ String c b) piece in_run)
    = filter PyStr.nonempty (PyStr.re_split_runs in_class a piece in_run)
      ++ filter PyStr.nonempty (PyStr.re_split in_class b).
Proof.
  intros Hc. unfold PyStr.re_split.
  induction a as [|d a IH]; intros piece in_run Hrun.
  - cbn [String.append PyStr.re_split_runs]. rewrite Hc.
    destruct in_run.
    + rewrite (Hrun eq_refl). cbn [filter PyStr.nonempty app].
      apply re_split_runs_after_run.
    + cbn [filter]. rewrite re_split_runs_after_run.
      destruct (PyStr.nonempty piece); reflexivity.
  - cbn [String.append PyStr.re_split_runs].
    destruct (in_class d).
    + destruct in_run.
      * apply IH. reflexivity.
      * cbn [filter]. rewrite (IH EmptyString true (fun _ => eq_refl)).
        destruct (PyStr.nonempty piece); reflexivity.
    + apply IH. discriminate.
Qed.

Lemma re_split_runs_no_sep (in_class : Ascii.ascii -> bool) (s : string) :
  all_chars (fun c => negb (in_class c)) s = true ->
  forall piece,
    PyStr.re_split_runs in_class s piece false = [(piece ++ s)%string].
Proof.
  induction s as [|c s IH]; intros Hs piece; cbn.
  - rewrite str_app_nil_r. reflexivity.
  - cbn in Hs. apply andb_true_iff in Hs. destruct Hs as (Hc & Hs).
    apply negb_true_iff in Hc. rewrite Hc, (IH Hs), str_app_assoc.
    reflexivity.
Qed.

Lemma all_chars_lower_no_sep (s : string) :
  all_chars (fun c => negb (is_tag_sep c)) (PyStr.lower s)
  = all_chars (fun c => negb (is_tag_sep c)) s.
Proof.
  induction s as [|c s IH]; cbn; [reflexivity|].
  rewrite is_tag_sep_lower, IH. reflexivity.
Qed.

(** X26: the tags [_tags_from_name] reads from a file name are never
    empty and hold neither a separator ("_", "-", white space) nor an
    upper-case letter; upper and lower case of the name give the same
    tags; a name without separator is one tag, its lower case; and the
    tags of two names joined by a separator are the tags of the first
    followed by the tags of the second. *)
Theorem tags_from_name_correct (name : string) :
  Forall (fun tag => tag <> EmptyString /\ all_chars tag_char tag = true)
         (_tags_from_name name)
  /\ _tags_from_name (PyStr.lower name) = _tags_from_name name
  /\ (name <> EmptyString ->
      all_chars (fun c => negb (is_tag_sep c)) name = true ->
      _tags_from_name name = [PyStr.lower name])
  /\ (forall sep rest,
        is_tag_sep sep = true ->
        _tags_from_name (name ++ String sep rest)
        = _tags_from_name name ++ _tags_from_name rest).
Proof.
  split; [|split; [|split]].
  - unfold _tags_from_name, PyStr.re_split.
    assert (Hchars : Forall (fun token => all_chars tag_char token = true)
              (PyStr.re_split_runs is_tag_sep (PyStr.lower name)
                                   EmptyString false)).
    { apply re_split_runs_chars; [|reflexivity].
      induction name as [|c name IH]; cbn; [reflexivity|].
      rewrite IH, andb_true_r. unfold tag_char.
      rewrite lower_char_idempotent, Ascii.eqb_refl, andb_true_r.
      destruct (is_tag_sep (PyStr.lower_char c)); reflexivity. }
    induction Hchars as [|token tokens Htoken _ IH]; cbn [filter];
      [constructor|].
    destruct token as [|c token]; cbn [PyStr.nonempty]; [exact IH|].
    constructor; [|exact IH]. split; [discriminate | exact Htoken].
  - unfold _tags_from_name. rewrite lower_idempotent. reflexivity.
  - intros Hne Hsep. unfold _tags_from_name, PyStr.re_split.
    rewrite re_split_runs_no_sep by (rewrite all_chars_lower_no_sep; exact Hsep).
    cbn [String.append filter]. rewrite nonempty_lower.
    destruct name; [contradiction|reflexivity].
  - intros sep rest Hsep. unfold _tags_from_name.
    rewrite lower_app. cbn [PyStr.lower]. unfold PyStr.re_split at 1.
    rewrite re_split_runs_app;
      [reflexivity | rewrite is_tag_sep_lower; exact Hsep | discriminate].
Qed.

(* ------------------------------------------------------------------ *)
(** * Further properties: the index of the gif library *)

Lemma index_get_append (index : Index) (tag path key : string) :
  index_get (index_append index tag path) key
  = if String.eqb tag key
    then Some (match index_get index key with
               | Some paths => paths ++ [path]
               | None => [path]
               end)
    else index_get index key.
Proof.
  induction index as [|[k paths] rest IH]; cbn [index_append index_get].
  - destruct (String.eqb tag key); reflexivity.
  - destruct (String.eqb k tag) eqn:Ekt; cbn [index_get].
    + apply String.eqb_eq in Ekt. subst k.
      destruct (String.eqb tag key); reflexivity.
    + destruct (String.eqb k key) eqn:Ekk; [|exact IH].
      apply String.eqb_eq in Ekk. subst k.
      rewrite String.eqb_sym, Ekt. reflexivity.
Qed.

Lemma fold_left_flat_map {A B C : Type} (step : A -> C -> A)
      (f : B -> list C) (l : list B) (a : A) :
  fold_left (fun acc x => fold_left step (f x) acc) l a
  = fold_left step (flat_map f l) a.
Proof.
  revert a. induction l as [|x l IH]; intros a; cbn; [reflexivity|].
  rewrite fold_left_app. apply IH.
Qed.

Lemma build_index_entries (files : list (string * string)) :
  _build_index files
  = fold_left (fun index entry => index_append index (fst entry) (snd entry))
              (tag_entries files) [].
Proof.
  unfold _build_index, tag_entries.
  rewrite <- (fold_left_flat_map
                (fun index entry => index_append index (fst entry) (snd entry))).
  revert files. generalize (@nil (string * list string)) as index.
  intros index files. revert index.
  induction files as [|file files IH]; intros index; cbn [fold_left];
    [reflexivity|].
  rewrite IH. f_equal.
  generalize (_tags_from_name (fst file)) as tags. intros tags. revert index.
  induction tags as [|tag tags IHt]; intros index; cbn; [reflexivity|].
  apply IHt.
Qed.

Lemma index_get_entries (entries : list (string * string)) (key : string) :
  forall index,
    index_get
      (fold_left (fun index entry =>
                    index_append index (fst entry) (snd entry))
                 entries index) key
    = match map snd (filter (fun entry => String.eqb (fst entry) key) entries)
      with
      | [] => index_get index key
      | added =>
        Some (match index_get index key with
              | Some paths => paths
              | None => []
              end ++ added)
      end.
Proof.
  induction entries as [|[tag path] entries IH]; intros index;
    cbn [fold_left filter fst snd]; [reflexivity|].
  rewrite IH, index_get_append.
  destruct (String.eqb tag key); cbn [map snd].
  - destruct (map snd (filter _ entries)) as [|p ps].
    + destruct (index_get index key); reflexivity.
    + destruct (index_get index key); cbn [app];
        rewrite <- ?app_assoc; reflexivity.
  - reflexivity.
Qed.

(** The index holds, under each tag, the paths of the files whose name
    carries the tag, in the order of the listing; a tag no file carries has
    no entry. *)
Lemma build_index_get (files : list (string * string)) (key : string) :
  index_get (_build_index files) key
  = match paths_of key files with
    | [] => None
    | paths => Some paths
    end.
Proof.
  rewrite build_index_entries, index_get_entries. unfold paths_of.
  destruct (map snd _); reflexivity.
Qed.

Lemma paths_of_in (key : string) (files : list (string * string))
      (path : string) :
  In path (paths_of key files) <->
  exists stem, In (stem, path) files /\ In key (_tags_from_name stem).
Proof.
  unfold paths_of, tag_entries. rewrite in_map_iff. split.
  - intros ([tag p] & Hp & Hin). cbn in Hp. subst p.
    apply filter_In in Hin. destruct Hin as (Hin & Hkey).
    cbn in Hkey. apply String.eqb_eq in Hkey. subst tag.
    apply in_flat_map in Hin. destruct Hin as ([stem p] & Hfile & Hin).
    cbn in Hin. apply in_map_iff in Hin.
    destruct Hin as (tag & [= <- <-] & Htag).
    exists stem. split; assumption.
  - intros (stem & Hfile & Htag). exists (key, path).
    split; [reflexivity|]. apply filter_In.
    split; [|cbn; apply String.eqb_refl].
    apply in_flat_map. exists (stem, path). split; [exact Hfile|].
    cbn. apply in_map_iff. exists key. split; [reflexivity | exact Htag].
Qed.

(** X27: on the index built from the gif files, [pick_gif] returns a path
    exactly when the tag asked for is not empty and some file name carries
    its lower case as a tag, and the path returned is that of such a file,
    whatever the random choice; upper and lower case of the tag give the
    same result. *)
Theorem pick_gif_correct (files : list (string * string)) (tag : string)
        (choice : nat) :
  let index := _build_index files in
  (forall path,
     pick_gif index tag choice = Some path ->
     exists stem,
       In (stem, path) files
       /\ In (PyStr.lower tag) (_tags_from_name stem))
  /\ (pick_gif index tag choice <> None <->
      tag <> EmptyString
      /\ exists stem path,
           In (stem, path) files
           /\ In (PyStr.lower tag) (_tags_from_name stem))
  /\ pick_gif index (PyStr.lower tag) choice = pick_gif index tag choice.
Proof.
  intros index.
  assert (Hpick : pick_gif index tag choice
    = if negb (PyStr.nonempty tag) then None
      else nth_error (paths_of (PyStr.lower tag) files)
                     (choice mod List.length
                                   (paths_of (PyStr.lower tag) files))).
  { unfold pick_gif, index. rewrite build_index_get.
    destruct (negb (PyStr.nonempty tag)); [reflexivity|].
    destruct (paths_of (PyStr.lower tag) files) as [|p ps] eqn:E;
      [|reflexivity].
    cbn. destruct choice; reflexivity. }
  split; [|split].
  - intros path Hsome. rewrite Hpick in Hsome.
    destruct (negb (PyStr.nonempty tag)); [discriminate|].
    apply nth_error_In in Hsome. apply paths_of_in, Hsome.
  - rewrite Hpick. split.
    + destruct tag as [|c tag]; cbn [PyStr.nonempty negb];
        [intros H; contradiction|].
      intros Hsome. split; [discriminate|].
      destruct (nth_error _ _) as [path|] eqn:E; [|contradiction].
      apply nth_error_In in E. apply paths_of_in in E.
      destruct E as (stem & Hfile & Htag). exists stem, path.
      split; assumption.
    + intros (Hne & stem & path & Hfile & Htag).
      destruct tag as [|c tag]; [contradiction|].
      cbn [PyStr.nonempty negb].
      assert (Hin : In path (paths_of (PyStr.lower (String c tag)) files))
        by (apply paths_of_in; exists stem; split; assumption).
      apply nth_error_Some. apply Nat.mod_upper_bound.
      destruct (paths_of (PyStr.lower (String c tag)) files);
        [destruct Hin | discriminate].
  - unfold pick_gif. rewrite nonempty_lower, lower_idempotent. reflexivity.
Qed.

(* ------------------------------------------------------------------ *)
(** * Further properties: the handler of an inbound event *)

Lemma get_conversation_same (a b : BotDB) (chat_id : string) :
  conversations a = conversations b ->
  get_conversation a chat_id = get_conversation b chat_id.
Proof. unfold get_conversation. intros ->. reflexivity. Qed.

Lemma ensure_conversation_facts (db : BotDB) (chat_id : string)
      (chat_type : ChatType) :
  let base := conversation_base db chat_id chat_type in
  exists after,
    ensure_conversation db chat_id chat_type = (after, Some base)
    /\ get_conversation after chat_id = Some base
    /\ ConversationState.chat_id base = chat_id
    /\ ConversationState.chat_type base = chat_type
    /\ (forall other, other <> chat_id ->
          get_conversation after other = get_conversation db other)
    /\ plans after = plans db
    /\ plans_seq after = plans_seq db
    /\ messages after = messages db.
Proof.
  intros base. unfold base, conversation_base, ensure_conversation.
  destruct (get_conversation db chat_id) as [before|] eqn:Hget.
  - destruct (get_conversation_chat_id _ _ _ Hget) as (Hid & _).
    assert (Hafter :
      get_conversation
        (if negb (ChatType_eqb (ConversationState.chat_type before)
                               chat_type)
         then update_conversation db chat_id (set_chat_type chat_type)
         else db) chat_id
      = Some (set_chat_type chat_type before)).
    { destruct (ChatType_eqb (ConversationState.chat_type before) chat_type)
        eqn:E; cbn [negb].
      - rewrite Hget. f_equal. destruct before as [c t s lu lb dc dd].
        cbn in *. destruct t, chat_type; cbn in E; try discriminate;
          reflexivity.
      - rewrite get_conversation_update by reflexivity.
        rewrite String.eqb_refl, Hget. reflexivity. }
    eexists. split; [rewrite Hafter; reflexivity|].
    split; [exact Hafter|]. split; [exact Hid|]. split; [reflexivity|].
    split; [|destruct (negb _); repeat split].
    intros other Hneq.
    destruct (negb (ChatType_eqb (ConversationState.chat_type before)
                                 chat_type)); [|reflexivity].
    rewrite get_conversation_update by reflexivity.
    apply String.eqb_neq in Hneq. rewrite Hneq. reflexivity.
  - pose proof (get_conversation_app_new db
                  (ConversationState.mk chat_id chat_type "" None None 0 None))
      as Hnew.
    cbn [ConversationState.chat_id] in Hnew.
    eexists. split; [reflexivity|].
    split; [rewrite (Hnew chat_id Hget), String.eqb_refl; reflexivity|].
    split; [reflexivity|]. split; [reflexivity|].
    split; [|repeat split].
    intros other Hneq. rewrite (Hnew other Hget).
    apply String.eqb_neq in Hneq. rewrite Hneq. reflexivity.
Qed.

Section HandlerFacts.

Variable Connector : Type.
Variable send_text : Connector -> string -> string -> option Connector.
Variable send_gif : Connector -> string -> string -> option Connector.
Variable parse_send_at : string -> string -> option datetime.
Variable utcoffset : string -> timedelta.
Variable http_answer : LLMContext.t -> Event.LLMAnswer.
Variable model_validate_json : string -> option LLMOutput.t.

Local Abbreviation wechat_event :=
  (Event.wechat_event Connector send_text send_gif parse_send_at utcoffset
                      http_answer model_validate_json).
Local Abbreviation answer :=
  (Event.answer Connector send_text send_gif parse_send_at utcoffset
                http_answer model_validate_json).
Local Abbreviation generate_response :=
  (Event.generate_response Connector http_answer model_validate_json).
Local Abbreviation with_db := (Event.with_db Connector).
Local Abbreviation with_connector := (Event.with_connector Connector).

(** What [receive] leaves: the message of the user after the messages
    there, the conversation of the chat with the time of the message, the
    chat type of the event and the counter of today, and the conversation
    it hands on (which has the last user time as it was read). *)
Lemma receive_result (readings : Readings.t) (event : InboundEvent.t)
      (st : AppState.t Connector) :
  let chat_id := InboundEvent.chat_id event in
  let today := date (Readings.refresh_local_now readings) in
  let base := conversation_base (AppState.db st) chat_id
                                (InboundEvent.chat_type event) in
  let conversation :=
    Event.replace_daily base (rolled_count base today) today in
  exists s,
    Event.receive Connector readings event st
    = (with_db st s, inr conversation)
    /\ plans s = plans (AppState.db st)
    /\ plans_seq s = plans_seq (AppState.db st)
    /\ messages s = messages (AppState.db st) ++ [user_message event]
    /\ (forall other, other <> chat_id ->
          get_conversation s other = get_conversation (AppState.db st) other)
    /\ get_conversation s chat_id
       = Some (ConversationState.mk chat_id (InboundEvent.chat_type event)
                 (ConversationState.summary base)
                 (Some (InboundEvent.timestamp event))
                 (ConversationState.last_bot_ts_utc base)
                 (rolled_count base today) (Some today)).
Proof.
  intros chat_id today base conversation.
  destruct (ensure_conversation_facts (AppState.db st) chat_id
              (InboundEvent.chat_type event))
    as (s1 & Hensure & Hget1 & Hid & Htype & Hother1 & Hplans1 & Hseq1 & Hmsg1).
  fold base in Hensure, Hget1, Hid, Htype.
  unfold Event.receive, Event.db_ensure_conversation, Event.bind,
    Event.db_call, Event.db_exec, Event.ret.
  fold chat_id. rewrite Hensure. cbn [fst snd AppState.db Event.with_db].
  set (s2 := add_message s1 chat_id (InboundEvent.sender_id event) "user"
               (InboundEvent.timestamp event) (InboundEvent.text event)
               "text").
  set (s3 := update_last_user_ts s2 chat_id (InboundEvent.timestamp event)).
  assert (Hget3 : get_conversation s3 chat_id
    = Some (ConversationState.mk
              (ConversationState.chat_id base)
              (ConversationState.chat_type base)
              (ConversationState.summary base)
              (Some (InboundEvent.timestamp event))
              (ConversationState.last_bot_ts_utc base)
              (ConversationState.daily_count base)
              (ConversationState.daily_date base))).
  { unfold s3, update_last_user_ts.
    rewrite get_conversation_update by reflexivity.
    rewrite String.eqb_refl.
    rewrite (get_conversation_same s2 s1) by reflexivity.
    rewrite Hget1. reflexivity. }
  assert (Hother3 : forall other, other <> chat_id ->
    get_conversation s3 other = get_conversation (AppState.db st) other).
  { intros other Hneq. unfold s3, update_last_user_ts.
    rewrite get_conversation_update by reflexivity.
    pose proof Hneq as Hneq'. apply String.eqb_neq in Hneq'. rewrite Hneq'.
    rewrite (get_conversation_same s2 s1) by reflexivity.
    apply Hother1, Hneq. }
  exists (fst (Turn._refresh_daily_counter s3 base today)).
  assert (Hpair : snd (Turn._refresh_daily_counter s3 base today)
                  = (rolled_count base today, today)).
  { unfold Turn._refresh_daily_counter, rolled_count.
    destruct (ConversationState.daily_date base) as [d|];
      [|reflexivity].
    destruct (d =? today) eqn:Ed; cbn [negb snd]; [|reflexivity].
    apply Z.eqb_eq in Ed. subst d. reflexivity. }
  split.
  { fold today. rewrite Hpair. cbn [fst snd]. reflexivity. }
  unfold Turn._refresh_daily_counter, rolled_count.
  destruct (ConversationState.daily_date base) as [d|] eqn:Edate.
  - destruct (d =? today) eqn:Ed; cbn [negb fst].
    + apply Z.eqb_eq in Ed. subst d.
      split; [exact Hplans1|]. split; [exact Hseq1|].
      split; [cbn; rewrite Hmsg1; reflexivity|].
      split; [exact Hother3|].
      rewrite Hget3, Hid, Htype. reflexivity.
    + split; [exact Hplans1|]. split; [exact Hseq1|].
      split; [cbn; rewrite Hmsg1; reflexivity|].
      split.
      * intros other Hneq. unfold update_daily_counter.
        rewrite get_conversation_update by reflexivity.
        pose proof Hneq as Hneq'. apply String.eqb_neq in Hneq'.
        rewrite Hid, Hneq'. apply Hother3, Hneq.
      * unfold update_daily_counter.
        rewrite get_conversation_update by reflexivity.
        rewrite Hid, String.eqb_refl, Hget3. cbn. rewrite Hid, Htype.
        reflexivity.
  - cbn [fst].
    split; [exact Hplans1|]. split; [exact Hseq1|].
    split; [cbn; rewrite Hmsg1; reflexivity|].
    split.
    + intros other Hneq. unfold update_daily_counter.
      rewrite get_conversation_update by reflexivity.
      pose proof Hneq as Hneq'. apply String.eqb_neq in Hneq'.
      rewrite Hid, Hneq'. apply Hother3, Hneq.
    + unfold update_daily_counter.
      rewrite get_conversation_update by reflexivity.
      rewrite Hid, String.eqb_refl, Hget3. cbn. rewrite Hid, Htype.
      reflexivity.
Qed.

Lemma store_summary_result (event : InboundEvent.t)
      (conversation : ConversationState.t) (st : AppState.t Connector) :
  Event.store_summary Connector event conversation st
  = (with_db st
       (update_conversation_summary (AppState.db st)
          (InboundEvent.chat_id event)
          (update_summary (ConversationState.summary conversation)
             (get_recent_messages (AppState.db st)
                (InboundEvent.chat_id event) (AppState.recent_messages st))
             (AppState.summary_max_chars st))),
     inr tt).
Proof. reflexivity. Qed.

(** The recent messages are read from the messages alone. *)
Lemma get_recent_messages_same (a b : BotDB) (chat_id : string) (limit : Z) :
  messages a = messages b ->
  get_recent_messages a chat_id limit = get_recent_messages b chat_id limit.
Proof. unfold get_recent_messages. intros ->. reflexivity. Qed.


(** Whatever the outcome of the handler, a relation between stores that
    every write of the handler respects holds between the store before and
    the store after. *)
Section EventSteps.

Variable chat_id : string.
Variable R : BotDB -> BotDB -> Prop.

Hypothesis R_refl : forall s, R s s.
Hypothesis R_trans : forall a b c, R a b -> R b c -> R a c.
Hypothesis R_ensure : forall s chat_type,
  R s (fst (ensure_conversation s chat_id chat_type)).
Hypothesis R_message : forall s sender_id role ts content msg_type,
  R s (add_message s chat_id sender_id role ts content msg_type).
Hypothesis R_conversation : forall s set,
  (forall row, ConversationState.chat_id (set row)
               = ConversationState.chat_id row) ->
  R s (update_conversation s chat_id set).
Hypothesis R_planning :
  forall s settings event action plan_item pending_count conversation
         now_utc_ts local_now_dt,
    InboundEvent.chat_id event = chat_id ->
    R s (_apply_planning parse_send_at utcoffset s settings event action
                         plan_item pending_count conversation now_utc_ts
                         local_now_dt).

Lemma step_bind {A B : Type} (c : Event.H Connector A)
      (k : A -> Event.H Connector B) (st : AppState.t Connector) :
  R (AppState.db st) (AppState.db (fst (c st))) ->
  (forall a st1, R (AppState.db st1) (AppState.db (fst (k a st1)))) ->
  R (AppState.db st) (AppState.db (fst (Event.bind Connector c k st))).
Proof.
  intros Hc Hk. unfold Event.bind.
  destruct (c st) as [st1 [e|a]] eqn:E; cbn [fst] in *; [exact Hc|].
  eapply R_trans; [exact Hc | apply Hk].
Qed.

Lemma step_connector_call (call : ConnectorCall)
      (f : Connector -> option Connector) (st : AppState.t Connector) :
  R (AppState.db st)
    (AppState.db (fst (Event.connector_call Connector call f st))).
Proof.
  unfold Event.connector_call.
  destruct (f (AppState.connector st)); cbn; apply R_refl.
Qed.

Lemma step_generate_response (context : LLMContext.t)
      (st : AppState.t Connector) :
  R (AppState.db st) (AppState.db (fst (generate_response context st))).
Proof.
  unfold Event.generate_response.
  destruct (negb (AppState.llm_configured st)); [apply R_refl|].
  destruct (http_answer context); try apply R_refl.
  destruct (Event._parse_output model_validate_json content); apply R_refl.
Qed.

Lemma step_store_summary (event : InboundEvent.t)
      (conversation : ConversationState.t) (st : AppState.t Connector) :
  InboundEvent.chat_id event = chat_id ->
  R (AppState.db st)
    (AppState.db (fst (Event.store_summary Connector event conversation st))).
Proof.
  intros Hchat. rewrite store_summary_result. cbn [fst AppState.db Event.with_db].
  rewrite Hchat. apply R_conversation. reflexivity.
Qed.

Lemma step_receive (readings : Readings.t) (event : InboundEvent.t)
      (st : AppState.t Connector) :
  InboundEvent.chat_id event = chat_id ->
  R (AppState.db st)
    (AppState.db (fst (Event.receive Connector readings event st))).
Proof.
  intros Hchat.
  destruct (ensure_conversation_facts (AppState.db st) chat_id
              (InboundEvent.chat_type event))
    as (s1 & Hensure & _ & Hid & _).
  pose proof (R_ensure (AppState.db st) (InboundEvent.chat_type event)) as H1.
  rewrite Hensure in H1. cbn [fst] in H1.
  unfold Event.receive, Event.db_ensure_conversation, Event.bind,
    Event.db_call, Event.db_exec, Event.ret.
  rewrite Hchat, Hensure. cbn [fst snd AppState.db Event.with_db].
  set (s2 := add_message s1 chat_id (InboundEvent.sender_id event) "user"
               (InboundEvent.timestamp event) (InboundEvent.text event)
               "text").
  set (s3 := update_last_user_ts s2 chat_id (InboundEvent.timestamp event)).
  apply (R_trans _ s1); [exact H1|].
  apply (R_trans _ s2); [apply R_message|].
  apply (R_trans _ s3);
    [unfold s3, update_last_user_ts; apply R_conversation; reflexivity|].
  unfold Turn._refresh_daily_counter.
  destruct (match ConversationState.daily_date _ with
            | Some d => negb (d =? date (Readings.refresh_local_now readings))
            | None => true
            end); cbn [fst]; [|apply R_refl].
  rewrite Hid. unfold update_daily_counter. apply R_conversation.
  reflexivity.
Qed.

Lemma step_send_reply_gif (readings : Readings.t) (event : InboundEvent.t)
      (reply : LLMReply.t) (now_utc_ts : Z) (st : AppState.t Connector) :
  InboundEvent.chat_id event = chat_id ->
  R (AppState.db st)
    (AppState.db
       (fst (Event.send_reply_gif Connector send_gif readings event reply
                                  now_utc_ts st))).
Proof.
  intros Hchat. unfold Event.send_reply_gif.
  destruct (LLMReply.send_gif reply && _); [|apply R_refl].
  destruct (pick_gif _ _ _) as [gif_path|]; [|apply R_refl].
  apply step_bind; [apply step_connector_call|].
  intros _ st1. cbn. rewrite Hchat. apply R_message.
Qed.

Lemma step_answer (readings : Readings.t) (event : InboundEvent.t)
      (conversation : ConversationState.t) (st : AppState.t Connector) :
  InboundEvent.chat_id event = chat_id ->
  R (AppState.db st)
    (AppState.db (fst (answer readings event conversation st))).
Proof.
  intros Hchat. unfold Event.answer.
  apply step_bind; [apply R_refl|]. intros recent_messages st1.
  apply step_bind; [apply R_refl|]. intros pending_plans st2.
  apply step_bind; [apply step_generate_response|]. intros llm_output st3.
  apply step_bind; [apply step_connector_call|]. intros _ st4.
  apply step_bind; [cbn; rewrite Hchat; apply R_message|]. intros _ st5.
  apply step_bind.
  { cbn. rewrite Hchat. unfold update_last_bot_ts. apply R_conversation.
    reflexivity. }
  intros _ st6.
  apply step_bind; [apply step_send_reply_gif, Hchat|]. intros _ st7.
  apply step_bind; [cbn; apply R_planning, Hchat|]. intros _ st8.
  apply step_bind; [apply step_store_summary, Hchat|]. intros _ st9.
  apply R_refl.
Qed.

Lemma wechat_event_steps (readings : Readings.t) (event : InboundEvent.t)
      (x_bot_secret : option string) (st : AppState.t Connector) :
  InboundEvent.chat_id event = chat_id ->
  R (AppState.db st)
    (AppState.db (fst (wechat_event readings event x_bot_secret st))).
Proof.
  intros Hchat. unfold Event.wechat_event.
  destruct (Event.secret_differs _ _); [apply R_refl|].
  apply step_bind; [apply step_receive, Hchat|]. intros conversation st1.
  destruct (ChatType_eqb _ _ && _).
  - apply step_bind; [apply step_store_summary, Hchat|]. intros _ st2.
    apply R_refl.
  - apply step_answer, Hchat.
Qed.

End EventSteps.

End HandlerFacts.

Lemma apply_planning_keeps
      (parse_send_at : string -> string -> option datetime)
      (utcoffset : string -> timedelta) (db : BotDB) (settings : Settings.t)
      (event : InboundEvent.t) (action : Action)
      (plan_item : option LLMPlanItem.t) (pending_count : Z)
      (conversation : ConversationState.t) (now_utc_ts : Z)
      (local_now_dt : datetime) :
  let after := _apply_planning parse_send_at utcoffset db settings event
                               action plan_item pending_count conversation
                               now_utc_ts local_now_dt in
  conversations after = conversations db /\ messages after = messages db.
Proof.
  intros after.
  destruct (apply_planning_cases parse_send_at utcoffset db settings event
              action plan_item pending_count conversation now_utc_ts
              local_now_dt)
    as [H | [H | (item & plan & _ & _ & [H | H])]];
    fold after in H; rewrite H.
  - split; reflexivity.
  - split; reflexivity.
  - destruct (insert_plan_rows
                (cancel_pending db (InboundEvent.chat_id event) now_utc_ts)
                (InboundEvent.chat_id event) plan now_utc_ts)
      as (row & _ & _ & Hc & Hm & _).
    rewrite Hc, Hm. split; reflexivity.
  - destruct (insert_plan_rows db (InboundEvent.chat_id event) plan
                               now_utc_ts)
      as (row & _ & _ & Hc & Hm & _).
    split; assumption.
Qed.

Lemma plans_of_others_cancel (db : BotDB) (chat_id : string) (now_utc : Z) :
  plans_of_others chat_id (cancel_pending db chat_id now_utc)
  = plans_of_others chat_id db.
Proof.
  unfold plans_of_others, cancel_pending. cbn [plans with_plans].
  induction (plans db) as [|r rest IH]; [reflexivity|].
  cbn [map filter]. rewrite IH.
  destruct (pending_of chat_id r) eqn:E; [|reflexivity].
  unfold pending_of in E. apply andb_true_iff in E. destruct E as (Ec & _).
  cbn [PlanRow.chat_id set_status]. rewrite Ec. reflexivity.
Qed.

Lemma plans_of_others_insert (db : BotDB) (chat_id : string)
      (plan : PlanTuple) (now_utc : Z) :
  plans_of_others chat_id (insert_plan db chat_id plan now_utc)
  = plans_of_others chat_id db.
Proof.
  unfold plans_of_others.
  destruct (insert_plan_rows db chat_id plan now_utc)
    as (row & -> & _ & _ & _ & _ & Hchat & _).
  rewrite filter_app. cbn [filter]. rewrite Hchat, String.eqb_refl.
  cbn [negb]. apply app_nil_r.
Qed.

Lemma touches_only_refl (chat_id : string) (s : BotDB) :
  touches_only chat_id s s.
Proof.
  split; [reflexivity|]. split; [reflexivity|].
  exists []. split; [rewrite app_nil_r; reflexivity | constructor].
Qed.

Lemma touches_only_trans (chat_id : string) (a b c : BotDB) :
  touches_only chat_id a b -> touches_only chat_id b c ->
  touches_only chat_id a c.
Proof.
  intros (Hc1 & Hp1 & added1 & Hm1 & Ha1) (Hc2 & Hp2 & added2 & Hm2 & Ha2).
  split; [intros other Hneq; rewrite Hc2, Hc1 by exact Hneq; reflexivity|].
  split; [rewrite Hp2, Hp1; reflexivity|].
  exists (added1 ++ added2).
  split; [rewrite Hm2, Hm1, app_assoc; reflexivity|].
  apply Forall_app. split; assumption.
Qed.

Lemma touches_only_ensure (chat_id : string) (s : BotDB)
      (chat_type : ChatType) :
  touches_only chat_id s (fst (ensure_conversation s chat_id chat_type)).
Proof.
  destruct (ensure_conversation_facts s chat_id chat_type)
    as (after & -> & _ & _ & _ & Hother & Hplans & _ & Hmsg).
  cbn [fst]. split; [exact Hother|].
  split; [unfold plans_of_others; rewrite Hplans; reflexivity|].
  exists []. split; [rewrite app_nil_r; exact Hmsg | constructor].
Qed.

Lemma touches_only_message (chat_id : string) (s : BotDB)
      (sender_id role : string) (ts : Z) (content msg_type : string) :
  touches_only chat_id s
    (add_message s chat_id sender_id role ts content msg_type).
Proof.
  split; [reflexivity|]. split; [reflexivity|].
  eexists. split; [reflexivity|]. repeat constructor.
Qed.

Lemma touches_only_conversation (chat_id : string) (s : BotDB)
      (set : ConversationState.t -> ConversationState.t) :
  (forall row, ConversationState.chat_id (set row)
               = ConversationState.chat_id row) ->
  touches_only chat_id s (update_conversation s chat_id set).
Proof.
  intros Hid. split.
  - intros other Hneq. rewrite get_conversation_update by exact Hid.
    apply String.eqb_neq in Hneq. rewrite Hneq. reflexivity.
  - split; [reflexivity|].
    exists []. split; [rewrite app_nil_r; reflexivity | constructor].
Qed.

Lemma touches_only_planning
      (parse_send_at : string -> string -> option datetime)
      (utcoffset : string -> timedelta) (chat_id : string) (s : BotDB)
      (settings : Settings.t) (event : InboundEvent.t) (action : Action)
      (plan_item : option LLMPlanItem.t) (pending_count : Z)
      (conversation : ConversationState.t) (now_utc_ts : Z)
      (local_now_dt : datetime) :
  InboundEvent.chat_id event = chat_id ->
  touches_only chat_id s
    (_apply_planning parse_send_at utcoffset s settings event action
                     plan_item pending_count conversation now_utc_ts
                     local_now_dt).
Proof.
  intros Hchat.
  destruct (apply_planning_keeps parse_send_at utcoffset s settings event
              action plan_item pending_count conversation now_utc_ts
              local_now_dt) as (Hc & Hm).
  split; [intros other _; apply get_conversation_same, Hc|].
  split; [|exists []; split; [rewrite app_nil_r; exact Hm | constructor]].
  destruct (apply_planning_cases parse_send_at utcoffset s settings event
              action plan_item pending_count conversation now_utc_ts
              local_now_dt)
    as [H | [H | (item & plan & _ & _ & [H | H])]];
    rewrite H, ?Hchat.
  - reflexivity.
  - apply plans_of_others_cancel.
  - rewrite plans_of_others_insert. apply plans_of_others_cancel.
  - apply plans_of_others_insert.
Qed.

Section HandlerPaths.

Variable Connector : Type.
Variable send_text : Connector -> string -> string -> option Connector.
Variable send_gif : Connector -> string -> string -> option Connector.
Variable parse_send_at : string -> string -> option datetime.
Variable utcoffset : string -> timedelta.
Variable http_answer : LLMContext.t -> Event.LLMAnswer.
Variable model_validate_json : string -> option LLMOutput.t.

Local Abbreviation wechat_event :=
  (Event.wechat_event Connector send_text send_gif parse_send_at utcoffset
                      http_answer model_validate_json).
Local Abbreviation generate_response :=
  (Event.generate_response Connector http_answer model_validate_json).
Local Abbreviation with_db := (Event.with_db Connector).

(** The client answers, with the dummy answer when it is not configured,
    or raises on a body of another shape. *)
Lemma generate_response_cases (context : LLMContext.t)
      (st : AppState.t Connector) :
  (generate_response context st = (st, inl Event.AnswerShape)
   /\ AppState.llm_configured st = true
   /\ http_answer context = Event.BadShape)
  \/ exists llm_output,
       generate_response context st = (st, inr llm_output)
       /\ (AppState.llm_configured st = false ->
           llm_output = _dummy_response (LLMContext.incoming_text context)).
Proof.
  unfold Event.generate_response.
  destruct (AppState.llm_configured st) eqn:E; cbn [negb].
  - destruct (http_answer context) as [| |content] eqn:Ea.
    + right. eexists. split; [reflexivity | discriminate].
    + left. repeat split.
    + right. destruct (Event._parse_output model_validate_json content);
        eexists; (split; [reflexivity | discriminate]).
  - right. eexists. split; [reflexivity | reflexivity].
Qed.

(** X30: an event never reaches another chat, and a reply that cannot go
    out leaves no trace of the bot.  Whatever the outcome of the handler,
    the conversations and the plan rows of the other chats are as before
    and every message added is of the chat of the event.  A wrong or
    missing secret gives 401 with nothing written or sent.  When the
    handler is to answer and the connector raises on [send_text] (or the
    body of the LLM has another shape), the exception goes to the caller
    with the message of the user recorded, no message of the bot, the
    plans as they were, the connector as it was and the last bot time of
    the conversation unchanged. *)
Theorem event_touches_its_chat_only (readings : Readings.t)
        (event : InboundEvent.t) (x_bot_secret : option string)
        (st : AppState.t Connector) :
  let chat_id := InboundEvent.chat_id event in
  let today := date (Readings.refresh_local_now readings) in
  let base := conversation_base (AppState.db st) chat_id
                                (InboundEvent.chat_type event) in
  let result := wechat_event readings event x_bot_secret st in
  touches_only chat_id (AppState.db st) (AppState.db (fst result))
  /\ (Event.secret_differs x_bot_secret (AppState.shared_secret st) = true ->
      result = (st, inl Event.Unauthorized))
  /\ (Event.secret_differs x_bot_secret (AppState.shared_secret st) = false ->
      ChatType_eqb (InboundEvent.chat_type event) group
      && negb (should_reply_in_group (InboundEvent.is_mention event)
                                     (AppState.settings st)) = false ->
      (forall text,
         send_text (AppState.connector st) chat_id text = None) ->
      exists s,
        fst result = with_db st s
        /\ (snd result
            = inl (Event.Raised (ConnectorError SendText))
            \/ snd result = inl Event.AnswerShape)
        /\ plans s = plans (AppState.db st)
        /\ messages s = messages (AppState.db st) ++ [user_message event]
        /\ get_conversation s chat_id
           = Some (ConversationState.mk chat_id
                     (InboundEvent.chat_type event)
                     (ConversationState.summary base)
                     (Some (InboundEvent.timestamp event))
                     (ConversationState.last_bot_ts_utc base)
                     (rolled_count base today) (Some today))).
Proof.
  intros chat_id today base result. split; [|split].
  - unfold result.
    apply (wechat_event_steps Connector send_text send_gif parse_send_at
             utcoffset http_answer model_validate_json chat_id
             (touches_only chat_id)).
    + apply touches_only_refl.
    + apply touches_only_trans.
    + apply touches_only_ensure.
    + apply touches_only_message.
    + apply touches_only_conversation.
    + intros. apply touches_only_planning. assumption.
    + reflexivity.
  - intros Hdiff. unfold result, Event.wechat_event. rewrite Hdiff.
    reflexivity.
  - intros Hauth Hreply Hdown.
    destruct (receive_result Connector readings event st)
      as (s1 & Hrecv & Hplans & _ & Hmsg & _ & Hget).
    fold chat_id today base in Hrecv, Hget.
    assert (Hres : exists failure,
      result = (with_db st s1, inl failure)
      /\ (failure = Event.Raised (ConnectorError SendText)
          \/ failure = Event.AnswerShape)).
    { unfold result, Event.wechat_event. rewrite Hauth.
      unfold Event.bind at 1. rewrite Hrecv.
      cbn [AppState.settings Event.with_db]. rewrite Hreply.
      unfold Event.answer.
      unfold Event.bind at 1. unfold Event.db_query at 1.
      unfold Event.bind at 1. unfold Event.db_query at 1.
      unfold Event.bind at 1.
      match goal with
      | |- context [Event.generate_response _ _ _ ?ctx ?st1] =>
        destruct (generate_response_cases ctx st1)
          as [(Hgen & _) | (llm_output & Hgen & _)]; rewrite Hgen
      end.
      - eexists. split; [reflexivity | right; reflexivity].
      - unfold Event.bind at 1. unfold Event.connector_call at 1.
        cbn [AppState.connector Event.with_db]. fold chat_id.
        rewrite Hdown. eexists. split; [reflexivity | left; reflexivity]. }
    exists s1. destruct Hres as (failure & -> & Hfailure). cbn [fst snd].
    split; [reflexivity|].
    split; [destruct Hfailure as [-> | ->];
            [left; reflexivity | right; reflexivity]|].
    repeat split; assumption.
Qed.






End HandlerPaths.



Lemma event_touches_its_chat_only_witness :
  let st := sample_app false (store_of [plan_row_of 1 "b" 30 pending]) in
  let down := fun _ : string => true in
  let result := sample_wechat_event down sample_event
                                    (Some "s3cret"%string) st in
  snd result = inl (Event.Raised (ConnectorError SendText))
  /\ plans_of_others "a" (AppState.db (fst result))
     = [plan_row_of 1 "b" 30 pending]
  /\ messages (AppState.db (fst result)) = [user_message sample_event].
Proof.
  intros st down result.
  destruct (event_touches_its_chat_only Outbox (outbox_send down)
              (outbox_send down) sample_parse sample_utcoffset no_answer
              no_json sample_readings sample_event (Some "s3cret"%string) st)
    as ((_ & Hothers & _) & _ & Hfail).
  destruct (Hfail eq_refl eq_refl (fun text => eq_refl))
    as (s & Hst & Hresult & _ & Hmsg & _).
  split; [|split].
  - destruct Hresult as [H | H]; [exact H|].
    exfalso. revert H. vm_compute. discriminate.
  - exact Hothers.
  - unfold result. change (fst (sample_wechat_event down sample_event
                                  (Some "s3cret"%string) st))
      with (fst (Event.wechat_event Outbox (outbox_send down)
                   (outbox_send down) sample_parse sample_utcoffset
                   no_answer no_json sample_readings sample_event
                   (Some "s3cret"%string) st)).
    rewrite Hst. exact Hmsg.
Defined.
